(** * BED to JSON converter: variant alias engine

    A shallow embedding of [bed_to_json_converter.py]: the amino-acid code
    table, the notation parser ([VariantParser]), the alias builder
    ([BedToJsonConverter.process_row]) and the two conversion drivers
    ([convert_file], [process_file_streaming]), followed by the properties
    of the design description that were checked against them.

    Conventions of the embedding.
    - A Python [str] is a [string]; the input is taken to be ASCII text, so
      the character classes below are the ASCII part of Python's
      ([str.isspace], [str.isdigit], [\d], [str.upper], ...).  Characters
      above 127 are kept as opaque symbols.
    - A Python [int] is a [Z].  CPython's configurable cap on the number of
      digits [int()] and [str()] accept is left out.
    - A [dict] is a [gmap]; an [OrderedDict] is an association list in
      insertion order; the statistics dictionary, whose keys are fixed, is a
      record of counters read and incremented through an enumeration of its
      keys.
    - The CSV reader is the list of the rows it yields together with the
      way it ends ([reader_end]): exhausted, or raising after those rows.
    - Logging has no effect on the results and is left out, and with it the
      [row_num] argument, which only feeds log messages. *)

From Stdlib Require Import ZArith Ascii List Lia DecimalString.
From Stdlib Require DecimalPos.
From stdpp Require Import gmap strings.

Local Open Scope Z_scope.

(** ** Python string primitives *)

Module PyStr.

Definition code (c : ascii) : N := N_of_ascii c.

Definition in_range (lo hi : N) (c : ascii) : bool :=
  (N.leb lo (code c) && N.leb (code c) hi)%bool.

(** [str.isspace] on one ASCII character: TAB..CR, FS..US and space. *)
Definition is_space (c : ascii) : bool :=
  (in_range 9 13 c || in_range 28 32 c)%bool.

(** [0-9], which is [\d] and [str.isdigit] on ASCII. *)
Definition is_digit (c : ascii) : bool := in_range 48 57 c.

Definition is_upper (c : ascii) : bool := in_range 65 90 c.
Definition is_lower (c : ascii) : bool := in_range 97 122 c.

(** [[A-Za-z]] *)
Definition is_alpha (c : ascii) : bool := (is_upper c || is_lower c)%bool.

Definition upper_char (c : ascii) : ascii :=
  if is_lower c then ascii_of_N (code c - 32) else c.
Definition lower_char (c : ascii) : ascii :=
  if is_upper c then ascii_of_N (code c + 32) else c.

Fixpoint map_chars (f : ascii -> ascii) (s : string) : string :=
  match s with
  | EmptyString => EmptyString
  | String c r => String (f c) (map_chars f r)
  end.

(** [s.upper()], [s.lower()], [s.capitalize()] *)
Definition upper : string -> string := map_chars upper_char.
Definition lower : string -> string := map_chars lower_char.
Definition capitalize (s : string) : string :=
  match s with
  | EmptyString => EmptyString
  | String c r => String (upper_char c) (lower r)
  end.

(** [len(s)] *)
Fixpoint len (s : string) : nat :=
  match s with
  | EmptyString => O
  | String _ r => S (len r)
  end.

(** truth value of a string: [if s], [not s] *)
Definition truthy (s : string) : bool :=
  match s with EmptyString => false | _ => true end.

(** [s == t] *)
Definition eqb (s t : string) : bool := bool_decide (s = t).

(** [s.startswith(p)] *)
Fixpoint startswith (s p : string) : bool :=
  match p with
  | EmptyString => true
  | String a p' =>
      match s with
      | EmptyString => false
      | String b s' => (bool_decide (a = b) && startswith s' p')%bool
      end
  end.

(** [p in s] *)
Fixpoint contains (p s : string) : bool :=
  (startswith s p ||
   match s with
   | EmptyString => false
   | String _ r => contains p r
   end)%bool.

(** [s[n:]] *)
Fixpoint drop (n : nat) (s : string) : string :=
  match n, s with
  | O, _ => s
  | S _, EmptyString => EmptyString
  | S k, String _ r => drop k r
  end.

(** [all(p(c) for c in s)] *)
Fixpoint all_chars (p : ascii -> bool) (s : string) : bool :=
  match s with
  | EmptyString => true
  | String c r => (p c && all_chars p r)%bool
  end.

(** [s.isdigit()]: at least one character and all of them digits. *)
Definition isdigit (s : string) : bool := (truthy s && all_chars is_digit s)%bool.

(** [s.strip()] *)
Fixpoint lstrip (s : string) : string :=
  match s with
  | EmptyString => EmptyString
  | String c r => if is_space c then lstrip r else s
  end.
Fixpoint rstrip (s : string) : string :=
  match s with
  | EmptyString => EmptyString
  | String c r =>
      match rstrip r with
      | EmptyString => if is_space c then EmptyString else String c EmptyString
      | r' => String c r'
      end
  end.
Definition strip (s : string) : string := rstrip (lstrip s).

(** [s.replace(old, new)] for a non-empty [old]: the occurrences of [old]
    are found from the left and do not overlap.  [skip] counts the
    characters of a found occurrence still to be passed over. *)
Fixpoint replace_from (old new : string) (skip : nat) (s : string) : string :=
  match s with
  | EmptyString => EmptyString
  | String c r =>
      match skip with
      | S k => replace_from old new k r
      | O =>
          if startswith s old
          then new +:+ replace_from old new (Nat.pred (len old)) r
          else String c (replace_from old new O r)
      end
  end.
Definition replace (s old new : string) : string := replace_from old new O s.

(** [s.split(sep)] for a separator of one character, which is all the
    program uses. *)
Fixpoint split (s : string) (sep : ascii) : list string :=
  match s with
  | EmptyString => [EmptyString]
  | String c r =>
      if bool_decide (c = sep) then EmptyString :: split r sep
      else match split r sep with
           | [] => [String c EmptyString]
           | w :: ws => String c w :: ws
           end
  end.

(** [s.split(sep, 1)]: cut at the first separator only. *)
Fixpoint split1 (s : string) (sep : ascii) : list string :=
  match s with
  | EmptyString => [EmptyString]
  | String c r =>
      if bool_decide (c = sep) then [EmptyString; r]
      else match split1 r sep with
           | [] => [String c EmptyString]
           | w :: ws => String c w :: ws
           end
  end.

(** [int(s)]: surrounding white space, an optional sign, then decimal
    digits in which single underscores may separate digits.  Around an
    ASCII numeral [int] skips TAB..CR and space only, fewer characters than
    [str.strip] removes. *)
Definition is_int_space (c : ascii) : bool :=
  (in_range 9 13 c || bool_decide (c = " "%char))%bool.

Fixpoint int_lstrip (s : string) : string :=
  match s with
  | EmptyString => EmptyString
  | String c r => if is_int_space c then int_lstrip r else s
  end.
Fixpoint int_rstrip (s : string) : string :=
  match s with
  | EmptyString => EmptyString
  | String c r =>
      match int_rstrip r with
      | EmptyString => if is_int_space c then EmptyString else String c EmptyString
      | r' => String c r'
      end
  end.

Definition digit_val (c : ascii) : Z := Z.of_N (code c) - 48.

Fixpoint int_digits (acc : Z) (after_digit : bool) (s : string) : option Z :=
  match s with
  | EmptyString => if after_digit then Some acc else None
  | String c r =>
      if is_digit c then int_digits (10 * acc + digit_val c) true r
      else if (bool_decide (c = "_"%char) && after_digit)%bool
           then int_digits acc false r
           else None
  end.

Definition int (s : string) : option Z :=
  match int_rstrip (int_lstrip s) with
  | String "-" r => Z.opp <$> int_digits 0 false r
  | String "+" r => int_digits 0 false r
  | r => int_digits 0 false r
  end.

(** [str(n)], as an f-string renders an [int]. *)
Definition str (n : Z) : string := NilZero.string_of_int (Z.to_int n).

End PyStr.

(** ** The amino-acid code table *)

(** The items of the literal [AA_3_TO_1_MAP], in the order they are written. *)
Definition AA_3_TO_1_items : list (string * string) :=
  [ ("Ala", "A"); ("Arg", "R"); ("Asn", "N"); ("Asp", "D");
    ("Cys", "C"); ("Gln", "Q"); ("Glu", "E"); ("Gly", "G");
    ("His", "H"); ("Ile", "I"); ("Leu", "L"); ("Lys", "K");
    ("Met", "M"); ("Phe", "F"); ("Pro", "P"); ("Ser", "S");
    ("Thr", "T"); ("Trp", "W"); ("Tyr", "Y"); ("Val", "V");
    ("Ter", "*"); ("Stop", "*"); ("Xaa", "X") ].

Definition AA_3_TO_1_MAP : gmap string string := list_to_map AA_3_TO_1_items.

(** [{v: k for k, v in AA_3_TO_1_MAP.items() if len(v) == 1}]: the items are
    visited in insertion order and a later item replaces an earlier one with
    the same key, so ["*"] ends up bound to ["Stop"]. *)
Definition AA_1_TO_3_MAP : gmap string string :=
  fold_left
    (fun m '(k, v) => if Nat.eqb (PyStr.len v) 1 then <[v := k]> m else m)
    AA_3_TO_1_items ∅.

(** [d.get(k, default)] *)
Definition dict_get (d : gmap string string) (k dflt : string) : string :=
  default dflt (d !! k).

(** ** Matching the HGVSp patterns

    The six regular expressions of [parse_hgvsp] are matched by [re.match],
    that is, anchored at the start.  In each of them every repetition and
    every optional item is followed by something that cannot begin with a
    character the item itself accepts, so the greedy match is the only
    candidate and backtracking never finds another one; the scanners below
    take the longest run and go on from there. *)

Module Re.

(** the longest prefix of [s] whose characters satisfy [p], and the rest *)
Fixpoint span (p : ascii -> bool) (s : string) : string * string :=
  match s with
  | EmptyString => (EmptyString, EmptyString)
  | String c r =>
      if p c then let '(w, r') := span p r in (String c w, r')
      else (EmptyString, s)
  end.

(** [cls+] *)
Definition many1 (p : ascii -> bool) (s : string) : option (string * string) :=
  let '(w, r) := span p s in
  if PyStr.truthy w then Some (w, r) else None.

(** a literal *)
Definition lit (l s : string) : option string :=
  if PyStr.startswith s l then Some (PyStr.drop (PyStr.len l) s) else None.

(** [c?] for a literal character [c] *)
Definition opt_char (c : ascii) (s : string) : string :=
  match s with
  | String a r => if bool_decide (a = c) then r else s
  | EmptyString => s
  end.

(** [([A-Za-z]{3})] *)
Definition letters3 (s : string) : option (string * string) :=
  match s with
  | String a (String b (String c r)) =>
      if (PyStr.is_alpha a && PyStr.is_alpha b && PyStr.is_alpha c)%bool
      then Some (String a (String b (String c EmptyString)), r)
      else None
  | _ => None
  end.

(** [(\d+)] *)
Definition digits (s : string) : option (string * string) :=
  many1 PyStr.is_digit s.

(** [$]: the end of the string, or a line feed that ends the string *)
Definition at_end (s : string) : bool :=
  match s with
  | EmptyString => true
  | String c EmptyString => bool_decide (c = "010"%char)
  | _ => false
  end.

(** [^([^:]+):p\.?\(?], the start of all six patterns: the protein
    identifier and what follows the optional parenthesis *)
Definition head (s : string) : option (string * string) :=
  '(pid, r) ← many1 (fun c => negb (bool_decide (c = ":"%char))) s;
  r ← lit ":p" r;
  Some (pid, opt_char "(" (opt_char "." r)).

(** [(?:_[A-Za-z]{3}\d+)?] *)
Definition opt_range (s : string) : string :=
  match (r ← lit "_" s; '(_, r) ← letters3 r; digits r) with
  | Some (_, r) => r
  | None => s
  end.

(** [^([^:]+):p\.?\(?([A-Za-z]{3})(\d+)(ALT)\)?$] where ALT is
    [[A-Za-z]{3}] or else an escaped star;
    the groups are (protein_id, ref_aa, position, alt_aa) *)
Definition pattern (s : string) : option (string * string * string * string) :=
  '(pid, r) ← head s;
  '(ref_aa, r) ← letters3 r;
  '(position, r) ← digits r;
  '(alt_aa, r) ← match letters3 r with
                 | Some m => Some m
                 | None => (fun r' => ("*", r')) <$> lit "*" r
                 end;
  if at_end (opt_char ")" r) then Some (pid, ref_aa, position, alt_aa) else None.

(** [^([^:]+):p\.?\(?([A-Za-z]{3})(\d+)([A-Za-z]{3})fs(?:Ter(\d+))?];
    the trailing optional group never decides the match and its capture is
    not used, so only the first four groups are returned *)
Definition fs_pattern (s : string) : option (string * string * string * string) :=
  '(pid, r) ← head s;
  '(ref_aa, r) ← letters3 r;
  '(position, r) ← digits r;
  '(alt_aa, r) ← letters3 r;
  _ ← lit "fs" r;
  Some (pid, ref_aa, position, alt_aa).

(** [^([^:]+):p\.?\(?([A-Za-z]{3})(\d+)(?:_[A-Za-z]{3}\d+)?del] and the
    same with [dup]; [suffix] is the closing literal *)
Definition range_pattern (suffix s : string) : option (string * string * string) :=
  '(pid, r) ← head s;
  '(ref_aa, r) ← letters3 r;
  '(position, r) ← digits r;
  _ ← lit suffix (opt_range r);
  Some (pid, ref_aa, position).

Definition del_pattern : string -> option (string * string * string) :=
  range_pattern "del".
Definition dup_pattern : string -> option (string * string * string) :=
  range_pattern "dup".

(** [^([^:]+):p\.?\(?([A-Za-z]{3})(\d+)_[A-Za-z]{3}\d+ins[A-Za-z]+] *)
Definition ins_pattern (s : string) : option (string * string * string) :=
  '(pid, r) ← head s;
  '(ref_aa, r) ← letters3 r;
  '(position, r) ← digits r;
  r ← lit "_" r;
  '(_, r) ← letters3 r;
  '(_, r) ← digits r;
  r ← lit "ins" r;
  _ ← many1 PyStr.is_alpha r;
  Some (pid, ref_aa, position).

(** [^([^:]+):p\.?\(?\*(\d+)([A-Za-z]{3})ext] *)
Definition ext_pattern (s : string) : option (string * string * string) :=
  '(pid, r) ← head s;
  r ← lit "*" r;
  '(position, r) ← digits r;
  '(new_aa, r) ← letters3 r;
  _ ← lit "ext" r;
  Some (pid, position, new_aa).

End Re.

(** ** VariantParser *)

(** [parse_hgvsp]: the result is (protein_id, position, ref_aa, alt_aa). *)
Definition parse_hgvsp (hgvsp : string) : option (string * string * string * string) :=
  if (negb (PyStr.truthy hgvsp) || PyStr.eqb hgvsp "-")%bool then None else
  let hgvsp := PyStr.replace hgvsp "%3D" "=" in
  if PyStr.contains "=" hgvsp then None else
  match Re.pattern hgvsp with
  | Some (protein_id, ref_aa, position, alt_aa) =>
      Some (protein_id, position, ref_aa, alt_aa)
  | None =>
  match Re.fs_pattern hgvsp with
  | Some (protein_id, ref_aa, position, alt_aa) =>
      Some (protein_id, position, ref_aa, alt_aa +:+ "fs")
  | None =>
  match Re.del_pattern hgvsp with
  | Some (protein_id, ref_aa, position) =>
      Some (protein_id, position, ref_aa, "del")
  | None =>
  match Re.ins_pattern hgvsp with
  | Some (protein_id, ref_aa, position) =>
      Some (protein_id, position, ref_aa, "ins")
  | None =>
  match Re.dup_pattern hgvsp with
  | Some (protein_id, ref_aa, position) =>
      Some (protein_id, position, ref_aa, "dup")
  | None =>
  match Re.ext_pattern hgvsp with
  | Some (protein_id, position, new_aa) =>
      Some (protein_id, position, "*", new_aa +:+ "ext")
  | None => None
  end end end end end end.

(** [extract_rsid]: the loop over the comma-separated items. *)
Fixpoint first_rsid (variants : list string) : option string :=
  match variants with
  | [] => None
  | variant :: rest =>
      let variant := PyStr.strip variant in
      if (PyStr.startswith (PyStr.lower variant) "rs"
          && PyStr.isdigit (PyStr.drop 2 variant))%bool
      then Some variant
      else first_rsid rest
  end.

Definition extract_rsid (existing_variation : string) : option string :=
  if (negb (PyStr.truthy existing_variation) || PyStr.eqb existing_variation "-")%bool
  then None
  else first_rsid (PyStr.split existing_variation ",").

Definition special_tokens : list string := ["del"; "ins"; "dup"; "fs"; "ext"].

Definition convert_aa_3_to_1 (aa_3letter : string) : string :=
  if bool_decide (aa_3letter ∈ special_tokens) then aa_3letter else
  if PyStr.contains "fs" aa_3letter then
    let aa_part := PyStr.replace aa_3letter "fs" "" in
    if PyStr.truthy aa_part then
      let aa_1letter := dict_get AA_3_TO_1_MAP (PyStr.capitalize aa_part) aa_part in
      aa_1letter +:+ "fs"
    else aa_3letter
  else
  if PyStr.contains "ext" aa_3letter then
    let aa_part := PyStr.replace aa_3letter "ext" "" in
    if PyStr.truthy aa_part then
      let aa_1letter := dict_get AA_3_TO_1_MAP (PyStr.capitalize aa_part) aa_part in
      aa_1letter +:+ "ext"
    else aa_3letter
  else
  let aa_3letter := PyStr.capitalize aa_3letter in
  dict_get AA_3_TO_1_MAP aa_3letter aa_3letter.

Definition convert_1_to_3 (aa_1letter : string) : string :=
  if PyStr.eqb aa_1letter "*" then "Ter"
  else dict_get AA_1_TO_3_MAP (PyStr.upper aa_1letter) aa_1letter.

(** [{f"chr{i}" for i in range(1, 23)} | {"chrX", "chrY", "chrM", "chrMT"}],
    then updated with the bare names. *)
Definition range_1_23 : list Z := Z.of_nat <$> seq 1 22.

Definition VALID_CHROMOSOMES : gset string :=
  (list_to_set ((fun i => "chr" +:+ PyStr.str i) <$> range_1_23)
     ∪ {["chrX"; "chrY"; "chrM"; "chrMT"]})
  ∪ (list_to_set (PyStr.str <$> range_1_23) ∪ {["X"; "Y"; "M"; "MT"]}).

Definition validate_chromosome (chrom : string) : bool :=
  (bool_decide (chrom ∈ VALID_CHROMOSOMES)
   || PyStr.startswith chrom "chr" || PyStr.isdigit chrom)%bool.

(** [int(pos)] raising [ValueError] is caught and answered with [False]. *)
Definition validate_position (pos : string) : bool :=
  match PyStr.int pos with
  | Some position => position >? 0
  | None => false
  end.

(** ** BedToJsonConverter: state *)

(** The keys of [self.stats]. *)
Inductive counter : Set :=
  | total_rows | processed | skipped | errors
  | missing_rsid | missing_hgvsp | invalid_chromosome | invalid_position.

Global Instance counter_eq_dec : EqDecision counter.
Proof. solve_decision. Defined.

Record Stats : Set := mkStats {
  n_total_rows : nat; n_processed : nat; n_skipped : nat; n_errors : nat;
  n_missing_rsid : nat; n_missing_hgvsp : nat;
  n_invalid_chromosome : nat; n_invalid_position : nat }.

(** [self.stats[c]] *)
Definition stat (c : counter) (st : Stats) : nat :=
  match c with
  | total_rows => n_total_rows st
  | processed => n_processed st
  | skipped => n_skipped st
  | errors => n_errors st
  | missing_rsid => n_missing_rsid st
  | missing_hgvsp => n_missing_hgvsp st
  | invalid_chromosome => n_invalid_chromosome st
  | invalid_position => n_invalid_position st
  end.

(** [self.stats[c] += 1] *)
Definition bump (c : counter) (st : Stats) : Stats :=
  let '(mkStats t p s e r h ic ip) := st in
  match c with
  | total_rows => mkStats (S t) p s e r h ic ip
  | processed => mkStats t (S p) s e r h ic ip
  | skipped => mkStats t p (S s) e r h ic ip
  | errors => mkStats t p s (S e) r h ic ip
  | missing_rsid => mkStats t p s e (S r) h ic ip
  | missing_hgvsp => mkStats t p s e r (S h) ic ip
  | invalid_chromosome => mkStats t p s e r h (S ic) ip
  | invalid_position => mkStats t p s e r h ic (S ip)
  end.

(** The statistics as [__init__] sets them. *)
Definition init_stats : Stats := mkStats 0 0 0 0 0 0 0 0.

(** An [OrderedDict] with string keys and values: the items in insertion
    order.  [d[k] = v] replaces the value of a key in place and appends a
    new key. *)
Definition Variant : Set := list (string * string).

Fixpoint od_set (d : Variant) (k v : string) : Variant :=
  match d with
  | [] => [(k, v)]
  | (k', v') :: r =>
      if bool_decide (k' = k) then (k, v) :: r else (k', v') :: od_set r k v
  end.

Fixpoint od_get (d : Variant) (k : string) : option string :=
  match d with
  | [] => None
  | (k', v') :: r => if bool_decide (k' = k) then Some v' else od_get r k
  end.

(** ** Computations that update the statistics and may raise *)

Inductive exn : Set := IndexError | ValueError.

Inductive outcome (A : Type) : Type :=
  | Returned (a : A)
  | Raised (e : exn).
Arguments Returned {A} a.
Arguments Raised {A} e.

Definition M (A : Type) : Type := Stats -> outcome A * Stats.

Global Instance M_ret : MRet M := fun A a st => (Returned a, st).
Global Instance M_bind : MBind M := fun A B f m st =>
  match m st with
  | (Returned a, st') => f a st'
  | (Raised e, st') => (Raised e, st')
  end.

Definition incr (c : counter) : M unit := fun st => (Returned tt, bump c st).
Definition raise {A : Type} (e : exn) : M A := fun st => (Raised e, st).

(** [l[0]] *)
Definition item0 {A : Type} (l : list A) : M A :=
  match l with
  | [] => raise IndexError
  | a :: _ => mret a
  end.

(** [int(s)] as a statement: [ValueError] when [s] is not a number *)
Definition int_of (s : string) : M Z :=
  match PyStr.int s with
  | Some n => mret n
  | None => raise ValueError
  end.

(** ** BedToJsonConverter: helpers *)

(** [get_column_value] *)
Definition get_column_value (column_map : gmap string nat)
    (row : list string) (column_name : string) : string :=
  match column_map !! column_name with
  | None => ""
  | Some idx =>
      match row !! idx with
      | Some cell => PyStr.strip cell
      | None => ""
      end
  end.

(** [extract_clean_change] and [extract_clean_protein_change] have the same
    body. *)
Definition extract_clean_change (hgvsc : string) : string :=
  if PyStr.contains ":" hgvsc then
    match PyStr.split1 hgvsc ":" with
    | _ :: part :: _ => part
    | _ => hgvsc
    end
  else hgvsc.

Definition extract_clean_protein_change (hgvsp : string) : string :=
  if PyStr.contains ":" hgvsp then
    match PyStr.split1 hgvsp ":" with
    | _ :: part :: _ => part
    | _ => hgvsp
    end
  else hgvsp.

Definition parse_amino_acids (amino_acids : string) : option (string * string) :=
  if (negb (PyStr.truthy amino_acids) || PyStr.eqb amino_acids "-")%bool then None else
  let parts :=
    if PyStr.contains "/" amino_acids then Some (PyStr.split1 amino_acids "/")
    else if PyStr.contains ">" amino_acids then Some (PyStr.split1 amino_acids ">")
    else None in
  match parts with
  | Some [p0; p1] =>
      let ref_aa := PyStr.strip p0 in
      let alt_aa := PyStr.strip p1 in
      if (PyStr.truthy ref_aa && PyStr.truthy alt_aa)%bool
      then Some (ref_aa, alt_aa) else None
  | _ => None
  end.

Definition handle_multiallelic (alt : string) : list string :=
  if PyStr.contains "," alt
  then List.filter PyStr.truthy (PyStr.strip <$> PyStr.split alt ",")
  else [alt].

(** [if not rsid] for an optional string *)
Definition found (o : option string) : bool :=
  match o with
  | Some s => PyStr.truthy s
  | None => false
  end.

(** [mane_select.split(',')[0].strip()] *)
Definition first_token (mane_select : string) : string :=
  match PyStr.split mane_select "," with
  | t :: _ => PyStr.strip t
  | [] => ""
  end.

(** ** BedToJsonConverter.process_row *)

Section Row.

Variable column_map : gmap string nat.

(** The entry built from [Protein_position] and [Amino_acids] when the
    row has no HGVSp. *)
Definition fallback_entry (var_id : string) (rsid : option string)
    (spdi gene_symbol hgvsc mane_select protein_position : string)
    (ref_aa_1 alt_aa_1 : string) : Variant :=
  let ref_aa_3 :=
    if Nat.eqb (PyStr.len ref_aa_1) 1 then convert_1_to_3 ref_aa_1 else ref_aa_1 in
  let alt_aa_3 :=
    if Nat.eqb (PyStr.len alt_aa_1) 1 then convert_1_to_3 alt_aa_1 else alt_aa_1 in
  let variant : Variant := [] in
  let variant := od_set variant "internal_id" var_id in
  let variant :=
    match rsid with
    | Some r => if PyStr.truthy r then od_set variant "rsid" r else variant
    | None => variant
    end in
  let variant := od_set variant "spdi" spdi in
  let variant :=
    if (PyStr.truthy hgvsc && negb (PyStr.eqb hgvsc "-"))%bool then
      let clean_hgvsc := extract_clean_change hgvsc in
      let protein :=
        "(p." +:+ ref_aa_3 +:+ protein_position +:+ alt_aa_3 +:+ ")" in
      let variant :=
        if (PyStr.truthy mane_select && negb (PyStr.eqb mane_select "-"))%bool then
          let mane_transcript := first_token mane_select in
          if PyStr.startswith mane_transcript "NM_" then
            od_set variant "hgvs_full"
              (mane_transcript +:+ "(" +:+ gene_symbol +:+ "):" +:+ clean_hgvsc +:+ protein)
          else
            od_set variant "hgvs_full" (gene_symbol +:+ ":" +:+ clean_hgvsc +:+ protein)
        else
          od_set variant "hgvs_full" (gene_symbol +:+ ":" +:+ clean_hgvsc +:+ protein) in
      od_set variant "hgvsc" (gene_symbol +:+ " " +:+ clean_hgvsc)
    else variant in
  let variant := od_set variant "hgvsp_3p"
    (gene_symbol +:+ " p." +:+ ref_aa_3 +:+ protein_position +:+ alt_aa_3) in
  let variant := od_set variant "hgvsp_3"
    (gene_symbol +:+ " " +:+ ref_aa_3 +:+ protein_position +:+ alt_aa_3) in
  let variant := od_set variant "hgvsp_1p"
    (gene_symbol +:+ " p." +:+ ref_aa_1 +:+ protein_position +:+ alt_aa_1) in
  let variant := od_set variant "hgvsp_1"
    (gene_symbol +:+ " " +:+ ref_aa_1 +:+ protein_position +:+ alt_aa_1) in
  variant.

(** The entry built from a parsed HGVSp. *)
Definition primary_entry (var_id : string) (rsid : option string)
    (spdi gene_symbol hgvsc hgvsp mane_select : string)
    (position ref_aa_3 alt_aa_3 : string) : Variant :=
  let ref_aa_1 := convert_aa_3_to_1 ref_aa_3 in
  let alt_aa_1 := convert_aa_3_to_1 alt_aa_3 in
  let variant : Variant := [] in
  let variant := od_set variant "internal_id" var_id in
  let variant :=
    match rsid with
    | Some r => if PyStr.truthy r then od_set variant "rsid" r else variant
    | None => variant
    end in
  let variant := od_set variant "spdi" spdi in
  let clean_hgvsc :=
    if (PyStr.truthy hgvsc && negb (PyStr.eqb hgvsc "-"))%bool
    then extract_clean_change hgvsc else "" in
  let clean_hgvsp := extract_clean_protein_change hgvsp in
  let variant :=
    if (PyStr.truthy mane_select && negb (PyStr.eqb mane_select "-"))%bool then
      let mane_transcript := first_token mane_select in
      if PyStr.startswith mane_transcript "NM_" then
        if PyStr.truthy clean_hgvsc then
          od_set variant "hgvs_full"
            (mane_transcript +:+ "(" +:+ gene_symbol +:+ "):" +:+ clean_hgvsc
               +:+ "(" +:+ clean_hgvsp +:+ ")")
        else
          od_set variant "hgvs_full"
            (mane_transcript +:+ "(" +:+ gene_symbol +:+ "):" +:+ clean_hgvsp)
      else
        if PyStr.truthy clean_hgvsc then
          od_set variant "hgvs_full"
            (gene_symbol +:+ ":" +:+ clean_hgvsc +:+ "(" +:+ clean_hgvsp +:+ ")")
        else
          od_set variant "hgvs_full" (gene_symbol +:+ ":" +:+ clean_hgvsp)
    else
      if PyStr.truthy clean_hgvsc then
        od_set variant "hgvs_full"
          (gene_symbol +:+ ":" +:+ clean_hgvsc +:+ "(" +:+ clean_hgvsp +:+ ")")
      else
        od_set variant "hgvs_full" (gene_symbol +:+ ":" +:+ clean_hgvsp) in
  let variant :=
    if PyStr.truthy clean_hgvsc
    then od_set variant "hgvsc" (gene_symbol +:+ " " +:+ clean_hgvsc)
    else variant in
  let variant := od_set variant "hgvsp_3p"
    (gene_symbol +:+ " p." +:+ ref_aa_3 +:+ position +:+ alt_aa_3) in
  let variant := od_set variant "hgvsp_3"
    (gene_symbol +:+ " " +:+ ref_aa_3 +:+ position +:+ alt_aa_3) in
  let variant := od_set variant "hgvsp_1p"
    (gene_symbol +:+ " p." +:+ ref_aa_1 +:+ position +:+ alt_aa_1) in
  let variant := od_set variant "hgvsp_1"
    (gene_symbol +:+ " " +:+ ref_aa_1 +:+ position +:+ alt_aa_1) in
  variant.

(** The body of the [try] block. *)
Definition process_row_body (row : list string) : M (option Variant) :=
  let chrom := get_column_value column_map row "CHROM" in
  let pos := get_column_value column_map row "POS" in
  let var_id := get_column_value column_map row "ID" in
  let ref := get_column_value column_map row "REF" in
  let alt := get_column_value column_map row "ALT" in
  let gene_symbol := get_column_value column_map row "SYMBOL" in
  if negb (validate_chromosome chrom) then
    _ ← incr invalid_chromosome; mret None
  else if negb (validate_position pos) then
    _ ← incr invalid_position; mret None
  else if PyStr.startswith var_id "Sniffles2" then
    mret None
  else
    let existing_variation := get_column_value column_map row "Existing_variation" in
    let hgvsc := get_column_value column_map row "HGVSc" in
    let hgvsp := get_column_value column_map row "HGVSp" in
    let mane_select := get_column_value column_map row "MANE_SELECT" in
    let protein_position := get_column_value column_map row "Protein_position" in
    let amino_acids := get_column_value column_map row "Amino_acids" in
    let rsid := extract_rsid existing_variation in
    _ ← (if negb (found rsid) then incr missing_rsid else mret tt);
    let alt_alleles := handle_multiallelic alt in
    alt ← item0 alt_alleles;
    n ← int_of pos;
    let spdi_pos := n - 1 in
    let spdi_chrom := PyStr.replace chrom "chr" "" in
    let spdi :=
      spdi_chrom +:+ ":" +:+ PyStr.str spdi_pos +:+ ":" +:+ ref +:+ ":" +:+ alt in
    if (negb (PyStr.truthy hgvsp) || PyStr.eqb hgvsp "-")%bool then
      _ ← incr missing_hgvsp;
      if (PyStr.truthy protein_position && negb (PyStr.eqb protein_position "-"))%bool
      then
        match parse_amino_acids amino_acids with
        | Some (ref_aa_1, alt_aa_1) =>
            mret (Some (fallback_entry var_id rsid spdi gene_symbol hgvsc
                          mane_select protein_position ref_aa_1 alt_aa_1))
        | None => mret None
        end
      else mret None
    else
      match parse_hgvsp hgvsp with
      | None => mret None
      | Some (protein_id, position, ref_aa_3, alt_aa_3) =>
          mret (Some (primary_entry var_id rsid spdi gene_symbol hgvsc hgvsp
                        mane_select position ref_aa_3 alt_aa_3))
      end.

(** [process_row]: whatever the body raises is caught, counted under
    [errors] and answered with [None]. *)
Definition process_row (row : list string) (st : Stats) : option Variant * Stats :=
  match process_row_body row st with
  | (Returned variant, st') => (variant, st')
  | (Raised _, st') => (None, bump errors st')
  end.

(** *** The row pipeline in direct style

    The same computation without the monad, as a reading aid for the
    properties below; [process_row_eq] proves the two equal. *)

Abbreviation col := (get_column_value column_map).

(** [HGVSp] is empty or a dash *)
Definition absent (s : string) : bool :=
  (negb (PyStr.truthy s) || PyStr.eqb s "-")%bool.

(** the statistics after the rsID lookup *)
Definition after_rsid (row : list string) (st : Stats) : Stats :=
  if negb (found (extract_rsid (col row "Existing_variation")))
  then bump missing_rsid st else st.

(** the SPDI string of the row for a position and an allele *)
Definition spdi_of (row : list string) (n : Z) (alt : string) : string :=
  PyStr.replace (col row "CHROM") "chr" "" +:+ ":" +:+ PyStr.str (n - 1)
    +:+ ":" +:+ col row "REF" +:+ ":" +:+ alt.

(** what the row yields once position and allele are known *)
Definition resolve (row : list string) (n : Z) (alt : string) : option Variant :=
  let rsid := extract_rsid (col row "Existing_variation") in
  if absent (col row "HGVSp") then
    if (PyStr.truthy (col row "Protein_position")
        && negb (PyStr.eqb (col row "Protein_position") "-"))%bool then
      match parse_amino_acids (col row "Amino_acids") with
      | Some (ref_aa_1, alt_aa_1) =>
          Some (fallback_entry (col row "ID") rsid (spdi_of row n alt)
                  (col row "SYMBOL") (col row "HGVSc") (col row "MANE_SELECT")
                  (col row "Protein_position") ref_aa_1 alt_aa_1)
      | None => None
      end
    else None
  else
    match parse_hgvsp (col row "HGVSp") with
    | Some (_, position, ref_aa_3, alt_aa_3) =>
        Some (primary_entry (col row "ID") rsid (spdi_of row n alt)
                (col row "SYMBOL") (col row "HGVSc") (col row "HGVSp")
                (col row "MANE_SELECT") position ref_aa_3 alt_aa_3)
    | None => None
    end.

End Row.

(** ** The conversion drivers *)

Definition required_columns : list string :=
  [ "CHROM"; "POS"; "ID"; "REF"; "ALT"; "SYMBOL";
    "Existing_variation"; "Gene"; "Feature"; "Protein_position";
    "Amino_acids"; "MANE_SELECT"; "HGVSc"; "HGVSp" ].

(** [{col: idx for idx, col in enumerate(header)}]: of two columns with the
    same name the later one stays. *)
Fixpoint enumerate_from {A : Type} (i : nat) (l : list A) : list (nat * A) :=
  match l with
  | [] => []
  | a :: r => (i, a) :: enumerate_from (S i) r
  end.

Definition build_column_map (header : list string) : gmap string nat :=
  fold_left (fun m '(idx, col) => <[col := idx]> m) (enumerate_from O header) ∅.

(** [parse_header]: the column map it stores and the truth value it
    returns.  On a header without columns [header[0]] raises. *)
Definition parse_header (header : list string) : outcome (gmap string nat * bool) :=
  match header with
  | [] => Raised IndexError
  | h0 :: r =>
      let header := if PyStr.startswith h0 "#" then PyStr.drop 1 h0 :: r else h0 :: r in
      let column_map := build_column_map header in
      let missing_columns :=
        List.filter (fun col => bool_decide (column_map !! col = None))
          required_columns in
      Returned (column_map, match missing_columns with [] => true | _ => false end)
  end.

(** How the CSV reader ends after the rows it has yielded: it is
    exhausted, or it raises (a field over the size limit, bytes that are
    not UTF-8).  What it raises is caught by the [except Exception] of the
    driver, which answers [False]. *)
Inductive reader_end : Set := Exhausted | Fails.

(** What reaches the output file: text written as it is, one record
    serialised by [json.dump], or the whole list serialised at once. *)
Inductive output : Set :=
  | Write (text : string)
  | Dump (variant : Variant)
  | DumpAll (variants : list Variant).

(** truth value of [variant], an [OrderedDict] or [None] *)
Definition emitted (variant : option Variant) : option Variant :=
  match variant with
  | Some (item :: d) => Some (item :: d)
  | _ => None
  end.

(** The loop of [process_file_streaming] over the data rows. *)
Fixpoint stream_rows (column_map : gmap string nat) (rows : list (list string))
    (first_variant : bool) (outfile : list output) (st : Stats)
    : list output * Stats :=
  match rows with
  | [] => (outfile, st)
  | row :: rest =>
      let st := bump total_rows st in
      let '(variant, st) := process_row column_map row st in
      match emitted variant with
      | Some variant =>
          let outfile := if negb first_variant then outfile ++ [Write ",
"] else outfile in
          let outfile := outfile ++ [Dump variant] in
          stream_rows column_map rest false outfile (bump processed st)
      | None =>
          stream_rows column_map rest first_variant outfile (bump skipped st)
      end
  end.

(** [process_file_streaming] on the rows the CSV reader yields and the way
    it ends: the truth value returned, what was written and the
    statistics.  When the reader raises, what was written up to then stays
    in the file and the closing bracket is not written. *)
Definition process_file_streaming (reader : list (list string))
    (ending : reader_end) (st : Stats) : bool * list output * Stats :=
  match reader with
  | [] | [] :: _ => (false, [], st)
  | header :: rows =>
      match parse_header header with
      | Raised _ => (false, [], st)
      | Returned (column_map, ok) =>
          if negb ok then (false, [], st) else
          let outfile := [Write "[
"] in
          let '(outfile, st) := stream_rows column_map rows true outfile st in
          match ending with
          | Fails => (false, outfile, st)
          | Exhausted =>
              let outfile := outfile ++ [Write "
]
"] in
              (true, outfile, st)
          end
      end
  end.

(** The loop of [convert_file] over the data rows. *)
Fixpoint collect_rows (column_map : gmap string nat) (rows : list (list string))
    (variants : list Variant) (st : Stats) : list Variant * Stats :=
  match rows with
  | [] => (variants, st)
  | row :: rest =>
      let st := bump total_rows st in
      let '(variant, st) := process_row column_map row st in
      match emitted variant with
      | Some variant =>
          collect_rows column_map rest (variants ++ [variant]) (bump processed st)
      | None =>
          collect_rows column_map rest variants (bump skipped st)
      end
  end.

(** [convert_file]: when the reader raises, the records collected so far
    are not written. *)
Definition convert_file (stream_output : bool) (reader : list (list string))
    (ending : reader_end) (st : Stats) : bool * list output * Stats :=
  if stream_output then process_file_streaming reader ending st else
  match reader with
  | [] | [] :: _ => (false, [], st)
  | header :: rows =>
      match parse_header header with
      | Raised _ => (false, [], st)
      | Returned (column_map, ok) =>
          if negb ok then (false, [], st) else
          let '(variants, st) := collect_rows column_map rows [] st in
          match ending with
          | Fails => (false, [], st)
          | Exhausted => (true, [DumpAll variants], st)
          end
      end
  end.

(** The records an output holds, in the order they were written. *)
Definition records (out : list output) : list Variant :=
  flat_map (fun o => match o with
                     | Write _ => []
                     | Dump v => [v]
                     | DumpAll vs => vs
                     end) out.

(** ** Notions the properties are stated with *)

(** The record a row yields; [process_row_record] shows that it does not
    depend on the statistics the row is processed with. *)
Definition row_record (column_map : gmap string nat) (row : list string)
    : option Variant :=
  fst (process_row column_map row init_stats).

(** The counters [process_row] increments for a row: the two validation
    exits count themselves, the Sniffles2 exit counts nothing, and past it
    [missing_rsid] is counted when no rsID is found, then [errors] when the
    allele lookup raises and otherwise [missing_hgvsp] when HGVSp is
    absent. *)
Definition touched (column_map : gmap string nat) (row : list string)
    (c : counter) : bool :=
  let valid_chrom := validate_chromosome (get_column_value column_map row "CHROM") in
  let valid_pos := validate_position (get_column_value column_map row "POS") in
  let parsed :=
    (valid_chrom && valid_pos
     && negb (PyStr.startswith (get_column_value column_map row "ID") "Sniffles2"))%bool in
  let raised :=
    match handle_multiallelic (get_column_value column_map row "ALT") with
    | [] => true
    | _ => false
    end in
  match c with
  | invalid_chromosome => negb valid_chrom
  | invalid_position => (valid_chrom && negb valid_pos)%bool
  | missing_rsid =>
      (parsed && negb (found (extract_rsid
                               (get_column_value column_map row "Existing_variation"))))%bool
  | errors => (parsed && raised)%bool
  | missing_hgvsp =>
      (parsed && negb raised && absent (get_column_value column_map row "HGVSp"))%bool
  | total_rows | processed | skipped => false
  end.

(** The counters one turn of a driver loop increments for a row. *)
Definition counted (column_map : gmap string nat) (row : list string)
    (c : counter) : bool :=
  match c with
  | total_rows => true
  | processed => bool_decide (is_Some (emitted (row_record column_map row)))
  | skipped => negb (bool_decide (is_Some (emitted (row_record column_map row))))
  | _ => touched column_map row c
  end.

(** [0] or [1] *)
Definition once (b : bool) : nat := if b then 1%nat else 0%nat.

(** [s.removeprefix(p)]: [s] without a leading [p]. *)
Definition removeprefix (s p : string) : string :=
  if PyStr.startswith s p then PyStr.drop (PyStr.len p) s else s.

(** A side of [Amino_acids] as the fallback path writes it into the
    3-letter aliases. *)
Definition side_3 (aa : string) : string :=
  if Nat.eqb (PyStr.len aa) 1 then convert_1_to_3 aa else aa.

(** The four protein aliases of a record. *)
Definition protein_aliases (variant : Variant)
    : option string * option string * option string * option string :=
  (od_get variant "hgvsp_3p", od_get variant "hgvsp_3",
   od_get variant "hgvsp_1p", od_get variant "hgvsp_1").

(** The records a conversion is to write: those of the data rows, in the
    order of the rows. *)
Definition expected_records (reader : list (list string)) : list Variant :=
  match reader with
  | [] | [] :: _ => []
  | header :: rows =>
      match parse_header header with
      | Returned (column_map, true) =>
          omap (fun row => emitted (row_record column_map row)) rows
      | _ => []
      end
  end.

(** a comma or white space *)
Definition comma_or_space (c : ascii) : bool :=
  (bool_decide (c = ","%char) || PyStr.is_space c)%bool.

(** ** Sample input *)

Definition sample_header : list string :=
  [ "#CHROM"; "POS"; "ID"; "REF"; "ALT"; "SYMBOL"; "Existing_variation";
    "Gene"; "Feature"; "Protein_position"; "Amino_acids"; "MANE_SELECT";
    "HGVSc"; "HGVSp" ].

Definition sample_map : gmap string nat :=
  match parse_header sample_header with
  | Returned (column_map, _) => column_map
  | Raised _ => ∅
  end.

(** A data row in the column order of [sample_header]. *)
Definition sample_row (chrom pos var_id ref alt symbol existing_variation
    protein_position amino_acids mane_select hgvsc hgvsp : string) : list string :=
  [ chrom; pos; var_id; ref; alt; symbol; existing_variation;
    "ENSG00000012048"; "ENST00000357654"; protein_position; amino_acids;
    mane_select; hgvsc; hgvsp ].

(** The example of the design description. *)
Definition brca1_row : list string :=
  sample_row "chr17" "43106478" "rs80357382" "G" "A" "BRCA1" "rs80357382"
    "1708" "A/E" "NM_007294.4" "ENST00000357654.9:c.5123C>A"
    "ENSP00000350283.3:p.Ala1708Glu".

(** A start-lost variant: HGVSp is present and fits none of the patterns. *)
Definition start_lost_row : list string :=
  sample_row "chr17" "43124096" "var7" "T" "C" "BRCA1" "-"
    "1" "M/V" "NM_007294.4" "ENST00000357654.9:c.1A>G"
    "ENSP00000350283.3:p.Met1?".

(** No rsID and no HGVSp. *)
Definition bare_row : list string :=
  sample_row "chr17" "43106478" "var1" "G" "A" "BRCA1" "-"
    "446" "A/T" "-" "-" "-".

(** As [bare_row], with the amino acids in 3-letter form. *)
Definition three_letter_row : list string :=
  sample_row "chr17" "43106478" "var1" "G" "A" "BRCA1" "-"
    "446" "Ala/Thr" "-" "-" "-".

(** As [bare_row], with an HGVSp for the same change. *)
Definition primary_row : list string :=
  sample_row "chr17" "43106478" "var1" "G" "A" "BRCA1" "-"
    "446" "A/T" "-" "-" "X:p.Ala446Thr".

(** A breakend, whose ALT names the mate position. *)
Definition breakend_row : list string :=
  sample_row "chr2" "321681" "bnd_W" "G" "G]17:198982]" "GENE1" "-"
    "12" "A/T" "-" "-" "ENSP1:p.Ala12Thr".

(** ALT holds white space only. *)
Definition blank_alt_row : list string :=
  sample_row "chr17" "43106478" "var1" "G" "  " "BRCA1" "rs80357382"
    "1708" "A/E" "-" "-" "ENSP00000350283.3:p.Ala1708Glu".

(** ALT holds commas and white space only. *)
Definition commas_alt_row : list string :=
  sample_row "chr17" "43106478" "var1" "G" ", ," "BRCA1" "rs80357382"
    "1708" "A/E" "-" "-" "ENSP00000350283.3:p.Ala1708Glu".

(** As [bare_row], with an ALT of commas and white space only. *)
Definition commas_bare_row : list string :=
  sample_row "chr17" "43106478" "var1" "G" ", ," "BRCA1" "-"
    "446" "A/T" "-" "-" "-".

(** An HGVSp whose reference residue is written in capitals. *)
Definition capitals_row : list string :=
  sample_row "chr17" "43106478" "var1" "G" "A" "BRCA1" "-"
    "12" "U/T" "-" "-" "ENSP1:p.SEC12Thr".

(** ** The rest of the parser and the consumers of the records *)

(** [parse_hgvsc]: the transcript identifier and the change. *)
Definition parse_hgvsc (hgvsc : string) : option (string * string) :=
  if (negb (PyStr.truthy hgvsc) || PyStr.eqb hgvsc "-")%bool then None else
  match PyStr.split1 hgvsc ":" with
  | [p0; p1] => Some (p0, p1)
  | _ => None
  end.

(** [VariantProcessor._get_variant_id] of the literature pipeline, which
    reads the records back: the first field of [id_fields] that the record
    holds with a non-empty value.  [None] stands for the identifier the
    code makes up from the clock when no field qualifies. *)
Definition id_fields : list string :=
  ["rsid"; "hgvs_full"; "hgvsp_1"; "hgvsc"; "hgvsp_3"; "internal_id"].

Fixpoint first_field (variant : Variant) (fields : list string) : option string :=
  match fields with
  | [] => None
  | field :: rest =>
      match od_get variant field with
      | Some value => if PyStr.truthy value then Some value else first_field variant rest
      | None => first_field variant rest
      end
  end.

Definition _get_variant_id (variant : Variant) : option string :=
  first_field variant id_fields.

(** [VariantProcessor._get_search_terms]: the non-empty values of the keys
    that are not internal, without repetitions, in the order of the
    record. *)
Definition excluded_fields : gset string :=
  {["internal_id"; "internal_code"; "comment"; "notes"]}.

Definition is_search_field (key value : string) : bool :=
  (PyStr.truthy value
   && negb (bool_decide (PyStr.lower key ∈ excluded_fields))
   && negb (PyStr.startswith (PyStr.lower key) "internal"))%bool.

Fixpoint unique_terms (seen : gset string) (terms : list string) : list string :=
  match terms with
  | [] => []
  | term :: rest =>
      if bool_decide (term ∈ seen) then unique_terms seen rest
      else term :: unique_terms ({[term]} ∪ seen) rest
  end.

Definition _get_search_terms (variant : Variant) : list string :=
  let terms :=
    snd <$> List.filter (fun '(key, value) => is_search_field key value) variant in
  unique_terms ∅ terms.

(** ** Further notions the properties are stated with *)

(** The keys of a record, in order. *)
Definition keys (variant : Variant) : list string := fst <$> variant.

(** The order in which [process_row] assigns the keys. *)
Definition key_order : list string :=
  ["internal_id"; "rsid"; "spdi"; "hgvs_full"; "hgvsc";
   "hgvsp_3p"; "hgvsp_3"; "hgvsp_1p"; "hgvsp_1"].

(** The header as [parse_header] reads it: a leading hash of the first
    column name is dropped. *)
Definition clean_header (header : list string) : list string :=
  match header with
  | h0 :: r => if PyStr.startswith h0 "#" then PyStr.drop 1 h0 :: r else header
  | [] => header
  end.

(** What the streaming mode writes for a list of records: the opening
    bracket, the records with a comma line between neighbours, the closing
    bracket. *)
Definition streamed (variants : list Variant) : list output :=
  [Write "[
"]
  ++ match variants with
     | [] => []
     | v :: rest => Dump v :: flat_map (fun w => [Write ",
"; Dump w]) rest
     end
  ++ [Write "
]
"].

(** The test [extract_rsid] applies to a trimmed item: rs in any case,
    followed by digits. *)
Definition rsid_like (variant : string) : bool :=
  (PyStr.startswith (PyStr.lower variant) "rs"
   && PyStr.isdigit (PyStr.drop 2 variant))%bool.

(** How often a driver loop increments a counter over a list of rows. *)
Definition tally (column_map : gmap string nat) (rows : list (list string))
    (c : counter) : nat :=
  sum_list_with (fun row => once (counted column_map row c)) rows.

(** A character a protein identifier is made of here: no colon, no equals
    sign, no percent sign. *)
Definition id_char (c : ascii) : bool :=
  negb (bool_decide (c = ":"%char) || bool_decide (c = "="%char)
        || bool_decide (c = "%"%char)).

(** A simple substitution written out: [<id>:p.<ref><position><alt>]. *)
Definition substitution (protein_id ref_aa position alt_aa : string) : string :=
  protein_id +:+ ":p." +:+ ref_aa +:+ position +:+ alt_aa.

(** The canonical names that neither start with chr nor are numbers. *)
Definition letter_chromosomes : list string := ["X"; "Y"; "M"; "MT"].

(** * Properties *)

(** ** The row pipeline *)

Section RowFacts.

Variable column_map : gmap string nat.
Variable row : list string.

Abbreviation col := (get_column_value column_map row).

Lemma process_row_eq (st : Stats) :
  process_row column_map row st =
    if negb (validate_chromosome (col "CHROM")) then
      (None, bump invalid_chromosome st)
    else if negb (validate_position (col "POS")) then
      (None, bump invalid_position st)
    else if PyStr.startswith (col "ID") "Sniffles2" then (None, st)
    else
      match handle_multiallelic (col "ALT"), PyStr.int (col "POS") with
      | alt :: _, Some n =>
          (resolve column_map row n alt,
           if absent (col "HGVSp")
           then bump missing_hgvsp (after_rsid column_map row st)
           else after_rsid column_map row st)
      | _, _ => (None, bump errors (after_rsid column_map row st))
      end.
Proof.
  unfold process_row, process_row_body, resolve, after_rsid, spdi_of, absent.
  destruct (negb (validate_chromosome _)); [reflexivity|].
  destruct (negb (validate_position _)); [reflexivity|].
  destruct (PyStr.startswith _ "Sniffles2"); [reflexivity|].
  unfold mbind, M_bind, mret, M_ret, incr, item0, int_of, raise.
  destruct (negb (found _));
    (destruct (handle_multiallelic _) as [|alt alts]; [reflexivity|]);
    (destruct (PyStr.int _) as [n|]; [|reflexivity]);
    unfold mret, M_ret;
    (destruct (negb (PyStr.truthy (col "HGVSp")) || PyStr.eqb (col "HGVSp") "-")%bool;
     [ destruct (PyStr.truthy (col "Protein_position")
                 && negb (PyStr.eqb (col "Protein_position") "-"))%bool;
       [ destruct (parse_amino_acids _) as [[? ?]|]; reflexivity | reflexivity ]
     | destruct (parse_hgvsp _) as [[[[? ?] ?] ?]|]; reflexivity ]).
Qed.

(** A position that passes validation is a positive number. *)
Lemma validate_position_int (pos : string) :
  validate_position pos = true -> exists n, PyStr.int pos = Some n /\ 0 < n.
Proof.
  unfold validate_position. destruct (PyStr.int pos) as [n|]; [|discriminate].
  intros H. exists n. split; [reflexivity|]. lia.
Qed.

(** Past the three gates the row is decided by its alleles alone. *)
Lemma process_row_parsed (st : Stats) :
  validate_chromosome (col "CHROM") = true ->
  validate_position (col "POS") = true ->
  PyStr.startswith (col "ID") "Sniffles2" = false ->
  exists n, PyStr.int (col "POS") = Some n /\ 0 < n /\
    process_row column_map row st =
      match handle_multiallelic (col "ALT") with
      | alt :: _ =>
          (resolve column_map row n alt,
           if absent (col "HGVSp")
           then bump missing_hgvsp (after_rsid column_map row st)
           else after_rsid column_map row st)
      | [] => (None, bump errors (after_rsid column_map row st))
      end.
Proof.
  intros Hc Hp Hs. destruct (validate_position_int _ Hp) as (n & Hn & Hpos).
  exists n. split; [exact Hn|]. split; [exact Hpos|].
  rewrite process_row_eq, Hc, Hp, Hs, Hn. simpl.
  destruct (handle_multiallelic _); reflexivity.
Qed.

(** The record of a row is the same whatever the statistics are. *)
Lemma process_row_record (st : Stats) :
  fst (process_row column_map row st) = row_record column_map row.
Proof.
  unfold row_record. rewrite !process_row_eq.
  repeat (match goal with |- context [if ?b then _ else _] => destruct b end;
          try reflexivity).
  all: destruct (handle_multiallelic _); try reflexivity;
    destruct (PyStr.int _); reflexivity.
Qed.

End RowFacts.

(** ** Counters *)

Lemma stat_bump (c c' : counter) (st : Stats) :
  stat c (bump c' st) = (stat c st + once (bool_decide (c = c')))%nat.
Proof. destruct st, c, c'; simpl; lia. Qed.

Lemma stat_after_rsid column_map row (c : counter) (st : Stats) :
  stat c (after_rsid column_map row st) =
    (stat c st
     + once (bool_decide (c = missing_rsid)
             && negb (found (extract_rsid
                  (get_column_value column_map row "Existing_variation")))))%nat.
Proof.
  unfold after_rsid. destruct (negb (found _)).
  - rewrite stat_bump. rewrite andb_true_r. reflexivity.
  - rewrite andb_false_r. simpl. lia.
Qed.

Lemma process_row_touched column_map row (c : counter) (st : Stats) :
  stat c (snd (process_row column_map row st)) =
    (stat c st + once (touched column_map row c))%nat.
Proof.
  rewrite process_row_eq. unfold touched.
  destruct (validate_chromosome _) eqn:Hc; simpl.
  2: { rewrite stat_bump. destruct c; reflexivity. }
  destruct (validate_position _) eqn:Hp; simpl.
  2: { rewrite stat_bump. destruct c; reflexivity. }
  destruct (PyStr.startswith _ "Sniffles2"); simpl.
  { destruct c; simpl; lia. }
  destruct (validate_position_int _ Hp) as (n & -> & _).
  destruct (handle_multiallelic _) as [|alt alts]; simpl.
  - rewrite stat_bump, stat_after_rsid. destruct c; simpl; lia.
  - destruct (absent _); [rewrite stat_bump|]; rewrite stat_after_rsid;
      destruct c; simpl; lia.
Qed.

(** The allele lookup raises before HGVSp is looked at, so a row is never
    counted under both [errors] and [missing_hgvsp]. *)
Lemma touched_errors_or_missing_hgvsp column_map row :
  (touched column_map row errors && touched column_map row missing_hgvsp)%bool
  = false.
Proof.
  unfold touched.
  destruct (validate_chromosome _), (validate_position _),
    (PyStr.startswith _ "Sniffles2"), (handle_multiallelic _); reflexivity.
Qed.

(** A validation exit counts itself and nothing else. *)
Lemma touched_validation_exit column_map row (c c' : counter) :
  c = invalid_chromosome \/ c = invalid_position ->
  touched column_map row c = true ->
  touched column_map row c' = true -> c' = c.
Proof.
  unfold touched.
  destruct (validate_chromosome _), (validate_position _);
    cbn [negb andb]; intros [-> | ->] H H';
    try discriminate H; destruct c'; try reflexivity; discriminate H'.
Qed.

(** C2, as the code has it: in [process_row] every counter goes up by one
    or not at all for a row, and which ones do is given by [touched].  The
    invalid-chromosome and invalid-position exits count exactly themselves
    and the Sniffles2 exit counts nothing.  Past these, [missing_rsid] is
    counted when no rsID is found; then either the allele lookup raises,
    which is counted under [errors] and leaves [missing_hgvsp] alone, or
    [missing_hgvsp] is counted when HGVSp is absent.  So [missing_rsid] can
    go up together with [errors] or with [missing_hgvsp] for one row, while
    [errors] and [missing_hgvsp] never go up together.  One turn of either
    driver loop adds [total_rows] and one of [processed] and [skipped]. *)
Theorem row_counters (column_map : gmap string nat) (row : list string)
    (st : Stats) (first_variant : bool) (outfile : list output)
    (variants : list Variant) (c : counter) :
  stat c (snd (process_row column_map row st))
    = (stat c st + once (touched column_map row c))%nat
  /\ stat c (snd (stream_rows column_map [row] first_variant outfile st))
    = (stat c st + once (counted column_map row c))%nat
  /\ stat c (snd (collect_rows column_map [row] variants st))
    = (stat c st + once (counted column_map row c))%nat
  /\ (stat errors (snd (process_row column_map row st)) = stat errors st
      \/ stat missing_hgvsp (snd (process_row column_map row st))
         = stat missing_hgvsp st)
  /\ (forall c' : counter,
        stat invalid_chromosome (snd (process_row column_map row st))
          <> stat invalid_chromosome st
        \/ stat invalid_position (snd (process_row column_map row st))
           <> stat invalid_position st ->
        c' <> invalid_chromosome -> c' <> invalid_position ->
        stat c' (snd (process_row column_map row st)) = stat c' st)
  /\ (stat invalid_chromosome (snd (process_row column_map row st))
        = stat invalid_chromosome st
      \/ stat invalid_position (snd (process_row column_map row st))
         = stat invalid_position st).
Proof.
  split; [apply process_row_touched|].
  assert (Hloop : forall st1 : Stats,
    stat c (match emitted (fst (process_row column_map row (bump total_rows st))) with
            | Some _ => bump processed st1
            | None => bump skipped st1
            end)
    = (stat c st1
       + once (match c with
               | processed => bool_decide (is_Some (emitted (row_record column_map row)))
               | skipped => negb (bool_decide (is_Some (emitted (row_record column_map row))))
               | _ => false
               end))%nat).
  { intros st1. rewrite process_row_record.
    destruct (emitted (row_record column_map row)) as [v|]; rewrite stat_bump.
    - rewrite (bool_decide_true (is_Some (Some v))) by eauto.
      destruct c; reflexivity.
    - rewrite (bool_decide_false (is_Some None)) by (intros [? ?]; discriminate).
      destruct c; reflexivity. }
  pose proof (process_row_touched column_map row c (bump total_rows st)) as Ht.
  rewrite stat_bump in Ht.
  assert (Hdriver : forall c', In c' [total_rows; processed; skipped] ->
            touched column_map row c' = false).
  { intros c' [<-|[<-|[<-|[]]]]; reflexivity. }
  split; [|split]; [| |split; [|split]].
  1, 2: cbn [stream_rows collect_rows];
    destruct (process_row column_map row (bump total_rows st)) as [variant st1];
    specialize (Hloop st1); cbn [fst snd] in Hloop, Ht;
    (destruct (emitted variant); cbn [fst snd]; rewrite Hloop, Ht;
     unfold counted; destruct c;
     rewrite ?Hdriver by (simpl; tauto);
     generalize (touched column_map row);
     generalize (bool_decide (is_Some (emitted (row_record column_map row))));
     intros e t; simpl; destruct e; simpl; lia).
  - rewrite !process_row_touched.
    pose proof (touched_errors_or_missing_hgvsp column_map row) as H.
    apply andb_false_iff in H as [-> | ->]; [left | right]; cbn [once]; lia.
  - intros c' Hexit Hc Hp. rewrite process_row_touched.
    rewrite !process_row_touched in Hexit.
    destruct (touched column_map row c') eqn:Hc'; [|cbn [once]; lia].
    exfalso. destruct Hexit as [Hexit | Hexit].
    + destruct (touched column_map row invalid_chromosome) eqn:E;
        [|cbn [once] in Hexit; lia].
      apply Hc. eapply touched_validation_exit; [left; reflexivity | exact E | exact Hc'].
    + destruct (touched column_map row invalid_position) eqn:E;
        [|cbn [once] in Hexit; lia].
      apply Hp. eapply touched_validation_exit; [right; reflexivity | exact E | exact Hc'].
  - rewrite !process_row_touched.
    destruct (touched column_map row invalid_chromosome) eqn:E;
      [|left; cbn [once]; lia].
    right.
    destruct (touched column_map row invalid_position) eqn:E';
      [|cbn [once]; lia].
    pose proof (touched_validation_exit column_map row invalid_chromosome
                  invalid_position (or_introl eq_refl) E E') as H.
    discriminate H.
Qed.

(** C2 fails as stated: a row without rsID and without HGVSp raises no
    exception and still increments both [missing_rsid] and
    [missing_hgvsp]. *)
Lemma two_counters_for_one_row :
  let st := snd (process_row sample_map bare_row init_stats) in
  stat missing_rsid st = S (stat missing_rsid init_stats)
  /\ stat missing_hgvsp st = S (stat missing_hgvsp init_stats)
  /\ stat errors st = stat errors init_stats.
Proof. vm_compute. repeat split. Qed.

(** A row without rsID, without HGVSp and without an allele: the lookup of
    the first allele raises, and the row is counted under [missing_rsid]
    and [errors] and not under [missing_hgvsp]. *)
Lemma error_before_missing_hgvsp :
  let st := snd (process_row sample_map commas_bare_row init_stats) in
  absent (get_column_value sample_map commas_bare_row "HGVSp") = true
  /\ stat missing_rsid st = S (stat missing_rsid init_stats)
  /\ stat errors st = S (stat errors init_stats)
  /\ stat missing_hgvsp st = stat missing_hgvsp init_stats.
Proof. vm_compute. repeat split. Qed.

(** ** The fallback path *)




(** ** Alleles *)

Lemma strip_spaces (w : string) :
  PyStr.all_chars PyStr.is_space w = true -> PyStr.strip w = "".
Proof.
  unfold PyStr.strip. induction w as [|c w IH]; simpl; [reflexivity|].
  intros [Hc Hw]%andb_true_iff. rewrite Hc. auto.
Qed.

Lemma split_commas_spaces (s : string) :
  PyStr.all_chars comma_or_space s = true ->
  Forall (fun w => PyStr.all_chars PyStr.is_space w = true) (PyStr.split s ",").
Proof.
  induction s as [|c s IH]; simpl.
  - intros _. repeat constructor.
  - intros [Hc Hs]%andb_true_iff. specialize (IH Hs).
    unfold comma_or_space in Hc. case_bool_decide as Hd.
    + constructor; [reflexivity | exact IH].
    + simpl in Hc. destruct (PyStr.split s ",") as [|w ws].
      * repeat constructor. simpl. rewrite Hc. reflexivity.
      * inversion IH; subst. constructor; [|assumption].
        simpl. rewrite Hc. assumption.
Qed.

Lemma no_allele (alt : string) :
  PyStr.contains "," alt = true ->
  PyStr.all_chars comma_or_space alt = true ->
  handle_multiallelic alt = [].
Proof.
  intros Hcomma Hall. unfold handle_multiallelic. rewrite Hcomma.
  pose proof (split_commas_spaces alt Hall) as HF.
  induction HF as [|w ws Hw _ IH]; simpl; [reflexivity|].
  rewrite (strip_spaces w Hw). simpl. exact IH.
Qed.

(** C10, as the code has it: a row that passes the chromosome and position
    checks and is not a Sniffles2 row, and whose ALT field holds at least
    one comma and nothing but commas and white space, makes [process_row]
    raise; the exception is caught, [errors] goes up by one and no record
    is returned, and either driver loop goes on with the rows that
    follow. *)
Theorem no_allele_is_an_error (column_map : gmap string nat)
    (row : list string) (st : Stats) (rest : list (list string))
    (first_variant : bool) (outfile : list output) (variants : list Variant) :
  validate_chromosome (get_column_value column_map row "CHROM") = true ->
  validate_position (get_column_value column_map row "POS") = true ->
  PyStr.startswith (get_column_value column_map row "ID") "Sniffles2" = false ->
  PyStr.contains "," (get_column_value column_map row "ALT") = true ->
  PyStr.all_chars comma_or_space (get_column_value column_map row "ALT") = true ->
  process_row_body column_map row st
    = (Raised IndexError, after_rsid column_map row st)
  /\ fst (process_row column_map row st) = None
  /\ stat errors (snd (process_row column_map row st)) = S (stat errors st)
  /\ stream_rows column_map (row :: rest) first_variant outfile st
     = stream_rows column_map rest first_variant outfile
         (bump skipped (snd (process_row column_map row (bump total_rows st))))
  /\ collect_rows column_map (row :: rest) variants st
     = collect_rows column_map rest variants
         (bump skipped (snd (process_row column_map row (bump total_rows st)))).
Proof.
  intros Hc Hp Hs Hcomma Hall.
  pose proof (no_allele _ Hcomma Hall) as Hnil.
  assert (Hrow : forall st0, process_row column_map row st0
                   = (None, bump errors (after_rsid column_map row st0))).
  { intros st0.
    destruct (process_row_parsed column_map row st0 Hc Hp Hs) as (n & _ & _ & ->).
    rewrite Hnil. reflexivity. }
  split.
  { unfold process_row_body. rewrite Hc, Hp, Hs. simpl.
    unfold mbind, M_bind, after_rsid. rewrite Hnil.
    destruct (negb (found _)); reflexivity. }
  split; [rewrite Hrow; reflexivity|].
  split.
  { rewrite Hrow. cbn [snd]. rewrite stat_bump, stat_after_rsid. simpl. lia. }
  split; cbn [stream_rows collect_rows]; rewrite !Hrow; reflexivity.
Qed.

Lemma no_allele_is_an_error_witness :
  process_row_body sample_map commas_alt_row init_stats
    = (Raised IndexError, after_rsid sample_map commas_alt_row init_stats)
  /\ fst (process_row sample_map commas_alt_row init_stats) = None
  /\ stat errors (snd (process_row sample_map commas_alt_row init_stats))
     = S (stat errors init_stats)
  /\ stream_rows sample_map [commas_alt_row; brca1_row] true [] init_stats
     = stream_rows sample_map [brca1_row] true []
         (bump skipped (snd (process_row sample_map commas_alt_row
                               (bump total_rows init_stats))))
  /\ collect_rows sample_map [commas_alt_row; brca1_row] [] init_stats
     = collect_rows sample_map [brca1_row] []
         (bump skipped (snd (process_row sample_map commas_alt_row
                               (bump total_rows init_stats)))).
Proof.
  apply (no_allele_is_an_error sample_map commas_alt_row init_stats
           [brca1_row] true [] []); vm_compute; reflexivity.
Defined.

(** C10 fails as stated: an ALT field of white space only holds no comma,
    is taken as one (empty) allele and raises nothing; the row is accepted
    and [errors] stays as it was. *)
Lemma blank_alt_is_accepted :
  PyStr.all_chars comma_or_space "  " = true
  /\ nth 4 blank_alt_row "" = "  "
  /\ handle_multiallelic (get_column_value sample_map blank_alt_row "ALT") = [""]
  /\ (exists variant, fst (process_row sample_map blank_alt_row init_stats) = Some variant
        /\ od_get variant "spdi" = Some "17:43106477:G:")
  /\ stat errors (snd (process_row sample_map blank_alt_row init_stats)) = O.
Proof.
  split; [reflexivity|]. split; [reflexivity|]. split; [vm_compute; reflexivity|].
  split; [|vm_compute; reflexivity].
  eexists. split; vm_compute; reflexivity.
Qed.

(** ** The amino-acid code table *)

Lemma AA_3_TO_1_items_of_lookup (y x : string) :
  AA_3_TO_1_MAP !! y = Some x -> (y, x) ∈ AA_3_TO_1_items.
Proof. apply elem_of_list_to_map_2. Qed.

(** C4: converting a 1-letter code of the table to three letters and back
    gives the code again, and so does converting a 3-letter code of the
    table to one letter and back; the stop codon goes from the star to Ter
    and back to the star. *)
Theorem aa_round_trip :
  (forall y x : string, AA_3_TO_1_MAP !! y = Some x ->
     convert_aa_3_to_1 (convert_1_to_3 x) = x)
  /\ (forall y x : string, AA_3_TO_1_MAP !! y = Some x -> PyStr.len y = 3%nat ->
        convert_1_to_3 (convert_aa_3_to_1 y) = y)
  /\ convert_1_to_3 "*" = "Ter" /\ convert_aa_3_to_1 "Ter" = "*".
Proof.
  split; [|split; [|split; vm_compute; reflexivity]].
  - intros y x H%AA_3_TO_1_items_of_lookup. unfold AA_3_TO_1_items in H.
    repeat (apply elem_of_cons in H as [H|H];
            [injection H as -> ->; vm_compute; reflexivity|]).
    apply elem_of_nil in H. contradiction.
  - intros y x H%AA_3_TO_1_items_of_lookup Hlen. unfold AA_3_TO_1_items in H.
    repeat (apply elem_of_cons in H as [H|H];
            [injection H as -> ->;
             first [vm_compute; reflexivity | discriminate Hlen]|]).
    apply elem_of_nil in H. contradiction.
Qed.

Lemma aa_round_trip_witness :
  convert_aa_3_to_1 (convert_1_to_3 "A") = "A"
  /\ convert_1_to_3 (convert_aa_3_to_1 "Ala") = "Ala".
Proof.
  split.
  - apply (proj1 aa_round_trip "Ala" "A"). vm_compute. reflexivity.
  - apply (proj1 (proj2 aa_round_trip) "Ala" "A"); vm_compute; reflexivity.
Defined.

(** The 4-letter key of the table does not come back: it shares the star
    with Ter. *)
Lemma stop_does_not_round_trip :
  AA_3_TO_1_MAP !! "Stop" = Some "*"
  /\ convert_1_to_3 (convert_aa_3_to_1 "Stop") = "Ter".
Proof. vm_compute. split; reflexivity. Qed.

(** Outside the symbolic tokens and the composites, a code the table does
    not hold comes back capitalised. *)
Lemma convert_aa_3_to_1_unmapped (aa : string) :
  bool_decide (aa ∈ special_tokens) = false ->
  PyStr.contains "fs" aa = false ->
  PyStr.contains "ext" aa = false ->
  AA_3_TO_1_MAP !! PyStr.capitalize aa = None ->
  convert_aa_3_to_1 aa = PyStr.capitalize aa.
Proof.
  intros Hs Hfs Hext Hmap. unfold convert_aa_3_to_1, dict_get.
  rewrite Hs, Hfs, Hext, Hmap. reflexivity.
Qed.

(** A code the table does not hold in capitals either comes back from
    [convert_1_to_3] as it was given. *)
Lemma convert_1_to_3_unmapped (aa : string) :
  aa <> "*" ->
  AA_1_TO_3_MAP !! PyStr.upper aa = None ->
  convert_1_to_3 aa = aa.
Proof.
  intros Hstar Hmap. unfold convert_1_to_3, dict_get, PyStr.eqb.
  rewrite bool_decide_false by exact Hstar. rewrite Hmap. reflexivity.
Qed.

(** C7 at an input where the code departs from it: SEC is neither in the
    table nor a symbolic token nor a composite, and [convert_aa_3_to_1]
    answers with its capitalised form, which is not in the table either,
    where the composite branch of the same function keeps an unmapped part
    as it was given. *)
Theorem convert_aa_3_to_1_changes_unmapped :
  AA_3_TO_1_MAP !! "SEC" = None
  /\ AA_3_TO_1_MAP !! "Sec" = None
  /\ bool_decide ("SEC" ∈ special_tokens) = false
  /\ PyStr.contains "fs" "SEC" = false
  /\ PyStr.contains "ext" "SEC" = false
  /\ convert_aa_3_to_1 "SEC" = "Sec"
  /\ convert_aa_3_to_1 "SEC" <> "SEC"
  /\ convert_aa_3_to_1 "SECfs" = "SECfs"
  /\ (fst (process_row sample_map capitals_row init_stats)
        ≫= fun variant => od_get variant "hgvsp_1") = Some "BRCA1 Sec12T".
Proof. vm_compute. repeat split. discriminate. Qed.

(** ** What the patterns capture *)

Lemma span_all (p : ascii -> bool) (s : string) :
  PyStr.all_chars p (fst (Re.span p s)) = true.
Proof.
  induction s as [|c s IH]; simpl; [reflexivity|].
  destruct (p c) eqn:Hc; [|reflexivity].
  destruct (Re.span p s) as [w r]. simpl in *. rewrite Hc. exact IH.
Qed.

Lemma many1_some (p : ascii -> bool) (s w r : string) :
  Re.many1 p s = Some (w, r) ->
  PyStr.truthy w = true /\ PyStr.all_chars p w = true.
Proof.
  unfold Re.many1. pose proof (span_all p s) as Hall.
  destruct (Re.span p s) as [w' r']. simpl in Hall.
  destruct (PyStr.truthy w') eqn:Hw; [|discriminate].
  intros [= <- <-]. split; assumption.
Qed.

Lemma digits_some (s w r : string) :
  Re.digits s = Some (w, r) -> PyStr.isdigit w = true.
Proof.
  intros [Hw Hall]%many1_some. unfold PyStr.isdigit. rewrite Hw, Hall. reflexivity.
Qed.

Lemma letters3_some (s w r : string) :
  Re.letters3 s = Some (w, r) -> PyStr.truthy w = true.
Proof.
  unfold Re.letters3. destruct s as [|a [|b [|c s]]]; try discriminate.
  destruct (_ && _)%bool; [|discriminate]. intros [= <- <-]. reflexivity.
Qed.

Lemma truthy_app_r (a b : string) :
  PyStr.truthy b = true -> PyStr.truthy (a +:+ b) = true.
Proof. destruct a; simpl; [auto | reflexivity]. Qed.

(** Peel the option binds of a pattern that has matched. *)
Ltac matched H :=
  repeat match type of H with
         | mbind _ ?m = Some _ =>
             let E := fresh "E" in
             destruct m as [[? ?]|] eqn:E; simpl in H; [|discriminate H]
         | mbind _ ?m = Some _ =>
             let E := fresh "E" in
             destruct m as [?|] eqn:E; simpl in H; [|discriminate H]
         end.

Lemma pattern_some (s pid ref_aa position alt_aa : string) :
  Re.pattern s = Some (pid, ref_aa, position, alt_aa) ->
  PyStr.isdigit position = true /\ PyStr.truthy ref_aa = true
  /\ PyStr.truthy alt_aa = true.
Proof.
  unfold Re.pattern. intros H. matched H.
  destruct (Re.at_end _); [|discriminate]. injection H as -> -> -> ->.
  split; [eauto using digits_some|]. split; [eauto using letters3_some|].
  match goal with E : match Re.letters3 ?r with _ => _ end = Some _ |- _ =>
    destruct (Re.letters3 r) as [[? ?]|] eqn:El end.
  - match goal with E : Some _ = Some _ |- _ => injection E as -> -> end.
    eauto using letters3_some.
  - match goal with E : _ <$> ?o = Some _ |- _ =>
      destruct o; [|discriminate E]; injection E as <- _ end.
    reflexivity.
Qed.

Lemma fs_pattern_some (s pid ref_aa position alt_aa : string) :
  Re.fs_pattern s = Some (pid, ref_aa, position, alt_aa) ->
  PyStr.isdigit position = true /\ PyStr.truthy ref_aa = true.
Proof.
  unfold Re.fs_pattern. intros H. matched H. injection H as -> -> -> ->.
  split; [eauto using digits_some | eauto using letters3_some].
Qed.

Lemma range_pattern_some (suffix s pid ref_aa position : string) :
  Re.range_pattern suffix s = Some (pid, ref_aa, position) ->
  PyStr.isdigit position = true /\ PyStr.truthy ref_aa = true.
Proof.
  unfold Re.range_pattern. intros H. matched H. injection H as -> -> ->.
  split; [eauto using digits_some | eauto using letters3_some].
Qed.

Lemma ins_pattern_some (s pid ref_aa position : string) :
  Re.ins_pattern s = Some (pid, ref_aa, position) ->
  PyStr.isdigit position = true /\ PyStr.truthy ref_aa = true.
Proof.
  unfold Re.ins_pattern. intros H. matched H. injection H as -> -> ->.
  split; [eauto using digits_some | eauto using letters3_some].
Qed.

Lemma ext_pattern_some (s pid position new_aa : string) :
  Re.ext_pattern s = Some (pid, position, new_aa) ->
  PyStr.isdigit position = true.
Proof.
  unfold Re.ext_pattern. intros H. matched H. injection H as -> -> ->.
  eauto using digits_some.
Qed.

(** *** Digit strings as numbers *)

Lemma digit_not_space (c : ascii) :
  PyStr.is_digit c = true -> PyStr.is_int_space c = false.
Proof.
  intros H. destruct c as [[] [] [] [] [] [] [] []]; try reflexivity; discriminate H.
Qed.

Lemma rstrip_digits (s : string) :
  PyStr.all_chars PyStr.is_digit s = true -> PyStr.int_rstrip s = s.
Proof.
  induction s as [|c s IH]; simpl; [reflexivity|].
  intros [Hc Hs]%andb_true_iff. rewrite (IH Hs), (digit_not_space c Hc).
  destruct s; reflexivity.
Qed.

(** [int] has nothing to skip around a string of digits. *)
Lemma strip_digits (s : string) :
  PyStr.all_chars PyStr.is_digit s = true ->
  PyStr.int_rstrip (PyStr.int_lstrip s) = s.
Proof.
  intros H.
  assert (Hl : PyStr.int_lstrip s = s).
  { destruct s as [|c s]; [reflexivity|]. simpl in *.
    apply andb_true_iff in H as [Hc _]. rewrite (digit_not_space c Hc). reflexivity. }
  rewrite Hl. apply rstrip_digits. exact H.
Qed.

Lemma digit_val_nonneg (c : ascii) :
  PyStr.is_digit c = true -> 0 <= PyStr.digit_val c.
Proof.
  unfold PyStr.is_digit, PyStr.in_range, PyStr.digit_val.
  intros [H1 _]%andb_true_iff. apply N.leb_le in H1. lia.
Qed.

Lemma int_digits_all (s : string) :
  PyStr.all_chars PyStr.is_digit s = true ->
  forall (acc : Z) (after_digit : bool),
    0 <= acc -> (PyStr.truthy s || after_digit)%bool = true ->
    exists n, PyStr.int_digits acc after_digit s = Some n /\ 0 <= n.
Proof.
  induction s as [|c s IH]; simpl; intros Hall acc b Hacc Hne.
  - rewrite Hne. eauto.
  - apply andb_true_iff in Hall as [Hc Hs]. rewrite Hc.
    apply (IH Hs).
    + pose proof (digit_val_nonneg c Hc). lia.
    + apply orb_true_r.
Qed.

(** A string of digits is a number for [int], and not a negative one. *)
Lemma int_of_isdigit (s : string) :
  PyStr.isdigit s = true -> exists n, PyStr.int s = Some n /\ 0 <= n.
Proof.
  unfold PyStr.isdigit. intros [Hne Hall]%andb_true_iff.
  unfold PyStr.int. rewrite (strip_digits s Hall).
  destruct (int_digits_all s Hall 0 false) as (n & Hn & Hpos);
    [lia | rewrite Hne; reflexivity |].
  exists n. split; [|exact Hpos]. rewrite <- Hn.
  destruct s as [|c s]; [reflexivity|].
  simpl in Hall. apply andb_true_iff in Hall as [Hc _].
  destruct c as [[] [] [] [] [] [] [] []]; try reflexivity; discriminate Hc.
Qed.

(** C6, as the code has it: when [parse_hgvsp] returns a tuple, the position
    is a non-empty string of decimal digits, hence the numeral of an
    integer that is not negative (it may be zero), and neither the
    reference nor the alternative is empty. *)
Theorem parse_hgvsp_components (hgvsp pid position ref_aa alt_aa : string) :
  parse_hgvsp hgvsp = Some (pid, position, ref_aa, alt_aa) ->
  PyStr.isdigit position = true
  /\ (exists n, PyStr.int position = Some n /\ 0 <= n)
  /\ ref_aa <> "" /\ alt_aa <> "".
Proof.
  intros H.
  enough (PyStr.isdigit position = true /\ PyStr.truthy ref_aa = true
          /\ PyStr.truthy alt_aa = true) as (Hd & Hr & Ha).
  { split; [exact Hd|]. split; [exact (int_of_isdigit _ Hd)|].
    split; intros ->; discriminate. }
  unfold parse_hgvsp in H.
  destruct (negb _ || _)%bool; [discriminate|].
  destruct (PyStr.contains "=" _); [discriminate|].
  set (s := PyStr.replace hgvsp "%3D" "=") in H.
  destruct (Re.pattern s) as [[[[? ?] ?] ?]|] eqn:E1.
  { injection H as -> -> -> ->. eauto using pattern_some. }
  destruct (Re.fs_pattern s) as [[[[? ?] ?] alt]|] eqn:E2.
  { injection H as -> -> -> <-. apply fs_pattern_some in E2 as [? ?].
    repeat split; try assumption. apply truthy_app_r. reflexivity. }
  destruct (Re.del_pattern s) as [[[? ?] ?]|] eqn:E3.
  { injection H as -> -> -> <-. apply range_pattern_some in E3 as [? ?]. auto. }
  destruct (Re.ins_pattern s) as [[[? ?] ?]|] eqn:E4.
  { injection H as -> -> -> <-. apply ins_pattern_some in E4 as [? ?]. auto. }
  destruct (Re.dup_pattern s) as [[[? ?] ?]|] eqn:E5.
  { injection H as -> -> -> <-. apply range_pattern_some in E5 as [? ?]. auto. }
  destruct (Re.ext_pattern s) as [[[? ?] new_aa]|] eqn:E6; [|discriminate].
  injection H as -> -> <- <-. apply ext_pattern_some in E6.
  repeat split; try assumption. apply truthy_app_r. reflexivity.
Qed.

Lemma parse_hgvsp_components_witness :
  PyStr.isdigit "1708" = true
  /\ (exists n, PyStr.int "1708" = Some n /\ 0 <= n)
  /\ "Ala" <> "" /\ "Glu" <> "".
Proof.
  apply (parse_hgvsp_components "ENSP00000350283.3:p.Ala1708Glu"
           "ENSP00000350283.3" "1708" "Ala" "Glu").
  vm_compute. reflexivity.
Defined.

(** C6 fails as stated: position 0 is matched as any other run of digits,
    and 0 is not a strictly positive integer. *)
Lemma position_zero_is_parsed :
  parse_hgvsp "ENSP1:p.Ala0Thr" = Some ("ENSP1", "0", "Ala", "Thr")
  /\ PyStr.int "0" = Some 0
  /\ ~ (exists n, PyStr.int "0" = Some n /\ 0 < n).
Proof.
  split; [vm_compute; reflexivity|]. split; [vm_compute; reflexivity|].
  intros (n & Hn & Hpos). vm_compute in Hn. injection Hn as <-. lia.
Qed.

(** ** The aliases of a record *)

Lemma od_get_set_eq (d : Variant) (k v : string) :
  od_get (od_set d k v) k = Some v.
Proof.
  induction d as [|[k' v'] d IH]; simpl.
  - rewrite bool_decide_true by reflexivity. reflexivity.
  - case_bool_decide as Hk; simpl.
    + rewrite bool_decide_true by reflexivity. reflexivity.
    + rewrite bool_decide_false by exact Hk. exact IH.
Qed.

Lemma od_get_set_ne (d : Variant) (k k' v : string) :
  k' <> k -> od_get (od_set d k' v) k = od_get d k.
Proof.
  intros Hne. induction d as [|[k0 v0] d IH]; simpl.
  - rewrite bool_decide_false by exact Hne. reflexivity.
  - case_bool_decide as Hk0; simpl.
    + subst k0. rewrite !bool_decide_false by exact Hne. reflexivity.
    + rewrite IH. reflexivity.
Qed.

Ltac od_lookup :=
  repeat first [ rewrite od_get_set_eq
               | rewrite od_get_set_ne by discriminate ].

(** Look a key up in a record built by successive assignments, some of
    them under a condition. *)
Ltac od_cases :=
  cbv zeta;
  repeat (od_lookup;
          match goal with
          | |- context [od_get (if ?b then _ else _) _] => destruct b
          | |- context [od_get (match ?o with Some _ => _ | None => _ end) _] =>
              destruct o
          end);
  od_lookup.

Lemma fallback_entry_aliases
    (var_id : string) (rsid : option string)
    (spdi gene_symbol hgvsc mane_select protein_position : string)
    (ref_aa_1 alt_aa_1 : string) :
  protein_aliases (fallback_entry var_id rsid spdi gene_symbol hgvsc
                     mane_select protein_position ref_aa_1 alt_aa_1)
  = (Some (gene_symbol +:+ " p." +:+ side_3 ref_aa_1 +:+ protein_position
             +:+ side_3 alt_aa_1),
     Some (gene_symbol +:+ " " +:+ side_3 ref_aa_1 +:+ protein_position
             +:+ side_3 alt_aa_1),
     Some (gene_symbol +:+ " p." +:+ ref_aa_1 +:+ protein_position +:+ alt_aa_1),
     Some (gene_symbol +:+ " " +:+ ref_aa_1 +:+ protein_position +:+ alt_aa_1)).
Proof.
  unfold protein_aliases, fallback_entry, side_3. od_cases; reflexivity.
Qed.

Lemma primary_entry_aliases
    (var_id : string) (rsid : option string)
    (spdi gene_symbol hgvsc hgvsp mane_select : string)
    (position ref_aa_3 alt_aa_3 : string) :
  protein_aliases (primary_entry var_id rsid spdi gene_symbol hgvsc hgvsp
                     mane_select position ref_aa_3 alt_aa_3)
  = (Some (gene_symbol +:+ " p." +:+ ref_aa_3 +:+ position +:+ alt_aa_3),
     Some (gene_symbol +:+ " " +:+ ref_aa_3 +:+ position +:+ alt_aa_3),
     Some (gene_symbol +:+ " p." +:+ convert_aa_3_to_1 ref_aa_3 +:+ position
             +:+ convert_aa_3_to_1 alt_aa_3),
     Some (gene_symbol +:+ " " +:+ convert_aa_3_to_1 ref_aa_3 +:+ position
             +:+ convert_aa_3_to_1 alt_aa_3)).
Proof.
  unfold protein_aliases, primary_entry. od_cases; reflexivity.
Qed.

Lemma fallback_entry_spdi
    (var_id : string) (rsid : option string)
    (spdi gene_symbol hgvsc mane_select protein_position : string)
    (ref_aa_1 alt_aa_1 : string) :
  od_get (fallback_entry var_id rsid spdi gene_symbol hgvsc
            mane_select protein_position ref_aa_1 alt_aa_1) "spdi" = Some spdi.
Proof.
  unfold fallback_entry. od_cases; reflexivity.
Qed.

Lemma primary_entry_spdi
    (var_id : string) (rsid : option string)
    (spdi gene_symbol hgvsc hgvsp mane_select : string)
    (position ref_aa_3 alt_aa_3 : string) :
  od_get (primary_entry var_id rsid spdi gene_symbol hgvsc hgvsp
            mane_select position ref_aa_3 alt_aa_3) "spdi" = Some spdi.
Proof.
  unfold primary_entry. od_cases; reflexivity.
Qed.

(** C3, as the code has it: on the fallback path the hgvsp_3p and hgvsp_3
    aliases carry each side of [Amino_acids] converted by [convert_1_to_3]
    when the side is one character long and as it was given otherwise, and
    the hgvsp_1p and hgvsp_1 aliases carry both sides as they were given:
    nothing is converted to 1-letter form. *)
Theorem fallback_aliases (column_map : gmap string nat) (row : list string)
    (st : Stats) (variant : Variant) :
  absent (get_column_value column_map row "HGVSp") = true ->
  fst (process_row column_map row st) = Some variant ->
  exists ref_aa alt_aa : string,
    parse_amino_acids (get_column_value column_map row "Amino_acids")
      = Some (ref_aa, alt_aa)
    /\ let gene_symbol := get_column_value column_map row "SYMBOL" in
       let protein_position := get_column_value column_map row "Protein_position" in
       protein_aliases variant
       = (Some (gene_symbol +:+ " p." +:+ side_3 ref_aa +:+ protein_position
                  +:+ side_3 alt_aa),
          Some (gene_symbol +:+ " " +:+ side_3 ref_aa +:+ protein_position
                  +:+ side_3 alt_aa),
          Some (gene_symbol +:+ " p." +:+ ref_aa +:+ protein_position +:+ alt_aa),
          Some (gene_symbol +:+ " " +:+ ref_aa +:+ protein_position +:+ alt_aa)).
Proof.
  intros Ha. rewrite process_row_eq.
  destruct (negb (validate_chromosome _)); [discriminate|].
  destruct (negb (validate_position _)); [discriminate|].
  destruct (PyStr.startswith _ "Sniffles2"); [discriminate|].
  destruct (handle_multiallelic _) as [|alt alts]; [discriminate|].
  destruct (PyStr.int _) as [n|]; [|discriminate].
  cbn [fst]. unfold resolve. rewrite Ha.
  destruct (_ && _)%bool; [|discriminate].
  destruct (parse_amino_acids _) as [[ref_aa alt_aa]|]; [|discriminate].
  intros [= <-]. exists ref_aa, alt_aa. split; [reflexivity|].
  apply fallback_entry_aliases.
Qed.

Lemma fallback_aliases_witness :
  exists ref_aa alt_aa : string,
    parse_amino_acids (get_column_value sample_map three_letter_row "Amino_acids")
      = Some (ref_aa, alt_aa)
    /\ let gene_symbol := get_column_value sample_map three_letter_row "SYMBOL" in
       let protein_position :=
         get_column_value sample_map three_letter_row "Protein_position" in
       protein_aliases
         [("internal_id", "var1"); ("spdi", "17:43106477:G:A");
          ("hgvsp_3p", "BRCA1 p.Ala446Thr"); ("hgvsp_3", "BRCA1 Ala446Thr");
          ("hgvsp_1p", "BRCA1 p.Ala446Thr"); ("hgvsp_1", "BRCA1 Ala446Thr")]
       = (Some (gene_symbol +:+ " p." +:+ side_3 ref_aa +:+ protein_position
                  +:+ side_3 alt_aa),
          Some (gene_symbol +:+ " " +:+ side_3 ref_aa +:+ protein_position
                  +:+ side_3 alt_aa),
          Some (gene_symbol +:+ " p." +:+ ref_aa +:+ protein_position +:+ alt_aa),
          Some (gene_symbol +:+ " " +:+ ref_aa +:+ protein_position +:+ alt_aa)).
Proof.
  apply (fallback_aliases sample_map three_letter_row init_stats);
    vm_compute; reflexivity.
Defined.

(** C3 fails as stated: with Ala/Thr in [Amino_acids] the hgvsp_1p and
    hgvsp_1 aliases carry the 3-letter codes as given, not the 1-letter
    codes A and T. *)
Lemma three_letter_sides_stay :
  absent (get_column_value sample_map three_letter_row "HGVSp") = true
  /\ parse_amino_acids (get_column_value sample_map three_letter_row "Amino_acids")
     = Some ("Ala", "Thr")
  /\ convert_aa_3_to_1 "Ala" = "A" /\ convert_aa_3_to_1 "Thr" = "T"
  /\ exists variant,
       fst (process_row sample_map three_letter_row init_stats) = Some variant
       /\ od_get variant "hgvsp_1p" = Some "BRCA1 p.Ala446Thr"
       /\ od_get variant "hgvsp_1" = Some "BRCA1 Ala446Thr"
       /\ od_get variant "hgvsp_1p" <> Some "BRCA1 p.A446T"
       /\ od_get variant "hgvsp_1" <> Some "BRCA1 A446T".
Proof.
  repeat (split; [vm_compute; reflexivity|]).
  eexists. split; [vm_compute; reflexivity|].
  repeat split; vm_compute; congruence.
Qed.

(** The two sample rows of the parity differ in HGVSp alone. *)
Lemma sample_rows_agree (name : string) :
  name <> "HGVSp" ->
  get_column_value sample_map bare_row name
  = get_column_value sample_map primary_row name.
Proof.
  intros Hname. unfold get_column_value.
  destruct (sample_map !! name) as [idx|] eqn:E; [|reflexivity].
  do 13 (destruct idx as [|idx]; [reflexivity|]).
  destruct idx as [|idx]; [|reflexivity].
  exfalso. apply Hname.
  unfold sample_map, parse_header in E. cbn [fst] in E.
  unfold build_column_map in E. simpl in E.
  repeat (rewrite lookup_insert in E; case_decide;
          [first [congruence | discriminate E]|]).
  rewrite lookup_empty in E. discriminate.
Qed.

(** C8: a row without HGVSp whose [Protein_position] is 446 and whose
    [Amino_acids] is A/T and a row that differs from it only in carrying
    the HGVSp X:p.Ala446Thr are accepted or rejected together.  When the
    chromosome and the position are valid, the identifier is not one of
    Sniffles2 and ALT gives an allele, both rows yield a record, and the
    two records carry the same four protein aliases, namely p.Ala446Thr,
    Ala446Thr, p.A446T and A446T after the gene symbol. *)
Theorem fallback_parity (column_map : gmap string nat)
    (row1 row2 : list string) (st1 st2 : Stats) :
  (forall name : string, name <> "HGVSp" ->
     get_column_value column_map row1 name = get_column_value column_map row2 name) ->
  absent (get_column_value column_map row1 "HGVSp") = true ->
  get_column_value column_map row2 "HGVSp" = "X:p.Ala446Thr" ->
  get_column_value column_map row1 "Protein_position" = "446" ->
  get_column_value column_map row1 "Amino_acids" = "A/T" ->
  let gene_symbol := get_column_value column_map row2 "SYMBOL" in
  let aliases :=
    (Some (gene_symbol +:+ " p.Ala446Thr"), Some (gene_symbol +:+ " Ala446Thr"),
     Some (gene_symbol +:+ " p.A446T"), Some (gene_symbol +:+ " A446T")) in
  protein_aliases <$> fst (process_row column_map row1 st1)
    = protein_aliases <$> fst (process_row column_map row2 st2)
  /\ (forall variant : Variant,
        fst (process_row column_map row2 st2) = Some variant ->
        protein_aliases variant = aliases)
  /\ (validate_chromosome (get_column_value column_map row1 "CHROM") = true ->
      validate_position (get_column_value column_map row1 "POS") = true ->
      PyStr.startswith (get_column_value column_map row1 "ID") "Sniffles2" = false ->
      handle_multiallelic (get_column_value column_map row1 "ALT") <> [] ->
      exists variant1 variant2 : Variant,
        fst (process_row column_map row1 st1) = Some variant1
        /\ fst (process_row column_map row2 st2) = Some variant2
        /\ protein_aliases variant1 = aliases
        /\ protein_aliases variant2 = aliases).
Proof.
  intros Hsame Ha H2 Hpp Haa gene_symbol aliases.
  assert (Hcols : forall n alt, exists variant1 variant2 : Variant,
    resolve column_map row1 n alt = Some variant1
    /\ resolve column_map row2 n alt = Some variant2
    /\ protein_aliases variant1 = aliases
    /\ protein_aliases variant2 = aliases).
  { intros n alt. unfold resolve. rewrite Ha, Hpp, Haa, H2.
    rewrite (Hsame "SYMBOL") by discriminate. fold gene_symbol.
    replace (absent "X:p.Ala446Thr") with false by (vm_compute; reflexivity).
    replace (parse_hgvsp "X:p.Ala446Thr") with (Some ("X", "446", "Ala", "Thr"))
      by (vm_compute; reflexivity).
    replace (parse_amino_acids "A/T") with (Some ("A", "T"))
      by (vm_compute; reflexivity).
    replace (PyStr.truthy "446" && negb (PyStr.eqb "446" "-"))%bool with true
      by (vm_compute; reflexivity).
    eexists _, _. split; [reflexivity|]. split; [reflexivity|].
    rewrite fallback_entry_aliases, primary_entry_aliases.
    replace (side_3 "A") with "Ala" by (vm_compute; reflexivity).
    replace (side_3 "T") with "Thr" by (vm_compute; reflexivity).
    replace (convert_aa_3_to_1 "Ala") with "A" by (vm_compute; reflexivity).
    replace (convert_aa_3_to_1 "Thr") with "T" by (vm_compute; reflexivity).
    split; reflexivity. }
  rewrite !process_row_eq.
  rewrite <- (Hsame "CHROM"), <- (Hsame "POS"), <- (Hsame "ID"), <- (Hsame "ALT")
    by discriminate.
  destruct (validate_chromosome _); cbn [negb];
    [|split; [reflexivity|]; split; [discriminate|]; intros H; discriminate H].
  destruct (validate_position _) eqn:Hp; cbn [negb];
    [|split; [reflexivity|]; split; [discriminate|]; intros _ H; discriminate H].
  destruct (PyStr.startswith _ "Sniffles2");
    [split; [reflexivity|]; split; [discriminate|]; intros _ _ H; discriminate H|].
  destruct (handle_multiallelic _) as [|alt alts];
    [split; [reflexivity|]; split; [discriminate|];
     intros _ _ _ H; contradiction H; reflexivity|].
  destruct (validate_position_int _ Hp) as (n & -> & _).
  cbn [fst]. destruct (Hcols n alt) as (variant1 & variant2 & -> & -> & H1 & H3).
  split; [cbn [fmap option_fmap option_map]; rewrite H1, H3; reflexivity|].
  split; [intros variant [= <-]; exact H3|].
  intros _ _ _ _. exists variant1, variant2. repeat split; assumption.
Qed.

Lemma fallback_parity_witness :
  let aliases :=
    (Some "BRCA1 p.Ala446Thr", Some "BRCA1 Ala446Thr",
     Some "BRCA1 p.A446T", Some "BRCA1 A446T") in
  exists variant1 variant2 : Variant,
    fst (process_row sample_map bare_row init_stats) = Some variant1
    /\ fst (process_row sample_map primary_row init_stats) = Some variant2
    /\ protein_aliases variant1 = aliases
    /\ protein_aliases variant2 = aliases.
Proof.
  apply (fallback_parity sample_map bare_row primary_row init_stats init_stats);
    try (vm_compute; reflexivity).
  - exact sample_rows_agree.
  - vm_compute. discriminate.
Defined.

(** Both rows of the parity are accepted on the sample input, with these
    aliases. *)
Lemma fallback_parity_sample :
  protein_aliases <$> fst (process_row sample_map bare_row init_stats)
    = Some (Some "BRCA1 p.Ala446Thr", Some "BRCA1 Ala446Thr",
            Some "BRCA1 p.A446T", Some "BRCA1 A446T")
  /\ protein_aliases <$> fst (process_row sample_map primary_row init_stats)
    = Some (Some "BRCA1 p.Ala446Thr", Some "BRCA1 Ala446Thr",
            Some "BRCA1 p.A446T", Some "BRCA1 A446T").
Proof. split; vm_compute; reflexivity. Qed.

(** ** SPDI *)

Lemma replace_absent (old new s : string) :
  PyStr.contains old s = false -> PyStr.replace s old new = s.
Proof.
  unfold PyStr.replace. induction s as [|c s IH]; [reflexivity|].
  cbn [PyStr.contains PyStr.replace_from].
  intros [Hstart Hrest]%orb_false_iff. rewrite Hstart, (IH Hrest). reflexivity.
Qed.

Lemma replace_chr_prefix (s : string) :
  PyStr.startswith s "chr" = true ->
  PyStr.replace s "chr" "" = PyStr.replace (PyStr.drop 3 s) "chr" "".
Proof.
  destruct s as [|a [|b [|c s]]]; simpl; try discriminate.
  - rewrite andb_false_r. discriminate.
  - rewrite !andb_false_r. discriminate.
  - intros H. unfold PyStr.replace. cbn [PyStr.replace_from].
    cbn [PyStr.startswith]. cbn [PyStr.startswith] in H. rewrite H. reflexivity.
Qed.

Lemma replace_removeprefix (s : string) :
  PyStr.contains "chr" (removeprefix s "chr") = false ->
  PyStr.replace s "chr" "" = removeprefix s "chr".
Proof.
  unfold removeprefix. destruct (PyStr.startswith s "chr") eqn:Hs; intros H.
  - rewrite (replace_chr_prefix s Hs). apply replace_absent. exact H.
  - apply replace_absent. exact H.
Qed.

Lemma contains_tail (p : string) (c : ascii) (s : string) :
  PyStr.contains p (String c s) = false -> PyStr.contains p s = false.
Proof. cbn [PyStr.contains]. intros [_ H]%orb_false_iff. exact H. Qed.

Lemma contains_drop (p s : string) (k : nat) :
  PyStr.contains p s = false -> PyStr.contains p (PyStr.drop k s) = false.
Proof.
  revert s. induction k as [|k IH]; intros s H; [destruct s; exact H|].
  destruct s as [|c s]; [exact H|]. simpl. apply IH. exact (contains_tail _ _ _ H).
Qed.

Lemma contains_removeprefix (p s q : string) :
  PyStr.contains p s = false -> PyStr.contains p (removeprefix s q) = false.
Proof.
  unfold removeprefix. destruct (PyStr.startswith s q); [apply contains_drop | auto].
Qed.

Lemma startswith_nil (s : string) : PyStr.startswith s "" = true.
Proof. destruct s; reflexivity. Qed.

Lemma no_colon_head (c : ascii) (s : string) :
  PyStr.contains ":" (String c s) = false ->
  c <> ":"%char /\ PyStr.contains ":" s = false.
Proof.
  cbn [PyStr.contains PyStr.startswith]. intros [Hc Hs]%orb_false_iff.
  split; [|exact Hs]. rewrite startswith_nil, andb_true_r in Hc.
  apply bool_decide_eq_false in Hc. congruence.
Qed.

(** Splitting at the first colon of [a:b] when [a] holds none. *)
Lemma split_field (a b : string) :
  PyStr.contains ":" a = false ->
  PyStr.split (a +:+ ":" +:+ b) ":" = a :: PyStr.split b ":".
Proof.
  change (":" +:+ b) with (String ":" b).
  induction a as [|c a IH]; intros H.
  - change ("" +:+ String ":" b) with (String ":" b). cbn [PyStr.split].
    rewrite bool_decide_true by reflexivity. reflexivity.
  - apply no_colon_head in H as [Hc Ha].
    change (String c a +:+ String ":" b) with (String c (a +:+ String ":" b)).
    cbn [PyStr.split]. rewrite bool_decide_false by exact Hc.
    rewrite (IH Ha). reflexivity.
Qed.

Lemma split_last_field (a : string) :
  PyStr.contains ":" a = false -> PyStr.split a ":" = [a].
Proof.
  induction a as [|c a IH]; intros H; [reflexivity|].
  apply no_colon_head in H as [Hc Ha]. cbn [PyStr.split].
  rewrite bool_decide_false by exact Hc. rewrite (IH Ha). reflexivity.
Qed.

Lemma digits_no_colon (s : string) :
  PyStr.all_chars PyStr.is_digit s = true -> PyStr.contains ":" s = false.
Proof.
  induction s as [|c s IH]; [reflexivity|]. cbn [PyStr.all_chars].
  intros [Hc Hs]%andb_true_iff. cbn [PyStr.contains PyStr.startswith].
  rewrite (IH Hs), startswith_nil, andb_true_r, orb_false_r.
  apply bool_decide_eq_false. intros <-. discriminate Hc.
Qed.

Lemma uint_digits (d : Decimal.uint) :
  PyStr.all_chars PyStr.is_digit (NilEmpty.string_of_uint d) = true.
Proof. induction d; simpl; try rewrite IHd; reflexivity. Qed.

(** The numeral of a number that is not negative is made of digits. *)
Lemma str_digits (n : Z) :
  0 <= n -> PyStr.all_chars PyStr.is_digit (PyStr.str n) = true.
Proof.
  intros Hn. unfold PyStr.str. destruct n as [|p|p]; [reflexivity| |lia].
  change (PyStr.all_chars PyStr.is_digit
            (NilZero.string_of_uint (Pos.to_uint p)) = true).
  unfold NilZero.string_of_uint.
  destruct (Pos.to_uint p); first [reflexivity | apply uint_digits].
Qed.

Lemma resolve_spdi (column_map : gmap string nat) (row : list string)
    (n : Z) (alt : string) (variant : Variant) :
  resolve column_map row n alt = Some variant ->
  od_get variant "spdi" = Some (spdi_of column_map row n alt).
Proof.
  unfold resolve. destruct (absent _).
  - destruct (_ && _)%bool; [|discriminate].
    destruct (parse_amino_acids _) as [[? ?]|]; [|discriminate].
    intros [= <-]. apply fallback_entry_spdi.
  - destruct (parse_hgvsp _) as [[[[? ?] ?] ?]|]; [|discriminate].
    intros [= <-]. apply primary_entry_spdi.
Qed.

(** C5, as the code has it: for an accepted row in whose chromosome chr
    occurs at most as the leading prefix, the spdi string is the chromosome
    without that prefix, the numeral of POS - 1, REF and the first ALT
    allele (the head of the list [handle_multiallelic] makes of ALT),
    joined by colons; and when neither the chromosome nor REF nor that
    allele holds a colon, splitting spdi at the colons gives exactly these
    four fields, the second being the numeral of POS - 1. *)
Theorem spdi_of_accepted_row (column_map : gmap string nat)
    (row : list string) (st : Stats) (variant : Variant) :
  fst (process_row column_map row st) = Some variant ->
  let chrom := get_column_value column_map row "CHROM" in
  let ref := get_column_value column_map row "REF" in
  PyStr.contains "chr" (removeprefix chrom "chr") = false ->
  exists (n : Z) (alt spdi : string),
    PyStr.int (get_column_value column_map row "POS") = Some n /\ 0 < n
    /\ head (handle_multiallelic (get_column_value column_map row "ALT")) = Some alt
    /\ od_get variant "spdi" = Some spdi
    /\ spdi = removeprefix chrom "chr" +:+ ":" +:+ PyStr.str (n - 1)
                +:+ ":" +:+ ref +:+ ":" +:+ alt
    /\ (PyStr.contains ":" chrom = false -> PyStr.contains ":" ref = false ->
        PyStr.contains ":" alt = false ->
        PyStr.split spdi ":" = [removeprefix chrom "chr"; PyStr.str (n - 1); ref; alt]).
Proof.
  intros H chrom ref Hchr. rewrite process_row_eq in H.
  destruct (negb (validate_chromosome _)); [discriminate|].
  destruct (validate_position _) eqn:Hp; [|discriminate].
  destruct (validate_position_int _ Hp) as (n & Hn & Hpos).
  cbn [negb] in H. destruct (PyStr.startswith _ "Sniffles2"); [discriminate|].
  rewrite Hn in H.
  destruct (handle_multiallelic _) as [|alt alts]; [discriminate|].
  cbn [fst] in H. apply resolve_spdi in H.
  exists n, alt, (spdi_of column_map row n alt).
  split; [exact Hn|]. split; [exact Hpos|]. split; [reflexivity|].
  split; [exact H|].
  unfold spdi_of. fold chrom ref. rewrite (replace_removeprefix chrom Hchr).
  split; [reflexivity|]. intros Hc Hr Ha.
  rewrite split_field by (apply contains_removeprefix; exact Hc).
  rewrite split_field by (apply digits_no_colon, str_digits; lia).
  rewrite split_field by exact Hr.
  rewrite split_last_field by exact Ha. reflexivity.
Qed.

Lemma spdi_of_accepted_row_witness :
  exists (n : Z) (alt spdi : string),
    PyStr.int (get_column_value sample_map brca1_row "POS") = Some n /\ 0 < n
    /\ head (handle_multiallelic (get_column_value sample_map brca1_row "ALT"))
       = Some alt
    /\ od_get [("internal_id", "rs80357382"); ("rsid", "rs80357382");
               ("spdi", "17:43106477:G:A");
               ("hgvs_full", "NM_007294.4(BRCA1):c.5123C>A(p.Ala1708Glu)");
               ("hgvsc", "BRCA1 c.5123C>A"); ("hgvsp_3p", "BRCA1 p.Ala1708Glu");
               ("hgvsp_3", "BRCA1 Ala1708Glu"); ("hgvsp_1p", "BRCA1 p.A1708E");
               ("hgvsp_1", "BRCA1 A1708E")] "spdi" = Some spdi
    /\ spdi = removeprefix (get_column_value sample_map brca1_row "CHROM") "chr"
                +:+ ":" +:+ PyStr.str (n - 1)
                +:+ ":" +:+ get_column_value sample_map brca1_row "REF" +:+ ":" +:+ alt
    /\ (PyStr.contains ":" (get_column_value sample_map brca1_row "CHROM") = false ->
        PyStr.contains ":" (get_column_value sample_map brca1_row "REF") = false ->
        PyStr.contains ":" alt = false ->
        PyStr.split spdi ":"
        = [removeprefix (get_column_value sample_map brca1_row "CHROM") "chr";
           PyStr.str (n - 1); get_column_value sample_map brca1_row "REF"; alt]).
Proof.
  apply (spdi_of_accepted_row sample_map brca1_row init_stats);
    vm_compute; reflexivity.
Defined.

(** The sample row of the design description gives 17:43106477:G:A. *)
Lemma spdi_sample :
  (fst (process_row sample_map brca1_row init_stats) ≫= fun v => od_get v "spdi")
  = Some "17:43106477:G:A"
  /\ PyStr.split "17:43106477:G:A" ":" = ["17"; "43106477"; "G"; "A"].
Proof. split; vm_compute; reflexivity. Qed.

(** C5 fails as stated: the ALT of a breakend holds a colon, the row is
    accepted, and its spdi falls into five fields. *)
Lemma spdi_with_five_fields :
  exists (variant : Variant) (spdi : string),
    fst (process_row sample_map breakend_row init_stats) = Some variant
    /\ od_get variant "spdi" = Some spdi
    /\ spdi = "2:321680:G:G]17:198982]"
    /\ PyStr.split spdi ":" = ["2"; "321680"; "G"; "G]17"; "198982]"]
    /\ length (PyStr.split spdi ":") <> 4%nat.
Proof.
  eexists _, _. split; [vm_compute; reflexivity|].
  split; [vm_compute; reflexivity|]. split; [reflexivity|].
  split; [vm_compute; reflexivity|]. vm_compute. discriminate.
Qed.

(** The code removes every occurrence of chr, not the prefix alone; the
    property above leaves such chromosome names aside. *)
Lemma inner_chr_is_removed :
  validate_chromosome "chrUn_chr1" = true
  /\ PyStr.replace "chrUn_chr1" "chr" "" = "Un_1"
  /\ removeprefix "chrUn_chr1" "chr" = "Un_chr1".
Proof. vm_compute. repeat split. Qed.

(** ** The two drivers *)

Lemma records_app (a b : list output) :
  records (a ++ b) = records a ++ records b.
Proof. unfold records. apply flat_map_app. Qed.

Section Loops.

Variable column_map : gmap string nat.

Abbreviation accepted := (fun row => emitted (row_record column_map row)).

Lemma stream_rows_records (rows : list (list string)) :
  forall (first_variant : bool) (outfile : list output) (st : Stats),
    records (fst (stream_rows column_map rows first_variant outfile st))
    = records outfile ++ omap accepted rows.
Proof.
  induction rows as [|row rows IH]; intros fv out st; cbn [stream_rows omap list_omap].
  - rewrite app_nil_r. reflexivity.
  - pose proof (process_row_record column_map row (bump total_rows st)) as Hrec.
    destruct (process_row column_map row (bump total_rows st)) as [variant st1].
    cbn [fst] in Hrec. rewrite <- Hrec.
    destruct (emitted variant) as [v|].
    + rewrite IH. destruct fv; cbn [negb];
        rewrite ?records_app; cbn [records flat_map];
        rewrite ?app_nil_r, <- ?app_assoc; reflexivity.
    + apply IH.
Qed.

Lemma collect_rows_variants (rows : list (list string)) :
  forall (variants : list Variant) (st : Stats),
    fst (collect_rows column_map rows variants st)
    = variants ++ omap accepted rows.
Proof.
  induction rows as [|row rows IH]; intros vs st; cbn [collect_rows omap list_omap].
  - rewrite app_nil_r. reflexivity.
  - pose proof (process_row_record column_map row (bump total_rows st)) as Hrec.
    destruct (process_row column_map row (bump total_rows st)) as [variant st1].
    cbn [fst] in Hrec. rewrite <- Hrec.
    destruct (emitted variant) as [v|].
    + rewrite IH, <- app_assoc. reflexivity.
    + apply IH.
Qed.

Lemma loops_statistics (rows : list (list string)) :
  forall (first_variant : bool) (outfile : list output)
         (variants : list Variant) (st : Stats),
    snd (stream_rows column_map rows first_variant outfile st)
    = snd (collect_rows column_map rows variants st).
Proof.
  induction rows as [|row rows IH]; intros fv out vs st;
    cbn [stream_rows collect_rows]; [reflexivity|].
  destruct (process_row column_map row (bump total_rows st)) as [variant st1].
  destruct (emitted variant); apply IH.
Qed.

End Loops.

(** A header with a first column is read without raising. *)
Lemma parse_header_returns (h0 : string) (header : list string) :
  exists column_map ok, parse_header (h0 :: header) = Returned (column_map, ok).
Proof. unfold parse_header. eauto. Qed.

(** C9, as the code has it: both modes return the same flag and leave the
    same statistics.  On an input that is read to its end they write the
    same sequence of records, which is the sequence of the records of the
    accepted rows in the order of the rows.  When the reader raises after
    some rows, both return false; the streaming mode has written the
    records of the accepted rows read so far, in the order of the rows, and
    the buffered mode has written none. *)
Theorem modes_emit_same_records (reader : list (list string))
    (ending : reader_end) (st : Stats) :
  let streaming := convert_file true reader ending st in
  let buffered := convert_file false reader ending st in
  fst (fst streaming) = fst (fst buffered)
  /\ snd streaming = snd buffered
  /\ records (snd (fst streaming)) = expected_records reader
  /\ match ending with
     | Exhausted => records (snd (fst buffered)) = expected_records reader
     | Fails => fst (fst buffered) = false /\ snd (fst buffered) = []
     end.
Proof.
  unfold convert_file, process_file_streaming, expected_records.
  destruct reader as [|header rows]; [destruct ending; repeat split|].
  destruct header as [|h0 header]; [destruct ending; repeat split|].
  destruct (parse_header_returns h0 header) as (column_map & ok & ->).
  destruct ok; cbn [negb]; [|destruct ending; repeat split].
  pose proof (stream_rows_records column_map rows true [Write "[
"] st) as Hs.
  pose proof (collect_rows_variants column_map rows [] st) as Hb.
  pose proof (loops_statistics column_map rows true [Write "[
"] [] st) as Hst.
  destruct (stream_rows column_map rows true _ st) as [outfile st_s].
  destruct (collect_rows column_map rows [] st) as [variants st_b].
  cbn [fst snd] in *. subst variants st_s.
  destruct ending; cbn [fst snd].
  - rewrite records_app, Hs. cbn [records flat_map app].
    rewrite !app_nil_r. repeat split.
  - rewrite Hs. repeat split.
Qed.

(** C9 fails as stated: the reader raises after the first data row; the
    streaming mode has written the record of that row, the buffered mode
    writes nothing. *)
Lemma reader_failure_splits_modes :
  let reader := [sample_header; brca1_row] in
  records (snd (fst (convert_file true reader Fails init_stats)))
  = omap (row_record sample_map) [brca1_row]
  /\ length (records (snd (fst (convert_file true reader Fails init_stats)))) = 1%nat
  /\ records (snd (fst (convert_file false reader Fails init_stats))) = []
  /\ fst (fst (convert_file true reader Fails init_stats)) = false
  /\ fst (fst (convert_file false reader Fails init_stats)) = false.
Proof. repeat split; vm_compute; reflexivity. Qed.

(** On the sample input, read to its end, both modes write the one record
    of the row. *)
Lemma modes_on_sample :
  records (snd (fst (convert_file true [sample_header; start_lost_row; brca1_row]
                       Exhausted init_stats)))
  = omap (row_record sample_map) [start_lost_row; brca1_row]
  /\ length (records (snd (fst (convert_file false
               [sample_header; start_lost_row; brca1_row] Exhausted init_stats))))
     = 1%nat.
Proof. split; vm_compute; reflexivity. Qed.

(** * Further properties of the converter *)

(** ** Trimming *)

Lemma rstrip_idem (s : string) : PyStr.rstrip (PyStr.rstrip s) = PyStr.rstrip s.
Proof.
  induction s as [|c s IH]; [reflexivity|]. cbn [PyStr.rstrip].
  destruct (PyStr.rstrip s) as [|c' r'] eqn:E.
  - destruct (PyStr.is_space c) eqn:Hc; [reflexivity|].
    cbn [PyStr.rstrip]. rewrite Hc. reflexivity.
  - cbn [PyStr.rstrip]. cbn [PyStr.rstrip] in IH.
    destruct (PyStr.rstrip r') as [|c'' r''] eqn:E'.
    + destruct (PyStr.is_space c'); [discriminate IH|].
      injection IH as <-. reflexivity.
    + rewrite IH. reflexivity.
Qed.

(** A string that does not begin with white space keeps its first
    character when trimmed on the right. *)
Lemma rstrip_head (c : ascii) (s : string) :
  PyStr.is_space c = false ->
  exists r, PyStr.rstrip (String c s) = String c r.
Proof.
  intros Hc. cbn [PyStr.rstrip]. rewrite Hc.
  destruct (PyStr.rstrip s); eauto.
Qed.

Lemma lstrip_head (s : string) :
  PyStr.lstrip s = ""
  \/ exists c r, PyStr.lstrip s = String c r /\ PyStr.is_space c = false.
Proof.
  induction s as [|c s IH]; [left; reflexivity|]. cbn [PyStr.lstrip].
  destruct (PyStr.is_space c) eqn:Hc; [exact IH|]. right. eauto.
Qed.

Lemma strip_idem (s : string) : PyStr.strip (PyStr.strip s) = PyStr.strip s.
Proof.
  unfold PyStr.strip.
  destruct (lstrip_head s) as [->|(c & r & -> & Hc)]; [reflexivity|].
  destruct (rstrip_head c r Hc) as [r' Hr]. rewrite Hr.
  cbn [PyStr.lstrip]. rewrite Hc, <- Hr. apply rstrip_idem.
Qed.

(** ** The column map *)

Section ColumnMap.

Abbreviation put := (fun (m : gmap string nat) '(idx, col) => <[col := idx]> m).

Lemma fold_columns_absent (l : list string) (col : string) :
  col ∉ l ->
  forall (i : nat) (m : gmap string nat),
    fold_left put (enumerate_from i l) m !! col = m !! col.
Proof.
  induction l as [|a l IH]; intros Hnot i m; [reflexivity|].
  apply not_elem_of_cons in Hnot as [Hne Hnot].
  cbn [enumerate_from fold_left]. rewrite (IH Hnot).
  apply lookup_insert_ne. congruence.
Qed.

Lemma fold_columns_present (l : list string) (col : string) :
  col ∈ l ->
  forall (i : nat) (m : gmap string nat),
    exists j : nat,
      fold_left put (enumerate_from i l) m !! col = Some (i + j)%nat
      /\ l !! j = Some col
      /\ forall j' : nat, (j < j')%nat -> l !! j' <> Some col.
Proof.
  induction l as [|a l IH]; intros Hin i m; [apply elem_of_nil in Hin; contradiction|].
  cbn [enumerate_from fold_left].
  destruct (decide (col ∈ l)) as [Hl|Hl].
  - destruct (IH Hl (S i) (<[a := i]> m)) as (j & Hj & Hlook & Hlast).
    exists (S j). split; [rewrite Hj; f_equal; lia|]. split; [exact Hlook|].
    intros [|j'] Hlt; [lia|]. apply Hlast. lia.
  - apply elem_of_cons in Hin as [->|Hin]; [|contradiction].
    exists O. split.
    + rewrite (fold_columns_absent l a Hl), lookup_insert_eq. f_equal. lia.
    + split; [reflexivity|]. intros [|j'] Hlt; [lia|]. cbn.
      intros Hj. apply Hl. eapply list_elem_of_lookup_2. exact Hj.
Qed.

End ColumnMap.

Lemma build_column_map_cases (header : list string) (col : string) :
  (col ∉ header -> build_column_map header !! col = None)
  /\ (col ∈ header ->
      exists j : nat,
        build_column_map header !! col = Some j
        /\ header !! j = Some col
        /\ forall j' : nat, (j < j')%nat -> header !! j' <> Some col).
Proof.
  unfold build_column_map. split.
  - intros H. rewrite (fold_columns_absent header col H). apply lookup_empty.
  - intros H. exact (fold_columns_present header col H O ∅).
Qed.

(** X1: The column map knows exactly the names of the header, and binds each
    to the position of its last occurrence. *)
Theorem column_map_lookup (header : list string) (col : string) :
  (col ∉ header -> build_column_map header !! col = None)
  /\ (col ∈ header ->
      exists j : nat,
        build_column_map header !! col = Some j
        /\ header !! j = Some col
        /\ forall j' : nat, (j < j')%nat -> header !! j' <> Some col).
Proof. exact (build_column_map_cases header col). Qed.

Lemma column_map_lookup_witness :
  exists j : nat,
    build_column_map ["POS"; "ID"; "POS"] !! "POS" = Some j
    /\ ["POS"; "ID"; "POS"] !! j = Some "POS"
    /\ forall j' : nat, (j < j')%nat -> ["POS"; "ID"; "POS"] !! j' <> Some "POS".
Proof.
  apply (proj2 (column_map_lookup ["POS"; "ID"; "POS"] "POS")).
  apply elem_of_cons. left. reflexivity.
Defined.

(** X2: A cell is read at the position the header gives its column, trimmed;
    a column the header does not name and a row too short for the column
    give the empty string, and what is read never begins or ends with
    white space. *)
Theorem get_column_value_reads (header row : list string) (col : string) :
  (col ∉ header -> get_column_value (build_column_map header) row col = "")
  /\ (forall j : nat,
        header !! j = Some col ->
        (forall j' : nat, (j < j')%nat -> header !! j' <> Some col) ->
        get_column_value (build_column_map header) row col
        = match row !! j with
          | Some cell => PyStr.strip cell
          | None => ""
          end)
  /\ PyStr.strip (get_column_value (build_column_map header) row col)
     = get_column_value (build_column_map header) row col.
Proof.
  unfold get_column_value. split; [|split].
  - intros H. rewrite (proj1 (build_column_map_cases header col) H). reflexivity.
  - intros j Hj Hlast.
    assert (Hin : col ∈ header) by (eapply list_elem_of_lookup_2; exact Hj).
    destruct (proj2 (build_column_map_cases header col) Hin) as (k & -> & Hk & Hklast).
    destruct (lt_eq_lt_dec j k) as [[Hlt| ->]|Hgt].
    + exfalso. exact (Hlast k Hlt Hk).
    + reflexivity.
    + exfalso. exact (Hklast j Hgt Hj).
  - destruct (build_column_map header !! col) as [idx|]; [|reflexivity].
    destruct (row !! idx); [apply strip_idem | reflexivity].
Qed.

Lemma get_column_value_reads_witness :
  get_column_value (build_column_map ["CHROM"; "POS"]) ["chr1"; " 12 "] "POS"
  = match (["chr1"; " 12 "] : list string) !! 1%nat with
    | Some cell => PyStr.strip cell
    | None => ""
    end.
Proof.
  apply (proj1 (proj2 (get_column_value_reads ["CHROM"; "POS"] ["chr1"; " 12 "] "POS"))
           1%nat).
  - reflexivity.
  - intros [|[|j']] Hlt; [lia | lia | discriminate].
Defined.

(** What [parse_header] does with a header that has a first column. *)
Lemma parse_header_cases (h0 : string) (header : list string) :
  let h := clean_header (h0 :: header) in
  exists ok : bool,
    parse_header (h0 :: header) = Returned (build_column_map h, ok)
    /\ (ok = true <-> forall col : string, col ∈ required_columns -> col ∈ h).
Proof.
  intros h. unfold parse_header.
  change (if PyStr.startswith h0 "#" then PyStr.drop 1 h0 :: header else h0 :: header)
    with h.
  set (missing := List.filter _ required_columns).
  exists (match missing with [] => true | _ => false end).
  split; [reflexivity|].
  assert (Hmissing : forall col, col ∈ missing <-> col ∈ required_columns /\ col ∉ h).
  { intros col. unfold missing. rewrite list_elem_of_In, filter_In, <- list_elem_of_In.
    split; intros [Hreq Hc]; (split; [exact Hreq|]).
    - apply bool_decide_eq_true in Hc. intros Hin.
      destruct (proj2 (build_column_map_cases h col) Hin) as (j & Hj & _). congruence.
    - apply bool_decide_eq_true. apply (build_column_map_cases h col). exact Hc. }
  split.
  - intros Hok col Hreq. destruct (decide (col ∈ h)) as [Hin|Hnot]; [exact Hin|].
    assert (Hm : col ∈ missing) by (apply Hmissing; split; assumption).
    destruct missing; [apply elem_of_nil in Hm; contradiction | discriminate Hok].
  - intros Hall. destruct missing as [|col rest] eqn:E; [reflexivity|].
    assert (Hm : col ∈ col :: rest) by (apply elem_of_cons; left; reflexivity).
    apply Hmissing in Hm as [Hreq Hnot]. exfalso. exact (Hnot (Hall col Hreq)).
Qed.

(** X3: on a header without columns [parse_header] raises [IndexError].  On
    any other header it returns; every name of the header read without the
    leading hash is then a key of the column map it stores, no other string
    is, and it answers true exactly when every required column is named in
    the header. *)
Theorem parse_header_required (header : list string) :
  match parse_header header with
  | Raised e => header = [] /\ e = IndexError
  | Returned (column_map, ok) =>
      header <> []
      /\ (forall col : string,
            is_Some (column_map !! col) <-> col ∈ clean_header header)
      /\ (ok = true <->
          forall col : string, col ∈ required_columns -> col ∈ clean_header header)
  end.
Proof.
  destruct header as [|h0 header]; [split; reflexivity|].
  destruct (parse_header_cases h0 header) as (ok & -> & Hok).
  split; [discriminate|]. split; [|exact Hok].
  intros col. pose proof (build_column_map_cases (clean_header (h0 :: header)) col)
    as [Hout Hin].
  split.
  - intros [j Hj]. destruct (decide (col ∈ clean_header (h0 :: header))) as [H|H];
      [exact H|]. rewrite (Hout H) in Hj. discriminate Hj.
  - intros H. destruct (Hin H) as (j & Hj & _). exists j. exact Hj.
Qed.

Lemma parse_header_required_witness :
  exists column_map, parse_header sample_header = Returned (column_map, true).
Proof.
  pose proof (parse_header_required sample_header) as H.
  destruct (parse_header sample_header) as [[column_map ok]|e].
  - exists column_map. destruct H as (_ & _ & Hok).
    replace ok with true; [reflexivity|]. symmetry. apply Hok.
    intros col Hcol. unfold required_columns in Hcol.
    repeat (apply elem_of_cons in Hcol as [->|Hcol];
            [vm_compute; repeat constructor|]).
    apply elem_of_nil in Hcol. contradiction.
  - destruct H as [H _]. discriminate H.
Defined.

(** ** Cutting at a separator *)

Lemma split1_absent (s : string) (sep : ascii) :
  PyStr.contains (String sep "") s = false -> PyStr.split1 s sep = [s].
Proof.
  induction s as [|c s IH]; [reflexivity|].
  cbn [PyStr.contains PyStr.startswith PyStr.split1].
  intros [Hc Hs]%orb_false_iff. rewrite startswith_nil, andb_true_r in Hc.
  apply bool_decide_eq_false in Hc.
  rewrite bool_decide_false by congruence. rewrite (IH Hs). reflexivity.
Qed.

Lemma split1_present (s : string) (sep : ascii) :
  PyStr.contains (String sep "") s = true ->
  exists a b : string,
    s = a +:+ String sep b
    /\ PyStr.contains (String sep "") a = false
    /\ PyStr.split1 s sep = [a; b].
Proof.
  induction s as [|c s IH]; [discriminate|].
  cbn [PyStr.contains PyStr.startswith PyStr.split1].
  rewrite startswith_nil, andb_true_r.
  destruct (decide (c = sep)) as [->|Hne].
  - intros _. rewrite bool_decide_true by reflexivity.
    exists "", s. repeat split.
  - rewrite (bool_decide_false (sep = c)) by congruence.
    rewrite (bool_decide_false (c = sep)) by exact Hne. cbn [orb].
    intros Hs. destruct (IH Hs) as (a & b & -> & Ha & ->).
    exists (String c a), b. split; [reflexivity|]. split; [|reflexivity].
    cbn [PyStr.contains PyStr.startswith].
    rewrite startswith_nil, andb_true_r, Ha.
    rewrite bool_decide_false by congruence. reflexivity.
Qed.

Lemma contains_app_sep (a b : string) (sep : ascii) :
  PyStr.contains (String sep "") (a +:+ String sep b) = true.
Proof.
  induction a as [|c a IH].
  - change ("" +:+ String sep b) with (String sep b).
    cbn [PyStr.contains PyStr.startswith].
    rewrite bool_decide_true by reflexivity. rewrite startswith_nil. reflexivity.
  - change (String c a +:+ String sep b) with (String c (a +:+ String sep b)).
    cbn [PyStr.contains]. rewrite IH. apply orb_true_r.
Qed.

Lemma split1_joined (a b : string) (sep : ascii) :
  PyStr.contains (String sep "") a = false ->
  PyStr.split1 (a +:+ String sep b) sep = [a; b].
Proof.
  induction a as [|c a IH]; intros Ha.
  - change ("" +:+ String sep b) with (String sep b). cbn [PyStr.split1].
    rewrite bool_decide_true by reflexivity. reflexivity.
  - change (String c a +:+ String sep b) with (String c (a +:+ String sep b)).
    cbn [PyStr.contains PyStr.startswith] in Ha.
    rewrite startswith_nil, andb_true_r in Ha.
    apply orb_false_iff in Ha as [Hc Ha]. apply bool_decide_eq_false in Hc.
    cbn [PyStr.split1]. rewrite bool_decide_false by congruence.
    rewrite (IH Ha). reflexivity.
Qed.

Lemma absent_joined (a b : string) (sep : ascii) :
  sep <> "-"%char -> absent (a +:+ String sep b) = false.
Proof.
  intros Hsep. unfold absent, PyStr.eqb.
  destruct a as [|c [|c' a]].
  - change ("" +:+ String sep b) with (String sep b). cbn.
    apply bool_decide_eq_false. intros [= ->]. congruence.
  - change (String c "" +:+ String sep b) with (String c (String sep b)). cbn.
    apply bool_decide_eq_false. discriminate.
  - change (String c (String c' a) +:+ String sep b)
      with (String c (String c' (a +:+ String sep b))). cbn.
    apply bool_decide_eq_false. discriminate.
Qed.

(** ** HGVSc *)

Lemma parse_hgvsc_some (hgvsc transcript change : string) :
  parse_hgvsc hgvsc = Some (transcript, change) ->
  hgvsc = transcript +:+ ":" +:+ change /\ PyStr.contains ":" transcript = false.
Proof.
  unfold parse_hgvsc. destruct (_ || _)%bool; [discriminate|].
  destruct (PyStr.contains ":" hgvsc) eqn:Hc.
  - destruct (split1_present hgvsc ":" Hc) as (a & b & -> & Ha & ->).
    intros [= <- <-]. split; [reflexivity | exact Ha].
  - rewrite (split1_absent hgvsc ":" Hc). discriminate.
Qed.

(** X4: [parse_hgvsc] cuts at the first colon and joining its two parts with a
    colon gives the input back; conversely a transcript without colon
    joined to any change is parsed into the two. *)
Theorem parse_hgvsc_round_trip (hgvsc transcript change : string) :
  (parse_hgvsc hgvsc = Some (transcript, change) ->
   hgvsc = transcript +:+ ":" +:+ change
   /\ PyStr.contains ":" transcript = false)
  /\ (PyStr.contains ":" transcript = false ->
      parse_hgvsc (transcript +:+ ":" +:+ change) = Some (transcript, change)).
Proof.
  split; [apply parse_hgvsc_some|]. unfold parse_hgvsc.
  - intros Ht. change (":" +:+ change) with (String ":" change).
    fold (absent (transcript +:+ String ":" change)).
    rewrite absent_joined by discriminate.
    rewrite (split1_joined transcript change ":" Ht). reflexivity.
Qed.

Lemma parse_hgvsc_round_trip_witness :
  "ENST00000616016.5:c.1336G>A" = "ENST00000616016.5" +:+ ":" +:+ "c.1336G>A"
  /\ PyStr.contains ":" "ENST00000616016.5" = false.
Proof.
  apply (proj1 (parse_hgvsc_round_trip "ENST00000616016.5:c.1336G>A"
                  "ENST00000616016.5" "c.1336G>A")).
  vm_compute. reflexivity.
Defined.

(** X5: [parse_hgvsc] gives nothing exactly for the empty string, the dash and
    a string without colon. *)
Theorem parse_hgvsc_none (hgvsc : string) :
  parse_hgvsc hgvsc = None <->
  hgvsc = "" \/ hgvsc = "-" \/ PyStr.contains ":" hgvsc = false.
Proof.
  unfold parse_hgvsc, PyStr.eqb. split.
  - destruct hgvsc as [|c s]; [auto|]. cbn [PyStr.truthy negb orb].
    case_bool_decide as Hd; [auto|].
    destruct (PyStr.contains ":" (String c s)) eqn:Hc; [|auto].
    destruct (split1_present _ ":" Hc) as (a & b & _ & _ & ->). discriminate.
  - intros [->|[->|Hc]]; [reflexivity | reflexivity |].
    destruct (_ || _)%bool; [reflexivity|].
    rewrite (split1_absent hgvsc ":" Hc). reflexivity.
Qed.

Lemma parse_hgvsc_none_witness : parse_hgvsc "c.1336G>A" = None.
Proof.
  apply (proj2 (parse_hgvsc_none "c.1336G>A")). right. right. reflexivity.
Defined.

(** X6: The clean change is what follows the first colon, and the whole string
    when there is no colon; on an HGVSc that [parse_hgvsc] accepts it is
    the change that one returns.  The protein variant of the function does
    the same. *)
Theorem extract_clean_change_cuts (s transcript change : string) :
  (PyStr.contains ":" s = false -> extract_clean_change s = s)
  /\ (PyStr.contains ":" transcript = false ->
      extract_clean_change (transcript +:+ ":" +:+ change) = change)
  /\ (parse_hgvsc s = Some (transcript, change) -> extract_clean_change s = change)
  /\ extract_clean_protein_change s = extract_clean_change s.
Proof.
  assert (Hjoin : PyStr.contains ":" transcript = false ->
            extract_clean_change (transcript +:+ ":" +:+ change) = change).
  { intros Ht. unfold extract_clean_change.
    change (":" +:+ change) with (String ":" change).
    rewrite contains_app_sep, (split1_joined transcript change ":" Ht). reflexivity. }
  split; [|split; [exact Hjoin|split; [|reflexivity]]].
  - intros Hc. unfold extract_clean_change. rewrite Hc. reflexivity.
  - intros [-> Ht]%parse_hgvsc_some. exact (Hjoin Ht).
Qed.

Lemma extract_clean_change_cuts_witness :
  extract_clean_change ("ENST1" +:+ ":" +:+ "c.5:6") = "c.5:6".
Proof.
  apply (proj1 (proj2 (extract_clean_change_cuts "" "ENST1" "c.5:6"))).
  reflexivity.
Defined.

(** ** rsID *)

Lemma first_rsid_some (variants : list string) (rsid : string) :
  first_rsid variants = Some rsid ->
  exists (before : list string) (item : string) (after : list string),
    variants = before ++ item :: after
    /\ rsid = PyStr.strip item
    /\ rsid_like rsid = true
    /\ Forall (fun v => rsid_like (PyStr.strip v) = false) before.
Proof.
  induction variants as [|v vs IH]; [discriminate|]. cbn [first_rsid].
  fold (rsid_like (PyStr.strip v)).
  destruct (rsid_like (PyStr.strip v)) eqn:Hv.
  - intros [= <-]. exists [], v, vs. repeat split; [exact Hv | constructor].
  - intros H. destruct (IH H) as (before & item & after & -> & Hr & Hlike & Hbefore).
    exists (v :: before), item, after. repeat split; try assumption.
    constructor; assumption.
Qed.

Lemma first_rsid_none (variants : list string) :
  first_rsid variants = None ->
  Forall (fun v => rsid_like (PyStr.strip v) = false) variants.
Proof.
  induction variants as [|v vs IH]; [constructor|]. cbn [first_rsid].
  fold (rsid_like (PyStr.strip v)).
  destruct (rsid_like (PyStr.strip v)) eqn:Hv; [discriminate|].
  intros H. constructor; [exact Hv | exact (IH H)].
Qed.

(** X7: The rsID found is the first comma-separated item of the field that,
    once trimmed, reads rs (in any case) followed by digits only; it is
    returned trimmed and is never empty. *)
Theorem extract_rsid_first (existing_variation rsid : string) :
  extract_rsid existing_variation = Some rsid ->
  existing_variation <> "" /\ existing_variation <> "-"
  /\ found (Some rsid) = true
  /\ exists (before : list string) (item : string) (after : list string),
       PyStr.split existing_variation "," = before ++ item :: after
       /\ rsid = PyStr.strip item
       /\ rsid_like rsid = true
       /\ Forall (fun v => rsid_like (PyStr.strip v) = false) before.
Proof.
  unfold extract_rsid, PyStr.eqb.
  destruct existing_variation as [|c s]; [discriminate|].
  cbn [PyStr.truthy negb orb]. case_bool_decide as Hd; [discriminate|].
  intros H. split; [discriminate|]. split; [exact Hd|].
  destruct (first_rsid_some _ _ H) as (before & item & after & Hsplit & Hr & Hlike & Hb).
  split; [|eauto 8].
  unfold rsid_like in Hlike. apply andb_true_iff in Hlike as [Hrs _].
  destruct rsid; [discriminate Hrs | reflexivity].
Qed.

Lemma extract_rsid_first_witness :
  "COSV1, RS12 ,rs9" <> "" /\ "COSV1, RS12 ,rs9" <> "-"
  /\ found (Some "RS12") = true
  /\ exists (before : list string) (item : string) (after : list string),
       PyStr.split "COSV1, RS12 ,rs9" "," = before ++ item :: after
       /\ "RS12" = PyStr.strip item
       /\ rsid_like "RS12" = true
       /\ Forall (fun v => rsid_like (PyStr.strip v) = false) before.
Proof.
  apply (extract_rsid_first "COSV1, RS12 ,rs9" "RS12"). vm_compute. reflexivity.
Defined.

(** X8: No rsID is found exactly when the field is empty, a dash, or has no
    item of that form. *)
Theorem extract_rsid_none (existing_variation : string) :
  extract_rsid existing_variation = None <->
  existing_variation = "" \/ existing_variation = "-"
  \/ Forall (fun v => rsid_like (PyStr.strip v) = false)
       (PyStr.split existing_variation ",").
Proof.
  unfold extract_rsid, PyStr.eqb. split.
  - destruct existing_variation as [|c s]; [auto|].
    cbn [PyStr.truthy negb orb]. case_bool_decide as Hd; [auto|].
    intros H. right. right. exact (first_rsid_none _ H).
  - intros [->|[->|H]]; [reflexivity | reflexivity |].
    destruct (_ || _)%bool; [reflexivity|].
    destruct (first_rsid _) as [r|] eqn:E; [|reflexivity].
    destruct (first_rsid_some _ _ E) as (before & item & after & Hs & -> & Hlike & _).
    rewrite Hs in H. apply Forall_app in H as [_ H].
    apply Forall_cons in H as [H _]. congruence.
Qed.

Lemma extract_rsid_none_witness : extract_rsid "COSV57" = None.
Proof.
  apply (proj2 (extract_rsid_none "COSV57")). right. right.
  change (PyStr.split "COSV57" ",") with ["COSV57"].
  constructor; [reflexivity | constructor].
Defined.

(** ** Chromosome names *)

Lemma valid_chromosome_shape (chrom : string) :
  chrom ∈ VALID_CHROMOSOMES ->
  PyStr.startswith chrom "chr" = true \/ PyStr.isdigit chrom = true
  \/ chrom ∈ letter_chromosomes.
Proof.
  unfold VALID_CHROMOSOMES, letter_chromosomes.
  rewrite !elem_of_union, !elem_of_list_to_set.
  let l := eval vm_compute in ((fun i => "chr" +:+ PyStr.str i) <$> range_1_23) in
  change ((fun i => "chr" +:+ PyStr.str i) <$> range_1_23) with l.
  let l := eval vm_compute in (PyStr.str <$> range_1_23) in
  change (PyStr.str <$> range_1_23) with l.
  intros [[H|H]|[H|H]].
  - repeat (apply elem_of_cons in H as [->|H]; [left; reflexivity|]).
    apply elem_of_nil in H. contradiction.
  - left. set_unfold. destruct_or!; subst; reflexivity.
  - repeat (apply elem_of_cons in H as [->|H]; [right; left; reflexivity|]).
    apply elem_of_nil in H. contradiction.
  - right. right. set_unfold. destruct_or!; subst; tauto.
Qed.

(** X9: The validator accepts exactly the names that start with chr, the
    strings of digits, and X, Y, M and MT: the canonical set adds only
    these four to the two general rules. *)
Theorem validate_chromosome_accepts (chrom : string) :
  validate_chromosome chrom = true <->
  PyStr.startswith chrom "chr" = true \/ PyStr.isdigit chrom = true
  \/ chrom ∈ letter_chromosomes.
Proof.
  unfold validate_chromosome. split.
  - intros [[H|H]%orb_true_iff|H]%orb_true_iff; [|auto|auto].
    apply bool_decide_eq_true in H. exact (valid_chromosome_shape chrom H).
  - intros [H|[H|H]].
    + rewrite H, orb_true_r. reflexivity.
    + rewrite H, orb_true_r. reflexivity.
    + unfold letter_chromosomes in H.
      repeat (apply elem_of_cons in H as [->|H]; [vm_compute; reflexivity|]).
      apply elem_of_nil in H. contradiction.
Qed.

Lemma validate_chromosome_accepts_witness :
  validate_chromosome "chr99" = true.
Proof.
  apply (proj2 (validate_chromosome_accepts "chr99")). left. reflexivity.
Defined.

(** ** Alleles, and when a row raises *)

Lemma rstrip_empty (s : string) :
  PyStr.rstrip s = "" -> PyStr.all_chars PyStr.is_space s = true.
Proof.
  induction s as [|c s IH]; [reflexivity|]. cbn [PyStr.rstrip PyStr.all_chars].
  destruct (PyStr.rstrip s); [|discriminate].
  destruct (PyStr.is_space c); [|discriminate].
  intros _. exact (IH eq_refl).
Qed.

Lemma lstrip_spaces (s : string) :
  PyStr.all_chars PyStr.is_space (PyStr.lstrip s) = true ->
  PyStr.all_chars PyStr.is_space s = true.
Proof.
  induction s as [|c s IH]; [reflexivity|]. cbn [PyStr.lstrip].
  destruct (PyStr.is_space c) eqn:Hc; [|auto].
  intros H. cbn [PyStr.all_chars]. rewrite Hc. exact (IH H).
Qed.

Lemma strip_empty (s : string) :
  PyStr.strip s = "" -> PyStr.all_chars PyStr.is_space s = true.
Proof. intros H. apply lstrip_spaces, rstrip_empty, H. Qed.

Lemma strip_truthy (s : string) :
  PyStr.truthy (PyStr.strip s) = false <-> PyStr.all_chars PyStr.is_space s = true.
Proof.
  split.
  - intros H. apply strip_empty. destruct (PyStr.strip s); [reflexivity | discriminate].
  - intros H. rewrite (strip_spaces s H). reflexivity.
Qed.

Lemma pieces_spaces (s : string) :
  Forall (fun w => PyStr.all_chars PyStr.is_space w = true) (PyStr.split s ",") ->
  PyStr.all_chars comma_or_space s = true.
Proof.
  induction s as [|c s IH]; [reflexivity|]. cbn [PyStr.split PyStr.all_chars].
  unfold comma_or_space at 1. case_bool_decide as Hd.
  - intros [_ H]%Forall_cons. exact (IH H).
  - destruct (PyStr.split s ",") as [|w ws].
    + intros [H _]%Forall_cons. cbn [PyStr.all_chars] in H.
      apply andb_true_iff in H as [-> _]. apply IH. constructor.
    + intros [H Hws]%Forall_cons. cbn [PyStr.all_chars] in H.
      apply andb_true_iff in H as [-> Hw]. apply IH. constructor; assumption.
Qed.

Lemma filter_truthy_nil (l : list string) :
  List.filter PyStr.truthy (PyStr.strip <$> l) = [] ->
  Forall (fun w => PyStr.all_chars PyStr.is_space w = true) l.
Proof.
  induction l as [|w l IH]; [constructor|]. cbn [fmap list_fmap List.filter].
  destruct (PyStr.truthy (PyStr.strip w)) eqn:Hw; [discriminate|].
  intros H. constructor; [apply strip_truthy, Hw | exact (IH H)].
Qed.

Lemma no_allele_iff (alt : string) :
  handle_multiallelic alt = [] <->
  PyStr.contains "," alt = true /\ PyStr.all_chars comma_or_space alt = true.
Proof.
  split.
  - unfold handle_multiallelic.
    destruct (PyStr.contains "," alt) eqn:Hc; [|discriminate].
    intros H. split; [reflexivity|]. apply pieces_spaces, filter_truthy_nil, H.
  - intros [Hc Hall]. exact (no_allele alt Hc Hall).
Qed.



(** X11: The body of [process_row] raises exactly for the rows that pass the
    three gates and whose ALT field holds a comma and otherwise only commas
    and white space; what it raises is IndexError, never ValueError, and
    [missing_hgvsp] has not been counted by then. *)
Theorem process_row_raises (column_map : gmap string nat) (row : list string)
    (st : Stats) :
  let alt := get_column_value column_map row "ALT" in
  (forall (e : exn) (st' : Stats),
     process_row_body column_map row st = (Raised e, st') ->
     e = IndexError /\ st' = after_rsid column_map row st)
  /\ ((exists (e : exn) (st' : Stats),
         process_row_body column_map row st = (Raised e, st')) <->
      validate_chromosome (get_column_value column_map row "CHROM") = true
      /\ validate_position (get_column_value column_map row "POS") = true
      /\ PyStr.startswith (get_column_value column_map row "ID") "Sniffles2" = false
      /\ PyStr.contains "," alt = true
      /\ PyStr.all_chars comma_or_space alt = true).
Proof.
  intros alt.
  assert (Hraise : forall e st',
    process_row_body column_map row st = (Raised e, st') ->
    e = IndexError /\ st' = after_rsid column_map row st
    /\ validate_chromosome (get_column_value column_map row "CHROM") = true
    /\ validate_position (get_column_value column_map row "POS") = true
    /\ PyStr.startswith (get_column_value column_map row "ID") "Sniffles2" = false
    /\ handle_multiallelic alt = []).
  { intros e st'. unfold process_row_body, after_rsid. fold alt.
    destruct (validate_chromosome _) eqn:Hc; cbn [negb]; [|discriminate].
    destruct (validate_position _) eqn:Hp; cbn [negb]; [|discriminate].
    destruct (PyStr.startswith _ "Sniffles2"); [discriminate|].
    destruct (validate_position_int _ Hp) as (n & Hn & _).
    unfold mbind, M_bind, mret, M_ret, incr, item0, int_of, raise. rewrite Hn.
    destruct (negb (found _));
      (destruct (handle_multiallelic alt) as [|a alts];
       [intros [= <- <-]; repeat split|]);
      unfold mret, M_ret;
      (destruct (negb _ || _)%bool;
       [ destruct (_ && _)%bool;
         [ destruct (parse_amino_acids _) as [[? ?]|]; discriminate | discriminate ]
       | destruct (parse_hgvsp _) as [[[[? ?] ?] ?]|]; discriminate ]). }
  split.
  - intros e st' H. destruct (Hraise e st' H) as (He & Hst & _). split; assumption.
  - split.
    + intros (e & st' & H).
      destruct (Hraise e st' H) as (_ & _ & Hc & Hp & Hs & Hnil).
      apply no_allele_iff in Hnil as [Hcomma Hall]. repeat split; assumption.
    + intros (Hc & Hp & Hs & Hcomma & Hall).
      exists IndexError, (after_rsid column_map row st).
      unfold process_row_body. fold alt. rewrite Hc, Hp, Hs. cbn [negb].
      unfold mbind, M_bind, after_rsid. rewrite (no_allele alt Hcomma Hall).
      destruct (negb (found _)); reflexivity.
Qed.

Lemma process_row_raises_witness :
  IndexError = IndexError
  /\ after_rsid sample_map commas_alt_row init_stats
     = after_rsid sample_map commas_alt_row init_stats.
Proof.
  apply (proj1 (process_row_raises sample_map commas_alt_row init_stats)
           IndexError (after_rsid sample_map commas_alt_row init_stats)).
  vm_compute. reflexivity.
Defined.

(** ** Rows that are skipped by rule *)

(** X12: A row whose ID starts with Sniffles2 never gives a record, whatever
    its other fields hold, and the only counters it can touch are those of
    the two validations, which come first. *)
Theorem sniffles2_is_skipped (column_map : gmap string nat) (row : list string)
    (st : Stats) (c : counter) :
  PyStr.startswith (get_column_value column_map row "ID") "Sniffles2" = true ->
  fst (process_row column_map row st) = None
  /\ (c <> invalid_chromosome -> c <> invalid_position ->
      stat c (snd (process_row column_map row st)) = stat c st).
Proof.
  intros Hs. split.
  - rewrite process_row_eq, Hs.
    destruct (negb (validate_chromosome _)); [reflexivity|].
    destruct (negb (validate_position _)); reflexivity.
  - intros Hc Hp. rewrite process_row_touched.
    assert (Ht : touched column_map row c = false).
    { unfold touched. rewrite Hs. cbn [negb]. rewrite !andb_false_r.
      destruct c; try reflexivity; congruence. }
    rewrite Ht. simpl. lia.
Qed.

Lemma sniffles2_is_skipped_witness :
  fst (process_row sample_map
         (sample_row "chr17" "43106478" "Sniffles2.DEL.1" "G" "A" "BRCA1"
            "rs80357382" "1708" "A/E" "NM_007294.4" "-"
            "ENSP00000350283.3:p.Ala1708Glu") init_stats) = None
  /\ (missing_rsid <> invalid_chromosome -> missing_rsid <> invalid_position ->
      stat missing_rsid (snd (process_row sample_map
         (sample_row "chr17" "43106478" "Sniffles2.DEL.1" "G" "A" "BRCA1"
            "rs80357382" "1708" "A/E" "NM_007294.4" "-"
            "ENSP00000350283.3:p.Ala1708Glu") init_stats))
      = stat missing_rsid init_stats).
Proof.
  apply sniffles2_is_skipped. vm_compute. reflexivity.
Defined.

Lemma replaced_has_equals (s : string) :
  PyStr.contains "=" s = true \/ PyStr.contains "%3D" s = true ->
  PyStr.contains "=" (PyStr.replace s "%3D" "=") = true.
Proof.
  unfold PyStr.replace. induction s as [|c s IH].
  - intros [H|H]; discriminate H.
  - cbn [PyStr.replace_from].
    destruct (PyStr.startswith (String c s) "%3D") eqn:Hp.
    { intros _. set (r := PyStr.replace_from _ _ _ s).
      change ("=" +:+ r) with (String "=" r). cbn [PyStr.contains PyStr.startswith].
      rewrite bool_decide_true by reflexivity. rewrite startswith_nil. reflexivity. }
    intros H. cbn [PyStr.contains]. apply orb_true_iff.
    assert (Hcases : PyStr.startswith (String c s) "=" = true
                     \/ PyStr.contains "=" s = true \/ PyStr.contains "%3D" s = true).
    { destruct H as [H|H]; cbn [PyStr.contains] in H;
        apply orb_true_iff in H as [H|H]; auto. congruence. }
    destruct Hcases as [Hc|Hs]; [left|right; exact (IH Hs)].
    cbn [PyStr.startswith] in *. rewrite startswith_nil in *. exact Hc.
Qed.

Lemma equals_is_present (s : string) :
  PyStr.contains "=" s = true \/ PyStr.contains "%3D" s = true -> absent s = false.
Proof.
  unfold absent, PyStr.eqb. intros H.
  destruct s as [|c [|c' s]].
  - destruct H as [H|H]; discriminate H.
  - cbn [PyStr.truthy negb orb]. apply bool_decide_eq_false. intros [= ->].
    destruct H as [H|H]; vm_compute in H; discriminate H.
  - cbn [PyStr.truthy negb orb]. apply bool_decide_eq_false. discriminate.
Qed.

(** X13: An HGVSp that holds an equals sign, literal or written %3D, is not
    parsed, and a row carrying it gives no record and is not counted under
    [missing_hgvsp]. *)
Theorem synonymous_is_skipped (column_map : gmap string nat) (row : list string)
    (st : Stats) :
  let hgvsp := get_column_value column_map row "HGVSp" in
  PyStr.contains "=" hgvsp = true \/ PyStr.contains "%3D" hgvsp = true ->
  parse_hgvsp hgvsp = None
  /\ fst (process_row column_map row st) = None
  /\ stat missing_hgvsp (snd (process_row column_map row st))
     = stat missing_hgvsp st.
Proof.
  intros hgvsp H.
  assert (Hparse : parse_hgvsp hgvsp = None).
  { unfold parse_hgvsp. fold (absent hgvsp). rewrite (equals_is_present hgvsp H).
    rewrite (replaced_has_equals hgvsp H). reflexivity. }
  split; [exact Hparse|]. split.
  - rewrite process_row_eq.
    destruct (negb (validate_chromosome _)); [reflexivity|].
    destruct (negb (validate_position _)); [reflexivity|].
    destruct (PyStr.startswith _ "Sniffles2"); [reflexivity|].
    destruct (handle_multiallelic _); [reflexivity|].
    destruct (PyStr.int _); [|reflexivity].
    cbn [fst]. unfold resolve. fold hgvsp.
    rewrite (equals_is_present hgvsp H), Hparse. reflexivity.
  - rewrite process_row_touched. unfold touched. fold hgvsp.
    rewrite (equals_is_present hgvsp H), andb_false_r. simpl. lia.
Qed.

Lemma synonymous_is_skipped_witness :
  let row := sample_row "chr17" "43106478" "var1" "G" "A" "BRCA1" "-"
               "22" "G" "-" "-" "ENSP1:p.Gly22%3D" in
  parse_hgvsp (get_column_value sample_map row "HGVSp") = None
  /\ fst (process_row sample_map row init_stats) = None
  /\ stat missing_hgvsp (snd (process_row sample_map row init_stats))
     = stat missing_hgvsp init_stats.
Proof.
  intros row. apply (synonymous_is_skipped sample_map row init_stats).
  right. vm_compute. reflexivity.
Defined.

(** ** The keys of a record *)

Lemma fallback_entry_keys
    (var_id : string) (rsid : option string)
    (spdi gene_symbol hgvsc mane_select protein_position : string)
    (ref_aa_1 alt_aa_1 : string) :
  keys (fallback_entry var_id rsid spdi gene_symbol hgvsc mane_select
          protein_position ref_aa_1 alt_aa_1)
  = ["internal_id"] ++ (if found rsid then ["rsid"] else []) ++ ["spdi"]
    ++ (if (PyStr.truthy hgvsc && negb (PyStr.eqb hgvsc "-"))%bool
        then ["hgvs_full"; "hgvsc"] else [])
    ++ ["hgvsp_3p"; "hgvsp_3"; "hgvsp_1p"; "hgvsp_1"].
Proof.
  unfold fallback_entry, found, keys.
  destruct rsid as [r|]; [destruct (PyStr.truthy r)|];
    (destruct (_ && _)%bool;
     [ destruct (_ && _)%bool; [destruct (PyStr.startswith _ _)|] | ]);
    reflexivity.
Qed.

Lemma primary_entry_keys
    (var_id : string) (rsid : option string)
    (spdi gene_symbol hgvsc hgvsp mane_select : string)
    (position ref_aa_3 alt_aa_3 : string) :
  exists with_hgvsc : bool,
    keys (primary_entry var_id rsid spdi gene_symbol hgvsc hgvsp mane_select
            position ref_aa_3 alt_aa_3)
    = ["internal_id"] ++ (if found rsid then ["rsid"] else [])
      ++ ["spdi"; "hgvs_full"] ++ (if with_hgvsc then ["hgvsc"] else [])
      ++ ["hgvsp_3p"; "hgvsp_3"; "hgvsp_1p"; "hgvsp_1"].
Proof.
  unfold primary_entry, found, keys.
  set (clean := if (PyStr.truthy hgvsc && _)%bool then _ else _).
  exists (PyStr.truthy clean).
  clearbody clean.
  destruct rsid as [r|]; [destruct (PyStr.truthy r)|];
    (destruct (PyStr.truthy mane_select && _)%bool;
     [destruct (PyStr.startswith _ _)|]);
    destruct (PyStr.truthy clean); reflexivity.
Qed.

Ltac in_order :=
  repeat first [ apply sublist_nil | apply sublist_skip | apply sublist_cons ].

Lemma resolve_keys (column_map : gmap string nat) (row : list string)
    (n : Z) (alt : string) (variant : Variant) :
  resolve column_map row n alt = Some variant ->
  exists with_full with_hgvsc : bool,
    keys variant
    = ["internal_id"]
      ++ (if found (extract_rsid (get_column_value column_map row "Existing_variation"))
          then ["rsid"] else [])
      ++ ["spdi"] ++ (if with_full then ["hgvs_full"] else [])
      ++ (if with_hgvsc then ["hgvsc"] else [])
      ++ ["hgvsp_3p"; "hgvsp_3"; "hgvsp_1p"; "hgvsp_1"].
Proof.
  unfold resolve. destruct (absent _).
  - destruct (_ && _)%bool; [|discriminate].
    destruct (parse_amino_acids _) as [[? ?]|]; [|discriminate].
    intros [= <-]. rewrite fallback_entry_keys.
    destruct (_ && _)%bool; [exists true, true | exists false, false]; reflexivity.
  - destruct (parse_hgvsp _) as [[[[? ?] ?] ?]|]; [|discriminate].
    intros [= <-].
    edestruct primary_entry_keys as [with_hgvsc ->].
    exists true, with_hgvsc. reflexivity.
Qed.

(** X14: Every record [process_row] returns has its keys in the fixed order,
    none twice; it always holds the identifier, the SPDI and the four
    protein aliases, holds rsid exactly when an rsID was found, and is
    never empty, so that a driver never takes it for a skipped row. *)
Theorem record_keys (column_map : gmap string nat) (row : list string)
    (st : Stats) (variant : Variant) :
  fst (process_row column_map row st) = Some variant ->
  sublist (keys variant) key_order
  /\ NoDup (keys variant)
  /\ (forall k : string,
        k ∈ ["internal_id"; "spdi"; "hgvsp_3p"; "hgvsp_3"; "hgvsp_1p"; "hgvsp_1"] ->
        k ∈ keys variant)
  /\ ("rsid" ∈ keys variant <->
      found (extract_rsid (get_column_value column_map row "Existing_variation"))
      = true)
  /\ emitted (Some variant) = Some variant.
Proof.
  rewrite process_row_eq.
  destruct (negb (validate_chromosome _)); [discriminate|].
  destruct (negb (validate_position _)); [discriminate|].
  destruct (PyStr.startswith _ "Sniffles2"); [discriminate|].
  destruct (handle_multiallelic _) as [|alt alts]; [discriminate|].
  destruct (PyStr.int _) as [n|]; [|discriminate].
  cbn [fst]. intros H.
  destruct (resolve_keys _ _ _ _ _ H) as (with_full & with_hgvsc & Hk).
  assert (Hne : emitted (Some variant) = Some variant).
  { destruct variant; [discriminate Hk | reflexivity]. }
  rewrite Hk. unfold key_order.
  destruct (found _), with_full, with_hgvsc; cbn [app].
  all: split; [in_order|].
  all: split; [apply NoDup_ListNoDup; repeat constructor; simpl; intuition discriminate|].
  all: split; [intros k Hin; set_unfold; destruct_or!; subst; auto 20|].
  all: split; [|exact Hne].
  all: split;
    [ intros Hin; first [reflexivity | set_unfold; destruct_or!; discriminate]
    | intros Hf; first [discriminate Hf | set_unfold; auto 20] ].
Qed.

Lemma record_keys_witness :
  let variant :=
    [("internal_id", "var1"); ("spdi", "17:43106477:G:A");
     ("hgvsp_3p", "BRCA1 p.Ala446Thr"); ("hgvsp_3", "BRCA1 Ala446Thr");
     ("hgvsp_1p", "BRCA1 p.A446T"); ("hgvsp_1", "BRCA1 A446T")] in
  sublist (keys variant) key_order
  /\ NoDup (keys variant)
  /\ (forall k : string,
        k ∈ ["internal_id"; "spdi"; "hgvsp_3p"; "hgvsp_3"; "hgvsp_1p"; "hgvsp_1"] ->
        k ∈ keys variant)
  /\ ("rsid" ∈ keys variant <->
      found (extract_rsid (get_column_value sample_map bare_row "Existing_variation"))
      = true)
  /\ emitted (Some variant) = Some variant.
Proof.
  intros variant. apply (record_keys sample_map bare_row init_stats variant).
  vm_compute. reflexivity.
Defined.

(** ** The statistics of a run *)

Section Run.

Variable column_map : gmap string nat.

Lemma turn_stat (row : list string) (st : Stats) (c : counter) :
  stat c (match emitted (fst (process_row column_map row (bump total_rows st))) with
          | Some _ => bump processed (snd (process_row column_map row (bump total_rows st)))
          | None => bump skipped (snd (process_row column_map row (bump total_rows st)))
          end)
  = (stat c st + once (counted column_map row c))%nat.
Proof.
  rewrite process_row_record.
  assert (Hdriver : forall c', In c' [total_rows; processed; skipped] ->
            touched column_map row c' = false).
  { intros c' [<-|[<-|[<-|[]]]]; reflexivity. }
  destruct (emitted (row_record column_map row)) as [v|] eqn:E;
    rewrite stat_bump, process_row_touched, stat_bump; unfold counted; rewrite E.
  - rewrite (bool_decide_true (is_Some (Some v))) by eauto.
    destruct c; rewrite ?Hdriver by (simpl; tauto);
      generalize (touched column_map row); intros t; simpl; lia.
  - rewrite (bool_decide_false (is_Some None)) by (intros [? ?]; discriminate).
    destruct c; rewrite ?Hdriver by (simpl; tauto);
      generalize (touched column_map row); intros t; simpl; lia.
Qed.

Lemma collect_rows_stat (rows : list (list string)) (c : counter) :
  forall (variants : list Variant) (st : Stats),
    stat c (snd (collect_rows column_map rows variants st))
    = (stat c st + tally column_map rows c)%nat.
Proof.
  unfold tally.
  induction rows as [|row rows IH]; intros vs st; cbn [collect_rows sum_list_with].
  - cbn [snd]. lia.
  - pose proof (turn_stat row st c) as Hturn.
    destruct (process_row column_map row (bump total_rows st)) as [variant st1].
    cbn [fst snd] in Hturn.
    destruct (emitted variant); rewrite IH, Hturn; lia.
Qed.

Lemma row_dropped (row : list string) :
  validate_chromosome (get_column_value column_map row "CHROM") = false
  \/ validate_position (get_column_value column_map row "POS") = false
  \/ handle_multiallelic (get_column_value column_map row "ALT") = [] ->
  row_record column_map row = None.
Proof.
  unfold row_record. rewrite process_row_eq. intros H.
  destruct (validate_chromosome _); [|reflexivity].
  destruct (validate_position _); [|reflexivity].
  cbn [negb]. destruct (PyStr.startswith _ "Sniffles2"); [reflexivity|].
  destruct H as [H|[H|H]]; try discriminate H. rewrite H. reflexivity.
Qed.

Lemma row_dropped_counted (row : list string) :
  (once (counted column_map row errors)
   + once (counted column_map row invalid_chromosome)
   + once (counted column_map row invalid_position)
   <= once (counted column_map row skipped))%nat.
Proof.
  unfold counted, touched.
  pose proof (row_dropped row) as Hdrop.
  assert (Hnone : bool_decide (is_Some (emitted None)) = false) by reflexivity.
  destruct (validate_chromosome _).
  2: { rewrite Hdrop, Hnone by auto. cbn [once negb andb]. lia. }
  destruct (validate_position _).
  2: { rewrite Hdrop, Hnone by auto. cbn [once negb andb]. lia. }
  destruct (handle_multiallelic _).
  - rewrite Hdrop, Hnone by auto. cbn [once negb andb].
    destruct (negb (PyStr.startswith _ _)); cbn [once negb andb]; lia.
  - rewrite !andb_false_r. cbn [once negb andb]. lia.
Qed.

Lemma tally_rows (rows : list (list string)) :
  tally column_map rows total_rows = length rows
  /\ tally column_map rows processed
     = length (omap (fun row => emitted (row_record column_map row)) rows)
  /\ (tally column_map rows processed + tally column_map rows skipped)%nat
     = length rows
  /\ (tally column_map rows errors + tally column_map rows invalid_chromosome
      + tally column_map rows invalid_position
      <= tally column_map rows skipped)%nat.
Proof.
  unfold tally. induction rows as [|row rows (IH1 & IH2 & IH3 & IH4)];
    cbn [sum_list_with omap list_omap length]; [repeat split; lia|].
  pose proof (row_dropped_counted row) as Hrow.
  assert (Hp : once (counted column_map row processed)
               = length (from_option (fun v => [v]) []
                           (emitted (row_record column_map row)))
               /\ (once (counted column_map row processed)
                   + once (counted column_map row skipped))%nat = 1%nat).
  { unfold counted. destruct (emitted (row_record column_map row)) as [v|].
    - rewrite (bool_decide_true (is_Some (Some v))) by eauto. split; reflexivity.
    - rewrite (bool_decide_false (is_Some None)) by (intros [? ?]; discriminate).
      split; reflexivity. }
  destruct Hp as [Hp1 Hp2].
  split; [|split; [|split]].
  - change (once (counted column_map row total_rows)) with 1%nat. lia.
  - rewrite Hp1, IH2. destruct (emitted (row_record column_map row)); reflexivity.
  - lia.
  - lia.
Qed.

End Run.

(** X15: Where the header gives no column map to work with: no header line, an
    empty one, or one that lacks a required column.  Either mode then
    answers false, writes no record and leaves the statistics alone, however
    many rows follow and however the reader ends. *)
Theorem bad_header_stops (stream_output : bool) (reader : list (list string))
    (ending : reader_end) (st : Stats) :
  match reader with
  | [] => True
  | header :: _ =>
      header = []
      \/ exists col : string, col ∈ required_columns /\ col ∉ clean_header header
  end ->
  convert_file stream_output reader ending st = (false, [], st).
Proof.
  intros H. unfold convert_file, process_file_streaming.
  destruct reader as [|[|h0 header] rows]; [destruct stream_output; reflexivity..|].
  destruct H as [H|(col & Hreq & Hnot)]; [discriminate H|].
  destruct (parse_header_cases h0 header) as (ok & -> & Hok).
  destruct ok; [|destruct stream_output; reflexivity].
  exfalso. apply Hnot. apply Hok; [reflexivity | exact Hreq].
Qed.

Lemma bad_header_stops_witness :
  convert_file true [["CHROM"; "POS"]; brca1_row] Exhausted init_stats
  = (false, [], init_stats).
Proof.
  apply (bad_header_stops true [["CHROM"; "POS"]; brca1_row] Exhausted init_stats).
  right. exists "ID". split.
  - apply list_elem_of_In. simpl. tauto.
  - intros H%list_elem_of_In. simpl in H. intuition discriminate.
Defined.

(** X16: A run that succeeds has read its input to the end and has counted
    every data row once under [total_rows] and once under either
    [processed] or [skipped]; the records written are as many as
    [processed] grew by; every row counted under [errors],
    [invalid_chromosome] or [invalid_position] is among the skipped ones;
    and no counter has gone down. *)
Theorem run_statistics (stream_output : bool) (reader : list (list string))
    (ending : reader_end) (st : Stats) :
  let result := convert_file stream_output reader ending st in
  let st' := snd result in
  fst (fst result) = true ->
  ending = Exhausted
  /\ stat total_rows st' = (stat total_rows st + length (tail reader))%nat
  /\ stat processed st'
     = (stat processed st + length (records (snd (fst result))))%nat
  /\ (stat processed st' + stat skipped st')%nat
     = (stat processed st + stat skipped st + length (tail reader))%nat
  /\ (stat errors st' + stat invalid_chromosome st' + stat invalid_position st'
      + stat skipped st
      <= stat errors st + stat invalid_chromosome st + stat invalid_position st
         + stat skipped st')%nat
  /\ forall c : counter, (stat c st <= stat c st')%nat.
Proof.
  intros result st'.
  assert (Hrun : fst (fst result) = true ->
    exists (column_map : gmap string nat) (rows : list (list string)),
      ending = Exhausted
      /\ tail reader = rows
      /\ (forall c, stat c st' = (stat c st + tally column_map rows c)%nat)
      /\ records (snd (fst result))
         = omap (fun row => emitted (row_record column_map row)) rows).
  { subst st' result. unfold convert_file, process_file_streaming.
    destruct reader as [|[|h0 header] rows];
      [destruct stream_output; discriminate..|].
    destruct (parse_header_returns h0 header) as (cm & ok & ->).
    destruct ok; cbn [negb]; [|destruct stream_output; discriminate].
    destruct stream_output.
    - pose proof (stream_rows_records cm rows true [Write "[
"] st) as Hs.
      pose proof (loops_statistics cm rows true [Write "[
"] [] st) as Hst.
      destruct (stream_rows cm rows true _ st) as [outfile st_s].
      destruct ending; [|discriminate].
      intros _. exists cm, rows. split; [reflexivity|]. split; [reflexivity|].
      cbn [fst snd] in *. subst st_s. split.
      + intros c. apply collect_rows_stat.
      + rewrite records_app, Hs. cbn [records flat_map app].
        rewrite app_nil_r. reflexivity.
    - pose proof (collect_rows_variants cm rows [] st) as Hb.
      assert (Hst : forall c, stat c (snd (collect_rows cm rows [] st))
                              = (stat c st + tally cm rows c)%nat)
        by (intros c; apply collect_rows_stat).
      destruct (collect_rows cm rows [] st) as [variants st_b].
      destruct ending; [|discriminate].
      intros _. exists cm, rows. split; [reflexivity|]. split; [reflexivity|].
      cbn [fst snd] in *. split.
      + intros c. apply Hst.
      + subst variants. cbn [records flat_map]. rewrite app_nil_r. reflexivity. }
  intros Hok. destruct (Hrun Hok) as (cm & rows & Hend & -> & Hstat & Hrec).
  destruct (tally_rows cm rows) as (H1 & H2 & H3 & H4).
  split; [exact Hend|].
  rewrite Hrec, !Hstat. repeat split; try lia.
  intros c. rewrite Hstat. lia.
Qed.

Lemma run_statistics_witness :
  let result :=
    convert_file true [sample_header; start_lost_row; brca1_row] Exhausted init_stats in
  let st' := snd result in
  Exhausted = Exhausted
  /\ stat total_rows st' = (stat total_rows init_stats + 2)%nat
  /\ stat processed st'
     = (stat processed init_stats + length (records (snd (fst result))))%nat
  /\ (stat processed st' + stat skipped st')%nat
     = (stat processed init_stats + stat skipped init_stats + 2)%nat
  /\ (stat errors st' + stat invalid_chromosome st' + stat invalid_position st'
      + stat skipped init_stats
      <= stat errors init_stats + stat invalid_chromosome init_stats
         + stat invalid_position init_stats + stat skipped st')%nat
  /\ forall c : counter, (stat c init_stats <= stat c st')%nat.
Proof.
  apply (run_statistics true [sample_header; start_lost_row; brca1_row] Exhausted
           init_stats).
  vm_compute. reflexivity.
Defined.

(** ** What the streaming mode writes *)

Lemma stream_rows_shape (column_map : gmap string nat) (rows : list (list string)) :
  forall (first_variant : bool) (outfile : list output) (st : Stats),
    fst (stream_rows column_map rows first_variant outfile st)
    = outfile
      ++ match first_variant,
               omap (fun row => emitted (row_record column_map row)) rows with
         | true, v :: rest =>
             Dump v :: flat_map (fun w => [Write ",
"; Dump w]) rest
         | _, variants =>
             flat_map (fun w => [Write ",
"; Dump w]) variants
         end.
Proof.
  induction rows as [|row rows IH]; intros fv out st; cbn [stream_rows omap list_omap].
  - destruct fv; cbn [flat_map]; rewrite app_nil_r; reflexivity.
  - pose proof (process_row_record column_map row (bump total_rows st)) as Hrec.
    destruct (process_row column_map row (bump total_rows st)) as [variant st1].
    cbn [fst] in Hrec. rewrite <- Hrec.
    destruct (emitted variant) as [v|].
    + rewrite IH. destruct fv; cbn [negb flat_map app];
        rewrite <- ?app_assoc; reflexivity.
    + rewrite IH. reflexivity.
Qed.

(** X17: When the streaming mode succeeds it has written the opening bracket,
    the records of the accepted rows in order with one comma line between
    any two neighbours and none before the first or after the last, and the
    closing bracket. *)
Theorem streaming_is_bracketed (reader : list (list string))
    (ending : reader_end) (st : Stats) :
  fst (fst (process_file_streaming reader ending st)) = true ->
  snd (fst (process_file_streaming reader ending st))
  = streamed (expected_records reader).
Proof.
  unfold process_file_streaming, expected_records, streamed.
  destruct reader as [|[|h0 header] rows]; [discriminate..|].
  destruct (parse_header_returns h0 header) as (cm & ok & ->).
  destruct ok; cbn [negb]; [|discriminate].
  pose proof (stream_rows_shape cm rows true [Write "[
"] st) as Hs.
  destruct (stream_rows cm rows true _ st) as [outfile st_s].
  destruct ending; [|discriminate]. intros _.
  cbn [fst snd] in *. rewrite Hs.
  destruct (omap _ rows); rewrite <- ?app_assoc; reflexivity.
Qed.

Lemma streaming_is_bracketed_witness :
  snd (fst (process_file_streaming [sample_header; brca1_row; bare_row] Exhausted
              init_stats))
  = streamed (expected_records [sample_header; brca1_row; bare_row]).
Proof.
  apply (streaming_is_bracketed [sample_header; brca1_row; bare_row] Exhausted
           init_stats).
  vm_compute. reflexivity.
Defined.

(** ** The amino-acid pair of the fallback *)

(** X18: What [parse_amino_acids] returns are the two sides of the first slash,
    or of the first greater-than sign when there is no slash, each trimmed
    and neither empty. *)
Theorem parse_amino_acids_sides (amino_acids ref_aa alt_aa : string) :
  parse_amino_acids amino_acids = Some (ref_aa, alt_aa) ->
  ref_aa <> "" /\ alt_aa <> ""
  /\ PyStr.strip ref_aa = ref_aa /\ PyStr.strip alt_aa = alt_aa
  /\ exists (sep : ascii) (p0 p1 : string),
       (sep = "/"%char
        \/ sep = ">"%char /\ PyStr.contains "/" amino_acids = false)
       /\ amino_acids = p0 +:+ String sep p1
       /\ PyStr.contains (String sep "") p0 = false
       /\ ref_aa = PyStr.strip p0 /\ alt_aa = PyStr.strip p1.
Proof.
  unfold parse_amino_acids. destruct (_ || _)%bool; [discriminate|].
  assert (Hcut : forall (sep : ascii),
    PyStr.contains (String sep "") amino_acids = true ->
    match PyStr.split1 amino_acids sep with
    | [p0; p1] =>
        if (PyStr.truthy (PyStr.strip p0) && PyStr.truthy (PyStr.strip p1))%bool
        then Some (PyStr.strip p0, PyStr.strip p1) else None
    | _ => None
    end = Some (ref_aa, alt_aa) ->
    ref_aa <> "" /\ alt_aa <> ""
    /\ PyStr.strip ref_aa = ref_aa /\ PyStr.strip alt_aa = alt_aa
    /\ exists p0 p1 : string,
         amino_acids = p0 +:+ String sep p1
         /\ PyStr.contains (String sep "") p0 = false
         /\ ref_aa = PyStr.strip p0 /\ alt_aa = PyStr.strip p1).
  { intros sep Hc. destruct (split1_present amino_acids sep Hc) as (p0 & p1 & -> & H0 & ->).
    destruct (PyStr.truthy (PyStr.strip p0)) eqn:T0; [|discriminate].
    destruct (PyStr.truthy (PyStr.strip p1)) eqn:T1; [|discriminate].
    intros [= <- <-]. rewrite !strip_idem.
    split; [intros E; rewrite E in T0; discriminate|].
    split; [intros E; rewrite E in T1; discriminate|].
    split; [reflexivity|]. split; [reflexivity|]. eauto 6. }
  destruct (PyStr.contains "/" amino_acids) eqn:Hslash.
  - intros H. destruct (Hcut "/"%char Hslash H) as (? & ? & ? & ? & p0 & p1 & ?).
    repeat (split; [assumption|]). exists "/"%char, p0, p1. auto.
  - destruct (PyStr.contains ">" amino_acids) eqn:Hgt; [|discriminate].
    intros H. destruct (Hcut ">"%char Hgt H) as (? & ? & ? & ? & p0 & p1 & ?).
    repeat (split; [assumption|]). exists ">"%char, p0, p1. auto.
Qed.

Lemma parse_amino_acids_sides_witness :
  "A" <> "" /\ "T" <> ""
  /\ PyStr.strip "A" = "A" /\ PyStr.strip "T" = "T"
  /\ exists (sep : ascii) (p0 p1 : string),
       (sep = "/"%char \/ sep = ">"%char /\ PyStr.contains "/" " A > T" = false)
       /\ " A > T" = p0 +:+ String sep p1
       /\ PyStr.contains (String sep "") p0 = false
       /\ "A" = PyStr.strip p0 /\ "T" = PyStr.strip p1.
Proof.
  apply (parse_amino_acids_sides " A > T" "A" "T"). vm_compute. reflexivity.
Defined.

(** ** Composite and differently cased codes *)

(** X19: For every code of the table, [convert_aa_3_to_1] maps the code
    followed by fs or by ext to its letter followed by the same suffix,
    and maps the code written all in capitals or all in small letters to
    the same letter as the code itself. *)
Theorem convert_aa_3_to_1_composites (y x : string) :
  AA_3_TO_1_MAP !! y = Some x ->
  convert_aa_3_to_1 (y +:+ "fs") = x +:+ "fs"
  /\ convert_aa_3_to_1 (y +:+ "ext") = x +:+ "ext"
  /\ convert_aa_3_to_1 (PyStr.upper y) = x
  /\ convert_aa_3_to_1 (PyStr.lower y) = x
  /\ convert_aa_3_to_1 y = x.
Proof.
  intros H%AA_3_TO_1_items_of_lookup. unfold AA_3_TO_1_items in H.
  repeat (apply elem_of_cons in H as [H|H];
          [injection H as -> ->; vm_compute; repeat split|]).
  apply elem_of_nil in H. contradiction.
Qed.

Lemma convert_aa_3_to_1_composites_witness :
  convert_aa_3_to_1 ("Gly" +:+ "fs") = "G" +:+ "fs"
  /\ convert_aa_3_to_1 ("Gly" +:+ "ext") = "G" +:+ "ext"
  /\ convert_aa_3_to_1 (PyStr.upper "Gly") = "G"
  /\ convert_aa_3_to_1 (PyStr.lower "Gly") = "G"
  /\ convert_aa_3_to_1 "Gly" = "G".
Proof.
  apply (convert_aa_3_to_1_composites "Gly" "G"). vm_compute. reflexivity.
Defined.

(** ** The literature pipeline reading the records *)

Lemma first_field_truthy (variant : Variant) (fields : list string) (id : string) :
  first_field variant fields = Some id -> PyStr.truthy id = true.
Proof.
  induction fields as [|f fields IH]; [discriminate|]. cbn [first_field].
  destruct (od_get variant f) as [v|]; [|exact IH].
  destruct (PyStr.truthy v) eqn:Hv; [|exact IH]. intros [= <-]. exact Hv.
Qed.

Lemma first_field_some (variant : Variant) (fields : list string) (k v : string) :
  k ∈ fields -> od_get variant k = Some v -> PyStr.truthy v = true ->
  is_Some (first_field variant fields).
Proof.
  induction fields as [|f fields IH]; intros Hin Hk Hv;
    [apply elem_of_nil in Hin; contradiction|].
  cbn [first_field]. destruct (od_get variant f) as [w|] eqn:Hf.
  - destruct (PyStr.truthy w) eqn:Hw; [eauto|].
    apply elem_of_cons in Hin as [->|Hin]; [congruence | eauto].
  - apply elem_of_cons in Hin as [->|Hin]; [congruence | eauto].
Qed.

Lemma resolve_rsid (column_map : gmap string nat) (row : list string)
    (n : Z) (alt : string) (variant : Variant) :
  resolve column_map row n alt = Some variant ->
  od_get variant "rsid"
  = (if found (extract_rsid (get_column_value column_map row "Existing_variation"))
     then extract_rsid (get_column_value column_map row "Existing_variation")
     else None)
  /\ exists v, od_get variant "hgvsp_1" = Some v /\ PyStr.truthy v = true.
Proof.
  unfold resolve. destruct (absent _).
  - destruct (_ && _)%bool; [|discriminate].
    destruct (parse_amino_acids _) as [[? ?]|]; [|discriminate].
    intros [= <-]. split.
    + unfold fallback_entry, found. od_cases; reflexivity.
    + pose proof (fallback_entry_aliases
        (get_column_value column_map row "ID")
        (extract_rsid (get_column_value column_map row "Existing_variation"))
        (spdi_of column_map row n alt) (get_column_value column_map row "SYMBOL")
        (get_column_value column_map row "HGVSc")
        (get_column_value column_map row "MANE_SELECT")
        (get_column_value column_map row "Protein_position") s s0) as Ha.
      unfold protein_aliases in Ha. injection Ha as _ _ _ ->.
      eexists. split; [reflexivity|]. apply truthy_app_r. reflexivity.
  - destruct (parse_hgvsp _) as [[[[? ?] ?] ?]|]; [|discriminate].
    intros [= <-]. split.
    + unfold primary_entry, found. od_cases; reflexivity.
    + pose proof (primary_entry_aliases
        (get_column_value column_map row "ID")
        (extract_rsid (get_column_value column_map row "Existing_variation"))
        (spdi_of column_map row n alt) (get_column_value column_map row "SYMBOL")
        (get_column_value column_map row "HGVSc")
        (get_column_value column_map row "HGVSp")
        (get_column_value column_map row "MANE_SELECT") s0 s1 s2) as Ha.
      unfold protein_aliases in Ha. injection Ha as _ _ _ ->.
      eexists. split; [reflexivity|]. apply truthy_app_r. reflexivity.
Qed.

(** X20: For a record of the converter the literature pipeline always finds an
    identifier among the fields, never having to make one up, and the
    identifier is not empty; it is the rsID whenever the row had one. *)
Theorem variant_id_of_record (column_map : gmap string nat) (row : list string)
    (st : Stats) (variant : Variant) :
  fst (process_row column_map row st) = Some variant ->
  exists id : string,
    _get_variant_id variant = Some id /\ id <> ""
    /\ (found (extract_rsid (get_column_value column_map row "Existing_variation"))
        = true ->
        extract_rsid (get_column_value column_map row "Existing_variation")
        = Some id).
Proof.
  rewrite process_row_eq.
  destruct (negb (validate_chromosome _)); [discriminate|].
  destruct (negb (validate_position _)); [discriminate|].
  destruct (PyStr.startswith _ "Sniffles2"); [discriminate|].
  destruct (handle_multiallelic _) as [|alt alts]; [discriminate|].
  destruct (PyStr.int _) as [n|]; [|discriminate].
  cbn [fst]. intros H.
  destruct (resolve_rsid _ _ _ _ _ H) as (Hrs & v & Hv & Htv).
  assert (Hsome : is_Some (_get_variant_id variant)).
  { unfold _get_variant_id. eapply (first_field_some variant id_fields "hgvsp_1" v);
      [|exact Hv|exact Htv].
    apply list_elem_of_In. simpl. tauto. }
  destruct Hsome as [id Hid]. exists id. split; [exact Hid|]. split.
  - intros ->. apply first_field_truthy in Hid. discriminate.
  - intros Hf. rewrite Hf in Hrs. unfold _get_variant_id, id_fields in Hid.
    cbn [first_field] in Hid. rewrite Hrs in Hid.
    destruct (extract_rsid _) as [r|]; [|discriminate Hf].
    cbn [found] in Hf. rewrite Hf in Hid. congruence.
Qed.

Lemma variant_id_of_record_witness :
  exists id : string,
    _get_variant_id
      [("internal_id", "var1"); ("spdi", "17:43106477:G:A");
       ("hgvsp_3p", "BRCA1 p.Ala446Thr"); ("hgvsp_3", "BRCA1 Ala446Thr");
       ("hgvsp_1p", "BRCA1 p.A446T"); ("hgvsp_1", "BRCA1 A446T")] = Some id
    /\ id <> ""
    /\ (found (extract_rsid (get_column_value sample_map bare_row "Existing_variation"))
        = true ->
        extract_rsid (get_column_value sample_map bare_row "Existing_variation")
        = Some id).
Proof.
  apply (variant_id_of_record sample_map bare_row init_stats).
  vm_compute. reflexivity.
Defined.

Lemma unique_terms_spec (terms : list string) :
  forall seen : gset string,
    NoDup (unique_terms seen terms)
    /\ (forall t : string, t ∈ unique_terms seen terms <-> t ∈ terms /\ t ∉ seen)
    /\ sublist (unique_terms seen terms) terms.
Proof.
  induction terms as [|term terms IH]; intros seen; cbn [unique_terms].
  - split; [constructor|]. split; [|constructor].
    intros t. rewrite elem_of_nil. tauto.
  - case_bool_decide as Hseen.
    + destruct (IH seen) as (Hnd & Hmem & Hsub).
      split; [exact Hnd|]. split; [|apply sublist_cons; exact Hsub].
      intros t. rewrite Hmem, elem_of_cons. split; [tauto|].
      intros [[->|Ht] Hn]; [contradiction | tauto].
    + destruct (IH ({[term]} ∪ seen)) as (Hnd & Hmem & Hsub).
      split; [|split; [|apply sublist_skip; exact Hsub]].
      * constructor; [|exact Hnd]. rewrite Hmem. intros [_ Hn]. apply Hn.
        apply elem_of_union. left. apply elem_of_singleton. reflexivity.
      * intros t. rewrite !elem_of_cons, Hmem, not_elem_of_union, not_elem_of_singleton.
        destruct (decide (t = term)) as [->|Hne]; intuition auto.
Qed.

(** X21: The search terms of a record hold no term twice; they are exactly the
    non-empty values of the fields whose name, in small letters, is neither
    excluded nor starts with internal; and they come in the order of the
    record. *)
Theorem search_terms_distinct (variant : Variant) :
  NoDup (_get_search_terms variant)
  /\ (forall t : string,
        t ∈ _get_search_terms variant <->
        exists k : string, (k, t) ∈ variant /\ is_search_field k t = true)
  /\ sublist (_get_search_terms variant) (snd <$> variant).
Proof.
  unfold _get_search_terms.
  set (kept := List.filter _ variant).
  destruct (unique_terms_spec (snd <$> kept) ∅) as (Hnd & Hmem & Hsub).
  split; [exact Hnd|]. split.
  - intros t. rewrite Hmem, list_elem_of_fmap. split.
    + intros [([k t'] & -> & Hin) _]. exists k. cbn [snd].
      unfold kept in Hin. rewrite list_elem_of_In, filter_In, <- list_elem_of_In in Hin.
      exact Hin.
    + intros (k & Hin & Hf). split; [|apply not_elem_of_empty].
      exists (k, t). split; [reflexivity|].
      unfold kept. rewrite list_elem_of_In, filter_In, <- list_elem_of_In.
      split; assumption.
  - etrans; [exact Hsub|]. apply fmap_sublist.
    unfold kept. clear. induction variant as [|[k v] variant IH]; [constructor|].
    cbn [List.filter]. destruct (is_search_field k v);
      [apply sublist_skip | apply sublist_cons]; exact IH.
Qed.

(** For the sample record the terms are its aliases without the internal
    identifier, the repeated value listed once. *)
Lemma search_terms_sample :
  _get_search_terms
    [("internal_id", "var1"); ("rsid", "rs1"); ("spdi", "17:4:G:A");
     ("hgvs_full", "BRCA1:p.Ala446Thr"); ("hgvsp_3p", "BRCA1 p.Ala446Thr");
     ("hgvsp_3", "BRCA1 Ala446Thr"); ("hgvsp_1p", "BRCA1 p.A446T");
     ("hgvsp_1", "BRCA1 A446T"); ("Internal_note", "x"); ("alias", "rs1")]
  = ["rs1"; "17:4:G:A"; "BRCA1:p.Ala446Thr"; "BRCA1 p.Ala446Thr";
     "BRCA1 Ala446Thr"; "BRCA1 p.A446T"; "BRCA1 A446T"].
Proof. vm_compute. reflexivity. Qed.

(** ** Reading a protein change *)

Lemma span_eq (p : ascii -> bool) (s : string) :
  s = fst (Re.span p s) +:+ snd (Re.span p s).
Proof.
  induction s as [|c s IH]; [reflexivity|]. cbn [Re.span].
  destruct (p c); [|reflexivity].
  destruct (Re.span p s) as [w r]. cbn [fst snd] in *.
  change (String c w +:+ r) with (String c (w +:+ r)). rewrite <- IH. reflexivity.
Qed.

Lemma drop_len_app (l r : string) : PyStr.drop (PyStr.len l) (l +:+ r) = r.
Proof. induction l as [|c l IH]; [destruct r; reflexivity | exact IH]. Qed.

Lemma startswith_eq (s l : string) :
  PyStr.startswith s l = true -> s = l +:+ PyStr.drop (PyStr.len l) s.
Proof.
  revert s. induction l as [|a l IH]; intros s H; [destruct s; reflexivity|].
  destruct s as [|b s]; [discriminate|]. cbn [PyStr.startswith] in H.
  apply andb_true_iff in H as [Hab Hs]. apply bool_decide_eq_true in Hab as <-.
  cbn [PyStr.len PyStr.drop]. change (String a l +:+ ?x) with (String a (l +:+ x)).
  rewrite <- (IH s Hs). reflexivity.
Qed.

Lemma lit_eq (l s r : string) : Re.lit l s = Some r -> s = l +:+ r.
Proof.
  unfold Re.lit. destruct (PyStr.startswith s l) eqn:H; [|discriminate].
  intros [= <-]. apply startswith_eq, H.
Qed.

Lemma not_colon_chars (w : string) :
  PyStr.all_chars (fun c => negb (bool_decide (c = ":"%char))) w = true ->
  PyStr.contains ":" w = false.
Proof.
  induction w as [|c w IH]; [reflexivity|]. cbn [PyStr.all_chars].
  intros [Hc Hw]%andb_true_iff. cbn [PyStr.contains PyStr.startswith].
  rewrite (IH Hw), startswith_nil, andb_true_r, orb_false_r.
  apply negb_true_iff in Hc. apply bool_decide_eq_false in Hc.
  apply bool_decide_eq_false. congruence.
Qed.

(** What the start of every pattern reads: the identifier, the colon and
    the letter p. *)
Lemma head_eq (s pid r : string) :
  Re.head s = Some (pid, r) ->
  pid <> "" /\ PyStr.contains ":" pid = false
  /\ exists rest : string, s = pid +:+ ":" +:+ "p" +:+ rest.
Proof.
  unfold Re.head. intros H.
  destruct (Re.many1 _ s) as [[w r0]|] eqn:E; simpl in H; [|discriminate].
  destruct (Re.lit ":p" r0) as [r1|] eqn:El; simpl in H; [|discriminate].
  injection H as <- _.
  pose proof (many1_some _ _ _ _ E) as [Hw Hall].
  split; [intros ->; discriminate|]. split; [apply not_colon_chars, Hall|].
  exists r1. unfold Re.many1 in E. pose proof (span_eq (fun c => negb (bool_decide (c = ":"%char))) s) as Hs.
  destruct (Re.span _ s) as [w' r']. cbn [fst snd] in Hs.
  destruct (PyStr.truthy w'); [|discriminate]. injection E as <- <-.
  rewrite Hs. apply lit_eq in El. rewrite El. reflexivity.
Qed.

Lemma parse_hgvsp_head (hgvsp pid position ref_aa alt_aa : string) :
  parse_hgvsp hgvsp = Some (pid, position, ref_aa, alt_aa) ->
  PyStr.replace hgvsp "%3D" "=" = hgvsp
  /\ exists r : string, Re.head hgvsp = Some (pid, r).
Proof.
  unfold parse_hgvsp. destruct (_ || _)%bool; [discriminate|].
  destruct (PyStr.contains "=" (PyStr.replace hgvsp "%3D" "=")) eqn:Heq; [discriminate|].
  assert (Hsame : PyStr.replace hgvsp "%3D" "=" = hgvsp).
  { apply replace_absent. destruct (PyStr.contains "%3D" hgvsp) eqn:Hc; [|reflexivity].
    rewrite replaced_has_equals in Heq by auto. discriminate. }
  rewrite Hsame. intros H. split; [reflexivity|].
  unfold Re.pattern, Re.fs_pattern, Re.del_pattern, Re.dup_pattern,
    Re.range_pattern, Re.ins_pattern, Re.ext_pattern in H.
  destruct (Re.head hgvsp) as [[pid' r]|]; [|discriminate H].
  exists r. f_equal. f_equal. cbn [mbind option_bind] in H.
  repeat match type of H with
         | match ?m with _ => _ end = Some _ =>
             let E := fresh "E" in
             destruct m as [?|] eqn:E;
             [ repeat match goal with p : (_ * _)%type |- _ => destruct p end;
               first [ injection H as <- _ _ _; reflexivity | idtac ]
             | idtac ]
         end.
  all: try discriminate H.
  all: repeat match goal with
         | E : mbind _ ?m = Some _ |- _ =>
             destruct m as [?|]; simpl in E; [|discriminate E];
             repeat match goal with p : (_ * _)%type |- _ => destruct p end
         | E : (if ?b then _ else _) = Some _ |- _ =>
             destruct b; [|discriminate E]
         | E : Some _ = Some _ |- _ => injection E as <- <- <- <- || injection E as <- <- <-
         end.
  all: try reflexivity.
Qed.

(** X22: A parsed HGVSp is its protein identifier, a colon, and the clean
    protein change that goes into hgvs_full; the identifier is not empty
    and holds no colon, and the clean change starts with p. *)
Theorem parse_hgvsp_splits (hgvsp pid position ref_aa alt_aa : string) :
  parse_hgvsp hgvsp = Some (pid, position, ref_aa, alt_aa) ->
  pid <> "" /\ PyStr.contains ":" pid = false
  /\ hgvsp = pid +:+ ":" +:+ extract_clean_protein_change hgvsp
  /\ PyStr.startswith (extract_clean_protein_change hgvsp) "p" = true.
Proof.
  intros H. destruct (parse_hgvsp_head _ _ _ _ _ H) as (_ & r & Hhead).
  destruct (head_eq _ _ _ Hhead) as (Hne & Hcolon & rest & ->).
  split; [exact Hne|]. split; [exact Hcolon|].
  unfold extract_clean_protein_change.
  change (":" +:+ "p" +:+ rest) with (String ":" (String "p" rest)).
  rewrite contains_app_sep, (split1_joined pid (String "p" rest) ":" Hcolon).
  split; [reflexivity|]. cbn [PyStr.startswith]. rewrite startswith_nil. reflexivity.
Qed.

Lemma parse_hgvsp_splits_witness :
  "ENSP1" <> "" /\ PyStr.contains ":" "ENSP1" = false
  /\ "ENSP1:p.Glu386GlyfsTer6"
     = "ENSP1" +:+ ":" +:+ extract_clean_protein_change "ENSP1:p.Glu386GlyfsTer6"
  /\ PyStr.startswith (extract_clean_protein_change "ENSP1:p.Glu386GlyfsTer6") "p"
     = true.
Proof.
  apply (parse_hgvsp_splits "ENSP1:p.Glu386GlyfsTer6" "ENSP1" "386" "Glu" "Glyfs").
  vm_compute. reflexivity.
Defined.

(** ** Parsing a substitution that was written out *)

Lemma all_chars_app (p : ascii -> bool) (a b : string) :
  PyStr.all_chars p (a +:+ b) = (PyStr.all_chars p a && PyStr.all_chars p b)%bool.
Proof.
  induction a as [|c a IH]; [reflexivity|].
  change (String c a +:+ b) with (String c (a +:+ b)). cbn [PyStr.all_chars].
  rewrite IH, andb_assoc. reflexivity.
Qed.

Lemma all_chars_weaken (p q : ascii -> bool) (s : string) :
  (forall c, p c = true -> q c = true) ->
  PyStr.all_chars p s = true -> PyStr.all_chars q s = true.
Proof.
  intros Hpq. induction s as [|c s IH]; [reflexivity|]. cbn [PyStr.all_chars].
  intros [Hc Hs]%andb_true_iff. rewrite (Hpq c Hc), (IH Hs). reflexivity.
Qed.

Lemma contains_char_absent (x : ascii) (s : string) :
  PyStr.all_chars (fun c => negb (bool_decide (c = x))) s = true ->
  PyStr.contains (String x "") s = false.
Proof.
  induction s as [|c s IH]; [reflexivity|]. cbn [PyStr.all_chars].
  intros [Hc Hs]%andb_true_iff. cbn [PyStr.contains PyStr.startswith].
  rewrite (IH Hs), startswith_nil, andb_true_r, orb_false_r.
  apply negb_true_iff in Hc. apply bool_decide_eq_false in Hc.
  apply bool_decide_eq_false. congruence.
Qed.

Lemma contains_first_absent (x : ascii) (old s : string) :
  PyStr.all_chars (fun c => negb (bool_decide (c = x))) s = true ->
  PyStr.contains (String x old) s = false.
Proof.
  induction s as [|c s IH]; [reflexivity|]. cbn [PyStr.all_chars].
  intros [Hc Hs]%andb_true_iff. cbn [PyStr.contains PyStr.startswith].
  rewrite (IH Hs), orb_false_r.
  apply negb_true_iff in Hc. apply bool_decide_eq_false in Hc.
  rewrite bool_decide_false by congruence. reflexivity.
Qed.

(** The longest run stops where the text that follows begins with a
    character outside the class, or is empty. *)
Lemma span_app (p : ascii -> bool) (w r : string) :
  PyStr.all_chars p w = true ->
  match r with EmptyString => true | String c _ => negb (p c) end = true ->
  Re.span p (w +:+ r) = (w, r).
Proof.
  intros Hw Hr. induction w as [|c w IH].
  - change ("" +:+ r) with r. destruct r as [|c r]; [reflexivity|].
    cbn [Re.span]. apply negb_true_iff in Hr. rewrite Hr. reflexivity.
  - change (String c w +:+ r) with (String c (w +:+ r)).
    cbn [PyStr.all_chars] in Hw. apply andb_true_iff in Hw as [Hc Hw].
    cbn [Re.span]. rewrite Hc, (IH Hw). reflexivity.
Qed.

Lemma letters3_shape (w : string) :
  Re.letters3 w = Some (w, "") ->
  exists a b c : ascii,
    w = String a (String b (String c ""))
    /\ PyStr.is_alpha a = true /\ PyStr.is_alpha b = true /\ PyStr.is_alpha c = true.
Proof.
  unfold Re.letters3. destruct w as [|a [|b [|c w]]]; try discriminate.
  destruct (PyStr.is_alpha a) eqn:Ha; [|discriminate].
  destruct (PyStr.is_alpha b) eqn:Hb; [|discriminate].
  destruct (PyStr.is_alpha c) eqn:Hc; [|discriminate].
  cbn [andb]. intros [= ->]. exists a, b, c. auto.
Qed.

Lemma alpha_facts (c : ascii) :
  PyStr.is_alpha c = true ->
  PyStr.is_digit c = false /\ id_char c = true /\ c <> "("%char /\ c <> "*"%char.
Proof.
  unfold PyStr.is_alpha, PyStr.is_upper, PyStr.is_lower, PyStr.is_digit,
    PyStr.in_range, id_char.
  intros H.
  assert (Hcode : (65 <= PyStr.code c)%N).
  { apply orb_true_iff in H as [H|H]; apply andb_true_iff in H as [H _];
      apply N.leb_le in H; lia. }
  split; [apply andb_false_iff; right; apply N.leb_gt; lia|].
  assert (Hne : forall x : ascii, (PyStr.code x < 65)%N -> c <> x).
  { intros x Hx ->. lia. }
  split; [|split; apply Hne; vm_compute; reflexivity].
  rewrite !bool_decide_false by (apply Hne; vm_compute; reflexivity). reflexivity.
Qed.

Lemma digit_facts (c : ascii) :
  PyStr.is_digit c = true -> id_char c = true.
Proof.
  unfold PyStr.is_digit, PyStr.in_range, id_char.
  intros [H1 H2]%andb_true_iff. apply N.leb_le in H1, H2.
  assert (Hne : forall x : ascii,
            (PyStr.code x < 48 \/ 57 < PyStr.code x)%N -> c <> x).
  { intros x Hx ->. lia. }
  rewrite !bool_decide_false by (apply Hne; vm_compute; auto). reflexivity.
Qed.

Lemma id_char_facts (c : ascii) :
  id_char c = true ->
  negb (bool_decide (c = ":"%char)) = true
  /\ negb (bool_decide (c = "="%char)) = true
  /\ negb (bool_decide (c = "%"%char)) = true.
Proof.
  unfold id_char. intros H. apply negb_true_iff in H.
  apply orb_false_iff in H as [H H3]. apply orb_false_iff in H as [H1 H2].
  rewrite H1, H2, H3. auto.
Qed.

(** A substitution written out with identifier characters only is present
    and holds neither an equals sign nor its encoding. *)
Lemma plain_text (s : string) :
  PyStr.all_chars (fun c => negb (bool_decide (c = "="%char))
                            && negb (bool_decide (c = "%"%char)))%bool s = true ->
  PyStr.replace s "%3D" "=" = s /\ PyStr.contains "=" s = false.
Proof.
  intros H. split.
  - apply replace_absent, contains_first_absent.
    apply (all_chars_weaken _ _ _ (fun c Hc => proj2 (proj1 (andb_true_iff _ _) Hc)) H).
  - apply contains_char_absent.
    apply (all_chars_weaken _ _ _ (fun c Hc => proj1 (proj1 (andb_true_iff _ _) Hc)) H).
Qed.

Lemma head_joined (pid rest : string) (a : ascii) :
  pid <> "" -> PyStr.all_chars id_char pid = true -> a <> "("%char ->
  Re.head (pid +:+ ":p." +:+ String a rest) = Some (pid, String a rest).
Proof.
  intros Hne Hid Ha. unfold Re.head, Re.many1.
  change (":p." +:+ String a rest)
    with (String ":" (String "p" (String "." (String a rest)))).
  rewrite span_app;
    [|exact (all_chars_weaken _ _ _ (fun c Hc => proj1 (id_char_facts c Hc)) Hid)
     |reflexivity].
  destruct pid as [|p0 pid]; [congruence|]. cbn [PyStr.truthy mbind option_bind].
  unfold Re.lit. cbn [PyStr.startswith PyStr.len PyStr.drop].
  repeat (rewrite bool_decide_true by reflexivity;
          cbn [andb mbind option_bind Re.opt_char]).
  rewrite bool_decide_false by exact Ha. reflexivity.
Qed.

Lemma letters3_joined (a b c : ascii) (rest : string) :
  PyStr.is_alpha a = true -> PyStr.is_alpha b = true -> PyStr.is_alpha c = true ->
  Re.letters3 (String a (String b (String c rest)))
  = Some (String a (String b (String c "")), rest).
Proof. intros Ha Hb Hc. unfold Re.letters3. rewrite Ha, Hb, Hc. reflexivity. Qed.

Lemma digits_joined (position rest : string) :
  PyStr.isdigit position = true ->
  match rest with EmptyString => true | String c _ => negb (PyStr.is_digit c) end = true ->
  Re.digits (position +:+ rest) = Some (position, rest).
Proof.
  unfold PyStr.isdigit. intros [Hne Hd]%andb_true_iff Hrest.
  unfold Re.digits, Re.many1. rewrite (span_app _ _ _ Hd Hrest), Hne. reflexivity.
Qed.

Lemma parse_substitution_text (pid ref_aa position alt_aa : string) :
  pid <> "" ->
  PyStr.all_chars id_char pid = true ->
  Re.letters3 ref_aa = Some (ref_aa, "") ->
  PyStr.isdigit position = true ->
  Re.letters3 alt_aa = Some (alt_aa, "") \/ alt_aa = "*" ->
  parse_hgvsp (substitution pid ref_aa position alt_aa)
  = Some (pid, position, ref_aa, alt_aa).
Proof.
  intros Hne Hid Href Hpos Halt.
  destruct (letters3_shape _ Href) as (a & b & c & -> & Ha & Hb & Hc).
  assert (Hposd : PyStr.all_chars PyStr.is_digit position = true).
  { unfold PyStr.isdigit in Hpos. apply andb_true_iff in Hpos as [_ H]. exact H. }
  set (q := fun c : ascii => (negb (bool_decide (c = "="%char))
                              && negb (bool_decide (c = "%"%char)))%bool).
  assert (Hq : forall c, id_char c = true -> q c = true).
  { intros c0 H0. destruct (id_char_facts c0 H0) as (_ & H1 & H2).
    unfold q. rewrite H1, H2. reflexivity. }
  assert (Haltc : exists x alt', alt_aa = String x alt'
                    /\ PyStr.is_digit x = false
                    /\ PyStr.all_chars id_char alt_aa = true
                    /\ match Re.letters3 alt_aa with
                       | Some m => Some m
                       | None => (fun r' => ("*", r')) <$> Re.lit "*" alt_aa
                       end = Some (alt_aa, "")).
  { destruct Halt as [Halt| ->].
    - destruct (letters3_shape _ Halt) as (x & y & z & -> & Hx & Hy & Hz).
      exists x, (String y (String z "")). split; [reflexivity|].
      split; [apply alpha_facts, Hx|]. split; [|rewrite Halt; reflexivity].
      cbn [PyStr.all_chars].
      rewrite (proj1 (proj2 (alpha_facts x Hx))), (proj1 (proj2 (alpha_facts y Hy))),
        (proj1 (proj2 (alpha_facts z Hz))). reflexivity.
    - exists "*"%char, "". repeat split. }
  destruct Haltc as (x & alt' & Ealt & Hxd & Haltid & Haltm).
  set (s := substitution pid (String a (String b (String c ""))) position alt_aa).
  assert (Hplain : PyStr.all_chars q s = true).
  { unfold s, substitution. rewrite !all_chars_app.
    rewrite (all_chars_weaken _ _ _ Hq Hid), (all_chars_weaken _ _ _ Hq Haltid).
    rewrite (all_chars_weaken _ _ _ (fun c0 H0 => Hq c0 (digit_facts c0 H0)) Hposd).
    cbn [PyStr.all_chars].
    rewrite (Hq a (proj1 (proj2 (alpha_facts a Ha)))),
      (Hq b (proj1 (proj2 (alpha_facts b Hb)))),
      (Hq c (proj1 (proj2 (alpha_facts c Hc)))). reflexivity. }
  destruct (plain_text s Hplain) as [Hrep Heq].
  unfold parse_hgvsp.
  change (negb (PyStr.truthy s) || PyStr.eqb s "-")%bool with (absent s).
  assert (Habs : absent s = false).
  { unfold s, substitution.
    change (":p." +:+ ?r) with (String ":" ("p." +:+ r)).
    apply absent_joined. discriminate. }
  rewrite Habs, Hrep, Heq.
  assert (Hpat : Re.pattern s
                 = Some (pid, String a (String b (String c "")), position, alt_aa)).
  { unfold Re.pattern, s, substitution.
    change (String a (String b (String c "")) +:+ position +:+ alt_aa)
      with (String a (String b (String c (position +:+ alt_aa)))).
    rewrite (head_joined pid _ a Hne Hid (proj1 (proj2 (proj2 (alpha_facts a Ha))))).
    cbn [mbind option_bind]. rewrite (letters3_joined a b c _ Ha Hb Hc).
    cbn [mbind option_bind].
    rewrite (digits_joined position alt_aa Hpos)
      by (rewrite Ealt, Hxd; reflexivity).
    cbn [mbind option_bind]. rewrite Haltm. reflexivity. }
  rewrite Hpat. reflexivity.
Qed.

(** X23: Writing a simple substitution out and parsing it gives back its four
    parts: any identifier that is not empty and holds no colon, equals sign
    or percent sign, a reference of three letters, a position of digits and
    an alternative of three letters or a star. *)
Theorem parse_substitution (pid ref_aa position alt_aa : string) :
  pid <> "" ->
  PyStr.all_chars id_char pid = true ->
  Re.letters3 ref_aa = Some (ref_aa, "") ->
  PyStr.isdigit position = true ->
  Re.letters3 alt_aa = Some (alt_aa, "") \/ alt_aa = "*" ->
  parse_hgvsp (substitution pid ref_aa position alt_aa)
  = Some (pid, position, ref_aa, alt_aa).
Proof. exact (parse_substitution_text pid ref_aa position alt_aa). Qed.

Lemma parse_substitution_witness :
  parse_hgvsp (substitution "ENSP00000350283.3" "Ala" "1708" "*")
  = Some ("ENSP00000350283.3", "1708", "Ala", "*").
Proof.
  apply parse_substitution; try (vm_compute; reflexivity).
  - discriminate.
  - right. reflexivity.
Defined.

(** ** Parity of the two paths for every substitution *)

Lemma parse_amino_acids_joined (p0 p1 : string) :
  PyStr.contains "/" p0 = false ->
  PyStr.truthy (PyStr.strip p0) = true -> PyStr.truthy (PyStr.strip p1) = true ->
  parse_amino_acids (p0 +:+ "/" +:+ p1) = Some (PyStr.strip p0, PyStr.strip p1).
Proof.
  intros H0 T0 T1. unfold parse_amino_acids.
  change ("/" +:+ p1) with (String "/" p1).
  change (negb (PyStr.truthy (p0 +:+ String "/" p1))
          || PyStr.eqb (p0 +:+ String "/" p1) "-")%bool
    with (absent (p0 +:+ String "/" p1)).
  rewrite absent_joined by discriminate.
  rewrite contains_app_sep, (split1_joined p0 p1 "/" H0), T0, T1. reflexivity.
Qed.

Lemma parse_hgvsp_present (hgvsp : string) :
  parse_hgvsp hgvsp <> None -> absent hgvsp = false.
Proof.
  unfold parse_hgvsp, absent. destruct (_ || _)%bool; [congruence | reflexivity].
Qed.

(** What holds of every 1-letter code of the table. *)
Lemma letter_facts (y a : string) :
  AA_3_TO_1_MAP !! y = Some a ->
  PyStr.strip a = a /\ PyStr.truthy a = true /\ PyStr.contains "/" a = false
  /\ PyStr.len a = 1%nat
  /\ Re.letters3 (convert_1_to_3 a) = Some (convert_1_to_3 a, "")
  /\ convert_aa_3_to_1 (convert_1_to_3 a) = a.
Proof.
  intros H%AA_3_TO_1_items_of_lookup. unfold AA_3_TO_1_items in H.
  repeat (apply elem_of_cons in H as [H|H];
          [injection H as -> ->; vm_compute; repeat split|]).
  apply elem_of_nil in H. contradiction.
Qed.

Lemma digits_present (position : string) :
  PyStr.isdigit position = true ->
  (PyStr.truthy position && negb (PyStr.eqb position "-"))%bool = true.
Proof.
  unfold PyStr.isdigit, PyStr.eqb. intros [Hne Hd]%andb_true_iff. rewrite Hne.
  rewrite bool_decide_false; [reflexivity|]. intros ->. discriminate Hd.
Qed.

(** X24: For any two 1-letter codes of the table and any position, a row
    without HGVSp that carries the position and the pair of codes and a row
    that differs only in carrying the HGVSp spelling the same substitution
    in 3-letter codes are accepted or rejected together and carry the same
    four protein aliases. *)
Theorem fallback_parity_any (column_map : gmap string nat)
    (row1 row2 : list string) (st1 st2 : Stats)
    (y1 y2 ref_aa alt_aa position pid : string) :
  (forall name : string, name <> "HGVSp" ->
     get_column_value column_map row1 name = get_column_value column_map row2 name) ->
  AA_3_TO_1_MAP !! y1 = Some ref_aa ->
  AA_3_TO_1_MAP !! y2 = Some alt_aa ->
  PyStr.isdigit position = true ->
  pid <> "" -> PyStr.all_chars id_char pid = true ->
  absent (get_column_value column_map row1 "HGVSp") = true ->
  get_column_value column_map row1 "Protein_position" = position ->
  get_column_value column_map row1 "Amino_acids" = ref_aa +:+ "/" +:+ alt_aa ->
  get_column_value column_map row2 "HGVSp"
    = substitution pid (convert_1_to_3 ref_aa) position (convert_1_to_3 alt_aa) ->
  protein_aliases <$> fst (process_row column_map row1 st1)
    = protein_aliases <$> fst (process_row column_map row2 st2).
Proof.
  intros Hsame Hy1 Hy2 Hpos Hne Hid Ha Hpp Haa H2.
  destruct (letter_facts _ _ Hy1) as (S1 & T1 & N1 & L1 & P1 & C1).
  destruct (letter_facts _ _ Hy2) as (S2 & T2 & _ & L2 & P2 & C2).
  pose proof (parse_substitution_text pid (convert_1_to_3 ref_aa) position
                (convert_1_to_3 alt_aa) Hne Hid P1 Hpos (or_introl P2)) as Hparse.
  assert (Hcols : forall n alt,
    protein_aliases <$> resolve column_map row1 n alt
      = protein_aliases <$> resolve column_map row2 n alt).
  { intros n alt. unfold resolve. rewrite Ha, Hpp, Haa, H2.
    rewrite (Hsame "SYMBOL") by discriminate.
    rewrite (parse_hgvsp_present _ ltac:(rewrite Hparse; discriminate)), Hparse.
    rewrite (digits_present position Hpos).
    rewrite (parse_amino_acids_joined ref_aa alt_aa N1)
      by (rewrite ?S1, ?S2; assumption).
    rewrite S1, S2. cbn [fmap option_fmap option_map].
    rewrite fallback_entry_aliases, primary_entry_aliases.
    unfold side_3. rewrite L1, L2, C1, C2. reflexivity. }
  rewrite !process_row_eq.
  rewrite (Hsame "CHROM"), (Hsame "POS"), (Hsame "ID"), (Hsame "ALT")
    by discriminate.
  destruct (negb (validate_chromosome _)); [reflexivity|].
  destruct (negb (validate_position _)); [reflexivity|].
  destruct (PyStr.startswith _ "Sniffles2"); [reflexivity|].
  destruct (handle_multiallelic _) as [|alt alts]; [reflexivity|].
  destruct (PyStr.int _) as [n|]; [|reflexivity].
  cbn [fst]. apply Hcols.
Qed.

Lemma fallback_parity_any_witness :
  protein_aliases <$> fst (process_row sample_map bare_row init_stats)
    = protein_aliases <$> fst (process_row sample_map primary_row init_stats).
Proof.
  apply (fallback_parity_any sample_map bare_row primary_row init_stats init_stats
           "Ala" "Thr" "A" "T" "446" "X");
    try (vm_compute; reflexivity).
  - exact sample_rows_agree.
  - discriminate.
Defined.

(** ** The position written into SPDI *)

Lemma int_digits_uint (d : Decimal.uint) :
  forall acc : positive,
    PyStr.int_digits (Z.pos acc) true (NilEmpty.string_of_uint d)
    = Some (Z.pos (Pos.of_uint_acc d acc)).
Proof.
  induction d; intros acc; cbn [NilEmpty.string_of_uint Pos.of_uint_acc];
    [reflexivity|..];
    cbn [PyStr.int_digits];
    match goal with
    | |- (if PyStr.is_digit ?c then _ else _) = _ =>
        change (PyStr.is_digit c) with true; cbv iota;
        let v := eval vm_compute in (PyStr.digit_val c) in
        change (PyStr.digit_val c) with v
    end;
    rewrite <- IHd; f_equal; lia.
Qed.

Lemma int_digits_leading (d : Decimal.uint) :
  forall after_digit : bool,
    (match d with Decimal.Nil => after_digit | _ => true end) = true ->
    PyStr.int_digits 0 after_digit (NilEmpty.string_of_uint d)
    = Some (Z.of_N (Pos.of_uint d)).
Proof.
  induction d; intros b Hb; cbn [NilEmpty.string_of_uint Pos.of_uint];
    [cbn [PyStr.int_digits]; rewrite Hb; reflexivity|..];
    cbn [PyStr.int_digits];
    match goal with
    | |- (if PyStr.is_digit ?c then _ else _) = _ =>
        change (PyStr.is_digit c) with true; cbv iota;
        let v := eval vm_compute in (PyStr.digit_val c) in
        change (PyStr.digit_val c) with v
    end.
  1: { change (10 * 0 + 0) with 0. apply IHd. destruct d; reflexivity. }
  all: match goal with
       | |- PyStr.int_digits ?z true _ = _ =>
           let p := eval vm_compute in (Z.to_pos z) in
           change z with (Z.pos p); rewrite int_digits_uint; reflexivity
       end.
Qed.

(** The numeral of a number that is not negative reads back as that
    number. *)
Lemma int_str (n : Z) : 0 <= n -> PyStr.int (PyStr.str n) = Some n.
Proof.
  intros Hn. destruct n as [|p|p]; [reflexivity| |lia].
  pose proof (str_digits (Z.pos p) Hn) as Hd.
  assert (Hne : PyStr.truthy (PyStr.str (Z.pos p)) = true).
  { unfold PyStr.str. cbn [Z.to_int NilZero.string_of_int].
    unfold NilZero.string_of_uint. destruct (Pos.to_uint p); reflexivity. }
  unfold PyStr.int. rewrite (strip_digits _ Hd).
  assert (Hdig : PyStr.int_digits 0 false (PyStr.str (Z.pos p)) = Some (Z.pos p)).
  { unfold PyStr.str. cbn [Z.to_int NilZero.string_of_int].
    unfold NilZero.string_of_uint.
    pose proof (DecimalPos.Unsigned.of_to p) as H.
    destruct (Pos.to_uint p) eqn:E; [discriminate H|..];
      rewrite int_digits_leading by reflexivity; rewrite H; reflexivity. }
  rewrite <- Hdig.
  destruct (PyStr.str (Z.pos p)) as [|c s] eqn:E; [discriminate Hne|].
  cbn [PyStr.all_chars] in Hd. apply andb_true_iff in Hd as [Hc _].
  destruct c as [[] [] [] [] [] [] [] []]; try reflexivity; discriminate Hc.
Qed.

(** X25: In the SPDI of an accepted row the field after the chromosome is a
    string of digits that reads back as POS - 1, whatever form POS was
    written in; the chromosome is written with every chr taken out, and
    the row's REF and first allele follow. *)
Theorem spdi_position_reads_back (column_map : gmap string nat)
    (row : list string) (st : Stats) (variant : Variant) :
  fst (process_row column_map row st) = Some variant ->
  exists (n : Z) (field alt : string),
    PyStr.int (get_column_value column_map row "POS") = Some n /\ 0 < n
    /\ head (handle_multiallelic (get_column_value column_map row "ALT")) = Some alt
    /\ od_get variant "spdi"
       = Some (PyStr.replace (get_column_value column_map row "CHROM") "chr" ""
               +:+ ":" +:+ field +:+ ":" +:+ get_column_value column_map row "REF"
               +:+ ":" +:+ alt)
    /\ PyStr.isdigit field = true
    /\ PyStr.int field = Some (n - 1).
Proof.
  intros H. rewrite process_row_eq in H.
  destruct (negb (validate_chromosome _)); [discriminate|].
  destruct (validate_position _) eqn:Hp; [|discriminate].
  destruct (validate_position_int _ Hp) as (n & Hn & Hpos).
  cbn [negb] in H. destruct (PyStr.startswith _ "Sniffles2"); [discriminate|].
  rewrite Hn in H.
  destruct (handle_multiallelic _) as [|alt alts]; [discriminate|].
  cbn [fst] in H. apply resolve_spdi in H.
  exists n, (PyStr.str (n - 1)), alt.
  split; [exact Hn|]. split; [exact Hpos|]. split; [reflexivity|].
  split; [exact H|]. split; [|apply int_str; lia].
  unfold PyStr.isdigit. rewrite str_digits by lia.
  destruct (PyStr.str (n - 1)) eqn:E; [|reflexivity].
  pose proof (int_str (n - 1) ltac:(lia)) as Hi. rewrite E in Hi. discriminate Hi.
Qed.

Lemma spdi_position_reads_back_witness :
  exists (n : Z) (field alt : string),
    PyStr.int (get_column_value sample_map brca1_row "POS") = Some n /\ 0 < n
    /\ head (handle_multiallelic (get_column_value sample_map brca1_row "ALT"))
       = Some alt
    /\ od_get [("internal_id", "rs80357382"); ("rsid", "rs80357382");
               ("spdi", "17:43106477:G:A");
               ("hgvs_full", "NM_007294.4(BRCA1):c.5123C>A(p.Ala1708Glu)");
               ("hgvsc", "BRCA1 c.5123C>A"); ("hgvsp_3p", "BRCA1 p.Ala1708Glu");
               ("hgvsp_3", "BRCA1 Ala1708Glu"); ("hgvsp_1p", "BRCA1 p.A1708E");
               ("hgvsp_1", "BRCA1 A1708E")] "spdi"
       = Some (PyStr.replace (get_column_value sample_map brca1_row "CHROM") "chr" ""
               +:+ ":" +:+ field +:+ ":" +:+ get_column_value sample_map brca1_row "REF"
               +:+ ":" +:+ alt)
    /\ PyStr.isdigit field = true
    /\ PyStr.int field = Some (n - 1).
Proof.
  apply (spdi_position_reads_back sample_map brca1_row init_stats).
  vm_compute. reflexivity.
Defined.
